(** * manage_local_batch.py : chunk planning, script generation and
      reconciliation of a MegaDetector batch

    A shallow embedding of the job-chunking core of
    [notebooks/manage_local_batch.py]: the enumeration cell, the chunk
    manifests, the generation of the per-task scripts, and the validation
    and merge passes over the per-chunk result files.

    Conventions of the embedding.
    - A Python [str] is a [string] (a sequence of 8-bit characters); [sorted]
      on strings is the order of [String.le], character codes compared
      left to right.
    - A Python [int] is a [Z] where the code compares it with zero, and a
      [nat] where it is an index or a count.
    - The script is embedded as it runs with [os.name = 'posix']: the
      [if os.name == 'nt'] branches are not taken and [os.path] is
      [posixpath].
    - A file holds text that is not JSON, or a JSON value.  A JSON array
      is an array of strings, and an object with the key ['images'] is a
      results object of the shape the detector writes; any other object, a
      string, a number, [true], [false] and [null] are kept as far as the
      script can tell them apart.
    - A cell of the notebook is a computation in the monad [M]: it threads
      the world (the files on disk and what was printed) and stops at the
      first exception raised. *)

From Stdlib Require Import ZArith Lia Ascii DecimalString DecimalNat.
From stdpp Require Import base decidable option list sorting gmap strings.

(** ** Python string primitives *)

Module Py.

(** [s.startswith(p)] *)
Definition startswith (s p : string) : bool := String.prefix p s.

(** [s[n:]] *)
Fixpoint drop (n : nat) (s : string) : string :=
  match n, s with
  | O, _ => s
  | S _, "" => ""
  | S k, String _ s' => drop k s'
  end.

(** [s.endswith(p)] *)
Definition endswith (s p : string) : bool :=
  String.prefix (String.rev p) (String.rev s).

(** [sub in s] *)
Fixpoint contains (s sub : string) : bool :=
  String.prefix sub s ||
  match s with
  | "" => false
  | String _ s' => contains s' sub
  end.

(** [s.replace(old, new, 1)]: the leftmost occurrence of [old] is replaced,
    wherever in [s] it starts. *)
Fixpoint replace_first (old new s : string) : string :=
  if String.prefix old s then new +:+ drop (String.length old) s
  else match s with
       | "" => ""
       | String c s' => String c (replace_first old new s')
       end.

(** [s.replace(old, new)] for a non-empty [old]: every occurrence, leftmost
    first, occurrences not overlapping.  [skip] counts the characters of
    the occurrence just replaced that are still to be passed over. *)
Fixpoint replace_from (skip : nat) (old new s : string) : string :=
  match s with
  | "" => ""
  | String c s' =>
      match skip with
      | S k => replace_from k old new s'
      | O =>
          if String.prefix old s
          then new +:+ replace_from (String.length old - 1) old new s'
          else String c (replace_from 0 old new s')
      end
  end.

(** With an empty [old], Python puts [new] before every character and at
    the end. *)
Fixpoint intersperse (new s : string) : string :=
  match s with
  | "" => new
  | String c s' => new +:+ String c (intersperse new s')
  end.

Definition replace (old new s : string) : string :=
  match old with
  | "" => intersperse new s
  | _ => replace_from 0 old new s
  end.

(** [str(n)] for a natural number, in decimal. *)
Definition str (n : nat) : string :=
  NilEmpty.string_of_uint (Nat.to_uint n).

(** [str(z)] for an integer. *)
Definition str_int (z : Z) : string :=
  if (z <? 0)%Z then "-" +:+ str (Z.abs_nat z) else str (Z.to_nat z).

Fixpoint zeros (n : nat) : string :=
  match n with
  | O => ""
  | S k => String "0"%char (zeros k)
  end.

(** [s.zfill(width)] for a string without sign. *)
Definition zfill (width : nat) (s : string) : string :=
  zeros (width - String.length s) +:+ s.

(** [sorted(l)] on a list of strings. *)
Definition sorted (l : list string) : list string :=
  merge_sort String.le l.

(** [os.path.isabs] of posixpath. *)
Definition isabs (p : string) : bool := startswith p "/".

(** [os.path.join(a, b)] of posixpath. *)
Definition join (a b : string) : string :=
  if startswith b "/" then b
  else if decide (a = "") then b
  else if endswith a "/" then a +:+ b
  else a +:+ "/" +:+ b.

End Py.

(** ** Exceptions and the world *)

Inductive exn : Type :=
| AssertionError (msg : option string)
| Exception (msg : string)
| KeyError (key : string)
| TypeError
| JSONDecodeError
| FileNotFoundError (path : string)
| ZeroDivisionError
| IndexError.

(** One image record of a results file: its path, the ['failure'] key
    (absent, present with [null], present with a value) and the rest of the
    record (detections and so on), which the script never inspects. *)
Record image : Type := Image {
  im_file : string;
  im_failure : option (option string);
  im_rest : string
}.

Record info : Type := Info {
  format_version : string;
  info_rest : string
}.

(** A results object as [json.load] returns it, per chunk or combined.  The
    keys ['info'] and ['detection_categories'] may be absent. *)
Record task_results : Type := TaskResults {
  tr_info : option info;
  tr_detection_categories : option (gmap string string);
  tr_images : list image
}.

(** What a file holds: text that is not JSON, or the value [json.load]
    returns.  A JSON array is an array of strings, the shape of a chunk
    manifest; a results object is an object with the key ['images'], and
    has the keys the script reads; of an object without the key ['images']
    the embedding keeps the keys, in the order of the file; a scalar is a
    number, [true], [false] or [null]. *)
Inductive file_data : Type :=
| Text (s : string)
| JsonList (l : list string)
| JsonResults (r : task_results)
| JsonObject (keys : list string)
| JsonString (s : string)
| JsonScalar.

Record file : Type := File {
  f_data : file_data;
  f_exec : bool
}.

Record world : Type := World {
  files : gmap string file;
  stdout : list string
}.

Definition M (A : Type) : Type := world -> world * (exn + A).

Definition ret {A} (a : A) : M A := fun w => (w, inr a).

Definition raise {A} (e : exn) : M A := fun w => (w, inl e).

Definition bind {A B} (m : M A) (k : A -> M B) : M B :=
  fun w =>
    match m w with
    | (w', inl e) => (w', inl e)
    | (w', inr a) => k a w'
    end.

Notation "x <- m ;; k" := (bind m (fun x => k))
  (at level 100, m at next level, right associativity).
Notation "m ;;; k" := (bind m (fun _ => k))
  (at level 100, right associativity).

(** [assert c, msg] *)
Definition assert (c : bool) (msg : option string) : M unit :=
  if c then ret tt else raise (AssertionError msg).

(** [print(s)] *)
Definition print (s : string) : M unit :=
  fun w => (World (files w) (stdout w ++ [s]), inr tt).

(** [os.path.isfile(p)] *)
Definition isfile (p : string) : M bool :=
  fun w => (w, inr (bool_decide (is_Some (files w !! p)))).

(** [with open(p,'w') as f: f.write(d)]: a new file is not executable, an
    existing one keeps its mode. *)
Definition write_file (p : string) (d : file_data) : M unit :=
  fun w =>
    let x := match files w !! p with
             | Some f => f_exec f
             | None => false
             end in
    (World (<[p := File d x]> (files w)) (stdout w), inr tt).

(** [st = os.stat(p); os.chmod(p, st.st_mode | stat.S_IEXEC)] *)
Definition chmod_exec (p : string) : M unit :=
  fun w =>
    match files w !! p with
    | Some f => (World (<[p := File (f_data f) true]> (files w)) (stdout w), inr tt)
    | None => (w, inl (FileNotFoundError p))
    end.

(** [with open(p,'r') as f: json.load(f)] *)
Definition json_load (p : string) : M file_data :=
  fun w =>
    match files w !! p with
    | None => (w, inl (FileNotFoundError p))
    | Some f =>
        match f_data f with
        | Text _ => (w, inl JSONDecodeError)
        | d => (w, inr d)
        end
    end.

(** A [for] loop that threads an accumulator. *)
Fixpoint foldM {A B} (f : B -> A -> M B) (l : list A) (b : B) : M B :=
  match l with
  | [] => ret b
  | a :: l' => b' <- f b a ;; foldM f l' b'
  end.

(** ** Enumerate files *)

Section Enumerate.

(** The names [os.listdir(filename_base)] returns, in the order the
    operating system gives them. *)
Variable listing : list string.

(** What [path_utils.find_images(input_path, recursive=True,
    convert_slashes=True)] returns. *)
Variable found : list string.

Definition is_digit (c : ascii) : bool :=
  bool_decide (is_Some (Ascii.is_nat c)).

(** The tail of [chunk\d+.json] once at least one digit is consumed: more
    digits, then any character but a newline, then [json].  [re.match]
    anchors at the start of the name only. *)
Fixpoint after_digit (s : string) : bool :=
  match s with
  | "" => false
  | String c s' =>
      (negb (bool_decide (c = "010"%char)) && String.prefix "json" s')
      || (is_digit c && after_digit s')
  end.

(** [pattern.match(fn)] for [pattern = re.compile('chunk\d+.json')] *)
Definition pattern_match (fn : string) : bool :=
  Py.startswith fn "chunk" &&
  match Py.drop 5 fn with
  | "" => false
  | String c s' => is_digit c && after_digit s'
  end.

Definition excluded (fn : string) : bool :=
  Py.startswith fn "$RECYCLE" || Py.startswith fn "System Volume Information".

(** The enumeration branch: sort what was found, then drop the entries of
    the recycle bin and of the volume information folder. *)
Definition enumerate_images : list string :=
  let all_images := Py.sorted found in
  filter (fun fn => negb (excluded fn)) all_images.

(** The body of the recovery loop for one chunk file. *)
Definition load_chunk (filename_base : string)
    (all_images : list string) (fn : string) : M (list string) :=
  chunk <- json_load (Py.join filename_base fn) ;;
  match chunk with
  | JsonList l => ret (all_images ++ l)
  | _ => raise (AssertionError None)
  end.

(** The cell [Enumerate files]. *)
Definition enumerate_files (force_enumeration : bool)
    (filename_base input_path : string) : M (list string) :=
  let chunk_files := filter (fun fn => pattern_match fn) listing in
  if negb force_enumeration && (0 <? length chunk_files)%nat then
    print ("Found " +:+ Py.str (length chunk_files)
           +:+ " chunk files in folder " +:+ filename_base
           +:+ ", bypassing enumeration") ;;;
    all_images <- foldM (load_chunk filename_base) chunk_files [] ;;
    let all_images := Py.sorted all_images in
    print ("Loaded " +:+ Py.str (length all_images) +:+ " image files from "
           +:+ Py.str (length chunk_files) +:+ " chunks in " +:+ filename_base) ;;;
    ret all_images
  else
    print ("Enumerating image files in " +:+ input_path) ;;;
    let all_images := enumerate_images in
    print "" ;;;
    print ("Enumerated " +:+ Py.str (length all_images) +:+ " image files in "
           +:+ input_path) ;;;
    ret all_images.

End Enumerate.


(** ** Divide images into chunks *)

(** Modelled from the spec: [split_list_into_n_chunks] of
    [megadetector.utils.ct_utils], which the notebook imports and whose body
    is not among the sources.  The spec asks for [n] chunks ([min(n,m)] when
    the list has [m < n] elements), contiguous, in order, of sizes that
    differ by at most one, 7 elements in 2 chunks being split 4 and 3: the
    first [m mod c] of the [c] chunks take one element more.  The spec
    says nothing of a chunk count of zero.  [reshape] cuts a list into
    consecutive slices of the given sizes. *)
Definition split_list_into_n_chunks {A} (L : list A) (n : nat) : list (list A) :=
  let m := length L in
  let c := Nat.min n m in
  let k := m / c in
  let r := m mod c in
  reshape ((fun i => if (i <? r)%nat then S k else k) <$> seq 0 c) L.

(** ** Tasks *)

(** The dictionary of one task.  ['id'] and ['input_file'] are there from
    the start; the other keys are added by later cells. *)
Record task : Type := Task {
  t_id : nat;
  input_file : string;
  output_file : option string;
  command : option string;
  command_file : option string;
  resume_command : option string;
  resume_command_file : option string;
  n_failures : option nat;
  results : option task_results
}.

(** [d[key]] on a key that may be absent *)
Definition getitem {A} (key : string) (v : option A) : M A :=
  match v with
  | Some a => ret a
  | None => raise (KeyError key)
  end.

(** [enumerate(l)] *)
Definition enumerate {A} (l : list A) : list (nat * A) :=
  zip (seq 0 (length l)) l.

(** ['chunk{}.json'.format(str(i_chunk).zfill(3))] *)
Definition chunk_name (i_chunk : nat) : string :=
  "chunk" +:+ Py.zfill 3 (Py.str i_chunk) +:+ ".json".

(** Modelled from the spec: [path_utils.write_list_to_file], not among the
    sources; a chunk manifest file is a JSON array of image-path strings. *)
Definition write_list_to_file (fn : string) (l : list string) : M unit :=
  write_file fn (JsonList l).

Definition new_task (i : nat) (fn : string) : task :=
  Task i fn None None None None None None None.

(** The cell [Write file lists]. *)
Definition write_file_lists (filename_base : string)
    (folder_chunks : list (list string)) : M (list task) :=
  foldM (fun task_info '(i_chunk, chunk_list) =>
           let chunk_fn := Py.join filename_base (chunk_name i_chunk) in
           let task_info := task_info ++ [new_task i_chunk chunk_fn] in
           write_list_to_file chunk_fn chunk_list ;;;
           ret task_info)
        (enumerate folder_chunks) [].


(** ** Configuration *)

(** The module-level constants the cells read.  A float is kept as the text
    [str()] gives for it. *)
Record config : Type := Config {
  json_threshold : option string;
  max_tolerable_failed_images : Z;
  use_image_queue : bool;
  default_gpu_number : nat;
  quiet_mode : bool;
  image_size : option Z;
  include_image_size : bool;
  include_image_timestamp : bool;
  include_exif_data : bool;
  detector_options : option string;
  ncores : Z;
  force_enumeration : bool;
  overwrite_handling : string;
  use_yolo_inference_scripts : bool;
  yolo_working_dir : option string;
  yolo_dataset_file : option string;
  yolo_model_type : option string;
  yolo_batch_size : Z;
  remove_yolo_intermediate_results : bool;
  remove_yolo_symlink_folder : bool;
  use_symlinks_for_yolo_inference : bool;
  write_yolo_debug_output : bool;
  augment : bool;
  use_tiled_inference : bool;
  remove_tiles : bool;
  tile_size : option (Z * Z);
  tile_overlap : option string;
  input_path : string;
  model_file : string;
  n_jobs : nat;
  n_gpus : nat;
  checkpoint_frequency : option Z;
  (** [os.path.join(base_output_folder_name, base_task_name)] *)
  filename_base : string;
  combined_api_output_file : string;
  (** [DEFAULT_OUTPUT_CONFIDENCE_THRESHOLD] of [run_detector] *)
  default_output_confidence_threshold : string
}.

Definition nl : string := String "010"%char "".
Definition dq : string := String "034"%char "".

(** [s] between double quotes *)
Definition quoted (s : string) : string := dq +:+ s +:+ dq.

Definition script_extension : string := ".sh".
Definition script_header : string :=
  "#!/bin/bash" +:+ nl +:+ nl +:+ "set -e" +:+ nl.

(** ** Derived variables, constant validation, path setup *)

Definition is_None {A} (o : option A) : bool :=
  match o with
  | None => true
  | Some _ => false
  end.

(** The assertions of the cell, in the order of the source. *)
Definition validate_constants (cfg : config) : M unit :=
  (if use_image_queue cfg then
     assert (is_None (checkpoint_frequency cfg))
       (Some "Checkpointing is not supported when using an image queue")
   else ret tt) ;;;
  (if augment cfg then
     assert (is_None (checkpoint_frequency cfg))
       (Some "Checkpointing is not supported when using augmentation") ;;;
     assert (use_yolo_inference_scripts cfg)
       (Some "Augmentation is only supported when running with the YOLO inference scripts")
   else ret tt) ;;;
  (if use_tiled_inference cfg then
     assert (negb (augment cfg))
       (Some "Augmentation is not supported when using tiled inference") ;;;
     assert (negb (use_yolo_inference_scripts cfg))
       (Some "Using the YOLO inference script is not supported when using tiled inference") ;;;
     assert (is_None (checkpoint_frequency cfg))
       (Some "Checkpointing is not supported when using tiled inference")
   else ret tt).

(** [s[0:-1]] *)
Fixpoint drop_last (s : string) : string :=
  match s with
  | "" => ""
  | String c "" => ""
  | String c s' => String c (drop_last s')
  end.

(** [if input_path.endswith('/'): input_path = input_path[0:-1]] *)
Definition strip_input_path (p : string) : string :=
  if Py.endswith p "/" then drop_last p else p.

(** ** Generate commands *)

Definition gpu_number_of (cfg : config) (i_task : nat) : nat :=
  if (1 <? n_gpus cfg)%nat then i_task mod n_gpus cfg
  else default_gpu_number cfg.

Definition image_size_string (cfg : config) : string :=
  match image_size cfg with
  | Some sz => "--image_size " +:+ Py.str_int sz
  | None => ""
  end.

(** The command of a task run through [run_inference_with_yolov5_val.py].
    The string for the debug-output flag stays empty: the source assigns the
    flag text to [write_yolo_debug_output] itself, not to the string that
    goes into the command. *)
Definition yolo_command (cfg : config) (i_task gpu_number : nat)
    (chunk_file output_fn : string) : string :=
  let augment_string :=
    if augment cfg then "--augment_enabled 1" else "--augment_enabled 0" in
  let batch_string := "--batch_size " +:+ Py.str_int (yolo_batch_size cfg) in
  let symlink_folder :=
    Py.join (Py.join (filename_base cfg) "symlinks")
            ("symlinks_" +:+ Py.zfill 3 (Py.str i_task)) in
  let yolo_results_folder :=
    Py.join (Py.join (filename_base cfg) "yolo_results")
            ("yolo_results_" +:+ Py.zfill 3 (Py.str i_task)) in
  let symlink_folder_string := "--symlink_folder " +:+ quoted symlink_folder in
  let yolo_results_folder_string :=
    "--yolo_results_folder " +:+ quoted yolo_results_folder in
  let remove_symlink_folder_string :=
    if negb (remove_yolo_symlink_folder cfg)
    then "--no_remove_symlink_folder" else "" in
  let write_yolo_debug_output_string := "" in
  let remove_yolo_results_string :=
    if negb (remove_yolo_intermediate_results cfg)
    then "--no_remove_yolo_results_folder" else "" in
  let confidence_threshold_string :=
    match json_threshold cfg with
    | Some t => "--conf_thres " +:+ t
    | None => "--conf_thres " +:+ default_output_confidence_threshold cfg
    end in
  let device_string := "--device " +:+ Py.str gpu_number in
  let overwrite_handling_string :=
    "--overwrite_handling " +:+ overwrite_handling cfg in
  let cmd := "" in
  let cmd := cmd +:+ "python run_inference_with_yolov5_val.py "
    +:+ quoted (model_file cfg) +:+ " " +:+ quoted chunk_file +:+ " "
    +:+ quoted output_fn +:+ " " in
  let cmd := cmd +:+ image_size_string cfg +:+ " " +:+ augment_string +:+ " " in
  let cmd := cmd +:+ symlink_folder_string +:+ " "
    +:+ yolo_results_folder_string +:+ " "
    +:+ remove_yolo_results_string +:+ " " in
  let cmd := cmd +:+ remove_symlink_folder_string +:+ " "
    +:+ confidence_threshold_string +:+ " " +:+ device_string +:+ " " in
  let cmd := cmd +:+ overwrite_handling_string +:+ " " +:+ batch_string
    +:+ " " +:+ write_yolo_debug_output_string in
  let cmd :=
    match yolo_working_dir cfg with
    | Some d => cmd +:+ " --yolo_working_folder " +:+ quoted d
    | None => cmd
    end in
  let cmd :=
    match yolo_dataset_file cfg with
    | Some f => cmd +:+ " --yolo_dataset_file " +:+ quoted f
    | None => cmd
    end in
  let cmd :=
    match yolo_model_type cfg with
    | Some t => cmd +:+ " --model_type " +:+ t
    | None => cmd
    end in
  let cmd :=
    if negb (use_symlinks_for_yolo_inference cfg)
    then cmd +:+ " --no_use_symlinks" else cmd in
  cmd +:+ nl.

(** The command of a task run through [run_tiled_inference.py]. *)
Definition tiled_command (cfg : config) (i_task gpu_number : nat)
    (chunk_file output_fn : string) : string :=
  let tiling_folder :=
    Py.join (Py.join (filename_base cfg) "tile_cache")
            ("tile_cache_" +:+ Py.zfill 3 (Py.str i_task)) in
  let cuda_string := "CUDA_VISIBLE_DEVICES=" +:+ Py.str gpu_number +:+ " " in
  let cmd := cuda_string +:+ " python run_tiled_inference.py "
    +:+ quoted (model_file cfg) +:+ " " +:+ quoted (input_path cfg) +:+ " "
    +:+ quoted tiling_folder +:+ " " +:+ quoted output_fn in
  let cmd := cmd +:+ " --image_list " +:+ quoted chunk_file in
  let cmd := cmd +:+ " --overwrite_handling " +:+ overwrite_handling cfg in
  let cmd := if negb (remove_tiles cfg) then cmd +:+ " --no_remove_tiles" else cmd in
  let cmd :=
    match tile_size cfg with
    | Some (x, y) =>
        if (0 <? x)%Z || (0 <? y)%Z
        then cmd +:+ " --tile_size_x " +:+ Py.str_int x
                 +:+ " --tile_size_y " +:+ Py.str_int y
        else cmd
    | None => cmd
    end in
  match tile_overlap cfg with
  | Some o => cmd +:+ " --tile_overlap " +:+ o
  | None => cmd
  end.

(** [checkpoint_frequency is not None and checkpoint_frequency > 0]: the
    test under which the command of a task takes its checkpoint flags. *)
Definition checkpointing_on (cfg : config) : bool :=
  match checkpoint_frequency cfg with
  | Some f => (0 <? f)%Z
  | None => false
  end.

(** The command of a task run through [run_detector_batch.py]. *)
Definition detector_command (cfg : config) (gpu_number : nat)
    (chunk_file output_fn checkpoint_filename : string) : string :=
  let cuda_string := "CUDA_VISIBLE_DEVICES=" +:+ Py.str gpu_number +:+ " " in
  let checkpoint_frequency_string :=
    match checkpoint_frequency cfg with
    | Some f => if (0 <? f)%Z then "--checkpoint_frequency " +:+ Py.str_int f else ""
    | None => ""
    end in
  let checkpoint_path_string :=
    if checkpointing_on cfg
    then "--checkpoint_path " +:+ quoted checkpoint_filename else "" in
  let use_image_queue_string :=
    if use_image_queue cfg then "--use_image_queue" else "" in
  let ncores_string :=
    if (1 <? ncores cfg)%Z then "--ncores " +:+ Py.str_int (ncores cfg) else "" in
  let quiet_string := if quiet_mode cfg then "--quiet" else "" in
  let confidence_threshold_string :=
    match json_threshold cfg with
    | Some t => "--threshold " +:+ t
    | None => ""
    end in
  let overwrite_handling_string :=
    "--overwrite_handling " +:+ overwrite_handling cfg in
  let cmd := cuda_string +:+ " python run_detector_batch.py "
    +:+ quoted (model_file cfg) +:+ " " +:+ quoted chunk_file +:+ " "
    +:+ quoted output_fn +:+ " " +:+ checkpoint_frequency_string +:+ " "
    +:+ checkpoint_path_string +:+ " " +:+ use_image_queue_string +:+ " "
    +:+ ncores_string +:+ " " +:+ quiet_string +:+ " "
    +:+ image_size_string cfg +:+ " " +:+ confidence_threshold_string +:+ " "
    +:+ overwrite_handling_string in
  let cmd := if include_image_size cfg then cmd +:+ " --include_image_size" else cmd in
  let cmd :=
    if include_image_timestamp cfg then cmd +:+ " --include_image_timestamp" else cmd in
  let cmd := if include_exif_data cfg then cmd +:+ " --include_exif_data" else cmd in
  match detector_options cfg with
  | Some o => cmd +:+ " --detector_options " +:+ quoted o
  | None => cmd
  end.

(** A script file: the header, then the command, made executable. *)
Definition write_script (path body : string) : M unit :=
  write_file path
    (Text ((if (0 <? String.length script_header)%nat
            then script_header +:+ nl else "") +:+ body +:+ nl)) ;;;
  chmod_exec path.

(** [gpu_to_scripts[gpu_number].append(cmd_file)] on a [defaultdict(list)],
    the keys kept in the order of their first insertion. *)
Fixpoint gpu_append (g : list (nat * list string)) (gpu : nat) (f : string)
    : list (nat * list string) :=
  match g with
  | [] => [(gpu, [f])]
  | (k, fs) :: g' =>
      if decide (k = gpu) then (k, fs ++ [f]) :: g'
      else (k, fs) :: gpu_append g' gpu f
  end.

(** [chunk_file.replace('.json','_checkpoint.json')] *)
Definition checkpoint_filename_of (chunk_file : string) : string :=
  Py.replace ".json" "_checkpoint.json" chunk_file.

(** [chunk_file.replace('.json','_results.json')] *)
Definition output_fn_of (chunk_file : string) : string :=
  Py.replace ".json" "_results.json" chunk_file.

(** The command of task [i_task], by the inference code in use. *)
Definition task_command (cfg : config) (i_task : nat) (chunk_file : string)
    : string :=
  let checkpoint_filename := checkpoint_filename_of chunk_file in
  let output_fn := output_fn_of chunk_file in
  let gpu_number := gpu_number_of cfg i_task in
  if use_yolo_inference_scripts cfg
  then yolo_command cfg i_task gpu_number chunk_file output_fn
  else if use_tiled_inference cfg
  then tiled_command cfg i_task gpu_number chunk_file output_fn
  else detector_command cfg gpu_number chunk_file output_fn checkpoint_filename.

(** ['run_chunk_{}_gpu_{}{}'] and ['resume_chunk_{}_gpu_{}{}'], formatted
    with the task index, the GPU number and the script extension, in the
    job folder. *)
Definition chunk_script (cfg : config) (kind : string) (i_task : nat) : string :=
  Py.join (filename_base cfg)
    (kind +:+ "_chunk_" +:+ Py.zfill 3 (Py.str i_task) +:+ "_gpu_"
     +:+ Py.zfill 2 (Py.str (gpu_number_of cfg i_task)) +:+ script_extension).

Definition resume_string (chunk_file : string) : string :=
  " --resume_from_checkpoint " +:+ quoted (checkpoint_filename_of chunk_file).

(** The body of the loop over the tasks. *)
Definition generate_task (cfg : config)
    (st : list task * list (nat * list string)) (it : nat * task)
    : M (list task * list (nat * list string)) :=
  let '(done, gpu_to_scripts) := st in
  let '(i_task, task) := it in
  let chunk_file := input_file task in
  let output_fn := output_fn_of chunk_file in
  let gpu_number := gpu_number_of cfg i_task in
  let cmd := task_command cfg i_task chunk_file in
  let cmd_file := chunk_script cfg "run" i_task in
  write_script cmd_file cmd ;;;
  let gpu_to_scripts := gpu_append gpu_to_scripts gpu_number cmd_file in
  match checkpoint_frequency cfg with
  | Some _ =>
      let resume_cmd := cmd +:+ resume_string chunk_file in
      let resume_cmd_file := chunk_script cfg "resume" i_task in
      write_script resume_cmd_file resume_cmd ;;;
      ret (done ++ [Task (t_id task) (input_file task) (Some output_fn)
                      (Some cmd) (Some cmd_file)
                      (Some resume_cmd) (Some resume_cmd_file)
                      (n_failures task) (results task)],
           gpu_to_scripts)
  | None =>
      ret (done ++ [Task (t_id task) (input_file task) (Some output_fn)
                      (Some cmd) (Some cmd_file)
                      (resume_command task) (resume_command_file task)
                      (n_failures task) (results task)],
           gpu_to_scripts)
  end.

(** The script that runs every command of one GPU. *)
Definition write_gpu_script (cfg : config) (_ : unit)
    (entry : nat * list string) : M unit :=
  let '(gpu_number, scripts) := entry in
  let gpu_script_file :=
    Py.join (filename_base cfg)
      ("run_all_for_gpu_" +:+ Py.zfill 2 (Py.str gpu_number) +:+ script_extension) in
  write_file gpu_script_file
    (Text ((if (0 <? String.length script_header)%nat
            then script_header +:+ nl else "")
           +:+ foldr (fun s acc => s +:+ nl +:+ acc) "" scripts
           +:+ "echo " +:+ quoted ("Finished all commands for GPU " +:+ Py.str gpu_number))) ;;;
  chmod_exec gpu_script_file.

(** The cell [Generate commands]. *)
Definition generate_commands (cfg : config) (task_info : list task)
    : M (list task) :=
  r <- foldM (generate_task cfg) (enumerate task_info) ([], []) ;;
  foldM (write_gpu_script cfg) r.2 tt ;;;
  ret r.1.

(** The cells from the validation of the constants to the scripts, in the
    order of the notebook.  The cell that prints the estimated time is left
    out: it writes no file and changes no variable. *)
Definition prepare_job (cfg : config) (listing found : list string)
    : M (list string * list task) :=
  validate_constants cfg ;;;
  let input_path := strip_input_path (input_path cfg) in
  print ("Output folder:" +:+ nl +:+ filename_base cfg) ;;;
  all_images <- enumerate_files listing found (force_enumeration cfg)
                  (filename_base cfg) input_path ;;
  let folder_chunks := split_list_into_n_chunks all_images (n_jobs cfg) in
  task_info <- write_file_lists (filename_base cfg) folder_chunks ;;
  task_info <- generate_commands cfg task_info ;;
  ret (all_images, task_info).


(** ** Load results, look for failed or missing images in each task *)

(** The output files of the tasks that are not on disk, in task order. *)
Definition find_missing_output_files (task_info : list task) : M (list string) :=
  foldM (fun missing_output_files task =>
           output_file <- getitem "output_file" (output_file task) ;;
           present <- isfile output_file ;;
           ret (if present then missing_output_files
                else missing_output_files ++ [output_file]))
        task_info [].

Definition check_output_files (task_info : list task) : M unit :=
  missing_output_files <- find_missing_output_files task_info ;;
  if (0 <? length missing_output_files)%nat then
    print ("Missing " +:+ Py.str (length missing_output_files)
           +:+ " output files:") ;;;
    foldM (fun _ s => print s) missing_output_files tt ;;;
    raise (Exception "Missing output files")
  else ret tt.

(** The strings of one character that a [for] loop over a string goes
    through. *)
Fixpoint characters (s : string) : list string :=
  match s with
  | "" => []
  | String c s' => String c "" :: characters s'
  end.

(** The keys of a results object, in the order in which the script itself
    writes them to the combined results: ['images'] first, then ['info']
    and ['detection_categories']. *)
Definition results_keys (r : task_results) : list string :=
  ["images"]
  ++ (if is_None (tr_info r) then [] else ["info"])
  ++ (if is_None (tr_detection_categories r) then []
      else ["detection_categories"]).

(** What [set(v)] and [for x in v] go through on a loaded value [v]: the
    elements of an array, the keys of an object, the characters of a
    string.  A number, [true], [false] and [null] cannot be iterated; text
    that is not JSON is never loaded. *)
Definition iterable (d : file_data) : option (list string) :=
  match d with
  | JsonList l => Some l
  | JsonResults r => Some (results_keys r)
  | JsonObject keys => Some keys
  | JsonString s => Some (characters s)
  | JsonScalar => None
  | Text _ => None
  end.

(** [set(task_images)] *)
Definition iterate (d : file_data) : M (list string) :=
  match iterable d with
  | Some l => ret l
  | None => raise TypeError
  end.

(** [d['images']] on a loaded value: the results object itself when the key
    is there, [KeyError] on any other object, [TypeError] on a value that
    is not indexed by strings. *)
Definition results_object (d : file_data) : M task_results :=
  match d with
  | JsonResults r => ret r
  | JsonObject _ => raise (KeyError "images")
  | _ => raise TypeError
  end.

(** A results file read back, up to its key ['images']. *)
Definition load_results (output_file : string) : M task_results :=
  d <- json_load output_file ;;
  results_object d.

Definition set_file (im : image) (fn : string) : image :=
  Image fn (im_failure im) (im_rest im).

(** A relative path is joined to the input root, backslashes replaced. *)
Definition absolute_file (input_path : string) (im : image) : image :=
  if negb (Py.isabs (im_file im))
  then set_file im (Py.replace "\" "/" (Py.join input_path (im_file im)))
  else im.

(** The state of the loop over the records of one task: the dictionary
    from path to record, the count of failures, and the records as the
    loop leaves them (the loop rewrites ['file'] in place). *)
Record scan : Type := Scan {
  filename_to_results : gmap string image;
  n_task_failures : nat;
  scanned : list image
}.

(** The body of the loop over the records of one task. *)
Definition validate_image (input_path : string) (task_images_set : gset string)
    (st : scan) (im : image) : M scan :=
  let im := absolute_file input_path im in
  assert (Py.startswith (im_file im) input_path) None ;;;
  assert (bool_decide (im_file im ∈ task_images_set)) None ;;;
  let f2r := <[im_file im := im]> (filename_to_results st) in
  match im_failure im with
  | Some v =>
      assert (negb (is_None v)) None ;;;
      ret (Scan f2r (S (n_task_failures st)) (scanned st ++ [im]))
  | None => ret (Scan f2r (n_task_failures st) (scanned st ++ [im]))
  end.

Definition not_found_message (fn : string) (i_task : nat) : string :=
  "File " +:+ fn +:+ " not found in results for task " +:+ Py.str i_task.

(** [for im in task_results['images']: ...] *)
Definition scan_images (input_path : string) (task_images_set : gset string)
    (images : list image) : M scan :=
  foldM (validate_image input_path task_images_set) images (Scan ∅ 0 []).

(** [for fn in task_images: assert fn in filename_to_results, ...] *)
Definition check_manifest (filename_to_results : gmap string image)
    (i_task : nat) (task_images : list string) : M unit :=
  foldM (fun _ fn =>
           assert (bool_decide (is_Some (filename_to_results !! fn)))
             (Some (not_found_message fn i_task)))
        task_images tt.

(** The body of the loop over the tasks. *)
Definition validate_task (input_path : string) (st : list task * nat)
    (it : nat * task) : M (list task * nat) :=
  let '(done, n_total_failures) := st in
  let '(i_task, task) := it in
  let chunk_file := input_file task in
  output_file <- getitem "output_file" (output_file task) ;;
  task_images <- json_load chunk_file ;;
  task_results <- json_load output_file ;;
  task_images <- iterate task_images ;;
  let task_images_set : gset string := list_to_set task_images in
  task_results <- results_object task_results ;;
  sc <- scan_images input_path task_images_set (tr_images task_results) ;;
  let task_results :=
    TaskResults (tr_info task_results) (tr_detection_categories task_results)
      (scanned sc) in
  let task :=
    Task (t_id task) (input_file task) (Some output_file) (command task)
      (command_file task) (resume_command task) (resume_command_file task)
      (Some (n_task_failures sc)) (Some task_results) in
  check_manifest (filename_to_results sc) i_task task_images ;;;
  ret (done ++ [task], n_total_failures + n_task_failures sc)%nat.

Definition too_many_failures_message (n : nat) (max : Z) : string :=
  Py.str n +:+ " failures (max tolerable set to " +:+ Py.str_int max +:+ ")".

(** [for i_task,task in enumerate(task_info): ...] *)
Definition validate_tasks (input_path : string) (task_info : list task)
    : M (list task * nat) :=
  foldM (validate_task input_path) (enumerate task_info) ([], O).

(** The validation pass: the output files, the loop over the tasks, the
    tolerance. *)
Definition validation_pass (cfg : config) (input_path : string)
    (all_images : list string) (task_info : list task) : M (list task * nat) :=
  check_output_files task_info ;;;
  r <- validate_tasks input_path task_info ;;
  let '(task_info, n_total_failures) := r in
  assert (Z.of_nat n_total_failures <? max_tolerable_failed_images cfg)%Z
    (Some (too_many_failures_message n_total_failures
             (max_tolerable_failed_images cfg))) ;;;
  print ("Processed all " +:+ Py.str (length all_images) +:+ " images with "
         +:+ Py.str n_total_failures +:+ " failures") ;;;
  ret (task_info, n_total_failures).

(** ** Merge results files and make filenames relative *)

(** [for im in task_results['images']: assert im['file'] not in
    images_processed; images_processed.add(im['file'])] *)
Definition mark_processed (images_processed : gset string) (im : image)
    : M (gset string) :=
  assert (bool_decide (im_file im ∉ images_processed)) None ;;;
  ret ({[im_file im]} ∪ images_processed).

(** The body of the merge loop. *)
Definition merge_task (st : task_results * gset string) (it : nat * task)
    : M (task_results * gset string) :=
  let '(combined_results, images_processed) := st in
  let '(i_task, task) := it in
  task_results <- getitem "results" (results task) ;;
  combined_results <-
    (if (i_task =? 0)%nat then
       i <- getitem "info" (tr_info task_results) ;;
       c <- getitem "detection_categories" (tr_detection_categories task_results) ;;
       ret (TaskResults (Some i) (Some c) (tr_images combined_results))
     else
       ti <- getitem "info" (tr_info task_results) ;;
       ci <- getitem "info" (tr_info combined_results) ;;
       assert (bool_decide (format_version ti = format_version ci)) None ;;;
       tc <- getitem "detection_categories" (tr_detection_categories task_results) ;;
       cc <- getitem "detection_categories" (tr_detection_categories combined_results) ;;
       assert (bool_decide (tc = cc)) None ;;;
       ret combined_results) ;;
  images_processed <- foldM mark_processed (tr_images task_results) images_processed ;;
  ret (TaskResults (tr_info combined_results)
         (tr_detection_categories combined_results)
         (tr_images combined_results ++ tr_images task_results),
       images_processed).

Definition wrong_count_message (expected found : nat) : string :=
  "Expected " +:+ Py.str expected +:+ " images in combined results, found "
  +:+ Py.str found.

(** [for i_task,task in enumerate(task_info): ...] of the merge *)
Definition merge_tasks (task_info : list task) : M (task_results * gset string) :=
  foldM merge_task (enumerate task_info) (TaskResults None None [], ∅).

(** The merge loop and the two checks on its outcome. *)
Definition merge_results (all_images : list string) (task_info : list task)
    : M task_results :=
  r <- merge_tasks task_info ;;
  let combined_results := r.1 in
  assert (length (tr_images combined_results) =? length all_images)%nat
    (Some (wrong_count_message (length all_images)
             (length (tr_images combined_results)))) ;;;
  let result_filenames := im_file <$> tr_images combined_results in
  assert (length (tr_images combined_results)
          =? size (list_to_set result_filenames : gset string))%nat None ;;;
  ret combined_results.

(** The prefix taken off a path: the root itself when it ends in [:],
    the root and a slash otherwise. *)
Definition root_prefix (input_path : string) : string :=
  if Py.endswith input_path ":" then input_path else input_path +:+ "/".

(** The body of the loop that makes the paths relative. *)
Definition relative_image (input_path : string) (done : list image)
    (im : image) : M (list image) :=
  assert (negb (Py.contains (im_file im) "\")) None ;;;
  assert (Py.startswith (im_file im) input_path) None ;;;
  if Py.endswith input_path ":" then
    ret (done ++ [set_file im (Py.replace_first input_path "" (im_file im))])
  else
    ret (done ++ [set_file im (Py.replace_first (input_path +:+ "/") "" (im_file im))]).

Definition convert_to_relative (input_path : string)
    (combined_results : task_results) : M task_results :=
  images <- foldM (relative_image input_path) (tr_images combined_results) [] ;;
  ret (TaskResults (tr_info combined_results)
         (tr_detection_categories combined_results) images).

(** The merge pass, to the combined results file. *)
Definition merge_pass (cfg : config) (input_path : string)
    (all_images : list string) (task_info : list task) : M task_results :=
  combined_results <- merge_results all_images task_info ;;
  combined_results <- convert_to_relative input_path combined_results ;;
  write_file (combined_api_output_file cfg) (JsonResults combined_results) ;;;
  print ("Wrote results to " +:+ combined_api_output_file cfg) ;;;
  ret combined_results.

(** Reconciliation: the validation pass, then the merge pass. *)
Definition reconcile (cfg : config) (all_images : list string)
    (task_info : list task) : M task_results :=
  let input_path := strip_input_path (input_path cfg) in
  r <- validation_pass cfg input_path all_images task_info ;;
  merge_pass cfg input_path all_images r.1.


(** ** Definitions for the statements *)

(** The sizes of the chunks of a list of [m] elements cut in [c]. *)
Definition chunk_sizes (m c : nat) : list nat :=
  (λ i, if (i <? m mod c)%nat then S (m / c) else m / c) <$> seq 0 c.

(** Reading a decimal numeral back, leading zeros allowed. *)
Definition parse_nat (s : string) : option nat :=
  Nat.of_uint <$> NilEmpty.uint_of_string s.

(** A string of decimal digits. *)
Fixpoint digits_only (s : string) : bool :=
  match s with
  | "" => true
  | String c s' => is_digit c && digits_only s'
  end.

(** The task that the cell [Write file lists] makes for chunk [i]. *)
Definition manifest_task (filename_base : string) (i : nat) : task :=
  new_task i (Py.join filename_base (chunk_name i)).

(** The seven images of the spec's end-to-end scenario. *)
Definition seven_images : list string :=
  ["/d/a/1.jpg"; "/d/a/2.jpg"; "/d/a/3.jpg"; "/d/b/1.jpg"; "/d/b/2.jpg";
   "/d/c/1.jpg"; "/d/c/2.jpg"].

(** The list a chunk file of the job folder holds, empty when it holds none. *)
Definition manifest_at (filename_base : string) (w : world) (fn : string)
    : list string :=
  match files w !! Py.join filename_base fn with
  | Some (File (JsonList l) _) => l
  | _ => []
  end.

(** A configuration with the defaults of the notebook, two jobs on two
    GPUs, checkpoints every 10000 images. *)
Definition example_config : config := {|
  json_threshold := None;
  max_tolerable_failed_images := 100;
  use_image_queue := false;
  default_gpu_number := 0;
  quiet_mode := true;
  image_size := None;
  include_image_size := false;
  include_image_timestamp := false;
  include_exif_data := false;
  detector_options := None;
  ncores := 1;
  force_enumeration := false;
  overwrite_handling := "skip";
  use_yolo_inference_scripts := false;
  yolo_working_dir := Some "~/git/yolov5";
  yolo_dataset_file := None;
  yolo_model_type := None;
  yolo_batch_size := 1;
  remove_yolo_intermediate_results := true;
  remove_yolo_symlink_folder := true;
  use_symlinks_for_yolo_inference := true;
  write_yolo_debug_output := false;
  augment := false;
  use_tiled_inference := false;
  remove_tiles := true;
  tile_size := Some (1280, 1280)%Z;
  tile_overlap := Some "0.2";
  input_path := "/d";
  model_file := "MDV5A";
  n_jobs := 2;
  n_gpus := 2;
  checkpoint_frequency := Some 10000%Z;
  filename_base := "/out/job";
  combined_api_output_file := "/out/job/combined_api_outputs/job_detections.json";
  default_output_confidence_threshold := "0.005"
|}.

(** The world after a first run over the seven images, found in some order
    on an empty job folder. *)
Definition first_run : world :=
  (prepare_job example_config []
     ["/d/b/2.jpg"; "/d/a/1.jpg"; "/d/c/2.jpg"; "/d/a/3.jpg"; "/d/b/1.jpg";
      "/d/c/1.jpg"; "/d/a/2.jpg"]
     (World ∅ [])).1.

(** [example_config] with other modes: the image queue, augmentation, tiled
    inference, the YOLO scripts, and the checkpoint frequency. *)
Definition with_modes (queue aug tiled yolo : bool) (frequency : option Z)
    : config := {|
  json_threshold := json_threshold example_config;
  max_tolerable_failed_images := max_tolerable_failed_images example_config;
  use_image_queue := queue;
  default_gpu_number := default_gpu_number example_config;
  quiet_mode := quiet_mode example_config;
  image_size := image_size example_config;
  include_image_size := include_image_size example_config;
  include_image_timestamp := include_image_timestamp example_config;
  include_exif_data := include_exif_data example_config;
  detector_options := detector_options example_config;
  ncores := ncores example_config;
  force_enumeration := force_enumeration example_config;
  overwrite_handling := overwrite_handling example_config;
  use_yolo_inference_scripts := yolo;
  yolo_working_dir := yolo_working_dir example_config;
  yolo_dataset_file := yolo_dataset_file example_config;
  yolo_model_type := yolo_model_type example_config;
  yolo_batch_size := yolo_batch_size example_config;
  remove_yolo_intermediate_results := remove_yolo_intermediate_results example_config;
  remove_yolo_symlink_folder := remove_yolo_symlink_folder example_config;
  use_symlinks_for_yolo_inference := use_symlinks_for_yolo_inference example_config;
  write_yolo_debug_output := write_yolo_debug_output example_config;
  augment := aug;
  use_tiled_inference := tiled;
  remove_tiles := remove_tiles example_config;
  tile_size := tile_size example_config;
  tile_overlap := tile_overlap example_config;
  input_path := input_path example_config;
  model_file := model_file example_config;
  n_jobs := n_jobs example_config;
  n_gpus := n_gpus example_config;
  checkpoint_frequency := frequency;
  filename_base := filename_base example_config;
  combined_api_output_file := combined_api_output_file example_config;
  default_output_confidence_threshold :=
    default_output_confidence_threshold example_config
|}.

(** The text of a script file with the given command. *)
Definition script_text (body : string) : string :=
  script_header +:+ nl +:+ body +:+ nl.

(** The dictionary of a task as the loop of [Generate commands] leaves it. *)
Definition generated_task (cfg : config) (i_task : nat) (t : task) : task :=
  let cmd := task_command cfg i_task (input_file t) in
  Task (t_id t) (input_file t) (Some (output_fn_of (input_file t)))
    (Some cmd) (Some (chunk_script cfg "run" i_task))
    (match checkpoint_frequency cfg with
     | Some _ => Some (cmd +:+ resume_string (input_file t))
     | None => resume_command t
     end)
    (match checkpoint_frequency cfg with
     | Some _ => Some (chunk_script cfg "resume" i_task)
     | None => resume_command_file t
     end)
    (n_failures t) (results t).

(** The paths of the job folder whose name starts with [run]. *)
Definition run_script_path (cfg : config) (p : string) : Prop :=
  ∃ s, p = Py.join (filename_base cfg) ("run" +:+ s).

(** A record that passes the three assertions of the loop over the records
    of a task: under the input root, in the manifest of the task, and
    without a null ['failure']. *)
Definition record_ok (input_path : string) (task_images_set : gset string)
    (im : image) : Prop :=
  Py.startswith (im_file (absolute_file input_path im)) input_path = true
  ∧ im_file (absolute_file input_path im) ∈ task_images_set
  ∧ im_failure im ≠ Some None.

(** A record with the key ['failure']. *)
Definition has_failure_key (im : image) : Prop := is_Some (im_failure im).

(** A record with a ['failure'] that is not null. *)
Definition has_failure (im : image) : Prop :=
  ∃ v, im_failure im = Some (Some v).

Global Instance record_ok_dec ip s im : Decision (record_ok ip s im).
Proof. unfold record_ok. apply _. Defined.

Global Instance has_failure_key_dec im : Decision (has_failure_key im).
Proof. unfold has_failure_key. apply _. Defined.

Global Instance has_failure_dec im : Decision (has_failure im).
Proof.
  unfold has_failure. destruct (im_failure im) as [[v|]|].
  - left. by exists v.
  - right. by intros [v [=]].
  - right. by intros [v [=]].
Defined.

(** The dictionary from path to record after the loop: a later record of
    the same path replaces an earlier one. *)
Definition index_records (m : gmap string image) (ims : list image)
    : gmap string image :=
  foldl (λ m im, <[im_file im := im]> m) m ims.

(** The manifest of a task as the validation pass reads it: what the loop
    over the loaded chunk file goes through, the paths of a JSON array as
    the cell [Write file lists] writes it. *)
Definition manifest_of (w : world) (t : task) : option (list string) :=
  match files w !! input_file t with
  | Some f => iterable (f_data f)
  | None => None
  end.

(** The results of a task as its output file holds them. *)
Definition results_of (w : world) (t : task) : option task_results :=
  match output_file t with
  | Some p =>
      match files w !! p with
      | Some (File (JsonResults r) _) => Some r
      | _ => None
      end
  | None => None
  end.

(** A task that passes the loop of the validation pass: the chunk file
    loads and can be iterated, the results file holds a results object,
    every record passes, and every entry of the manifest has a record. *)
Definition task_valid (input_path : string) (w : world) (t : task) : Prop :=
  ∃ m r,
    manifest_of w t = Some m
    ∧ results_of w t = Some r
    ∧ Forall (record_ok input_path (list_to_set m)) (tr_images r)
    ∧ Forall (λ fn, fn ∈ im_file <$> (absolute_file input_path <$> tr_images r)) m.

(** The records of a task that carry a failure that is not null. *)
Definition failures_of (w : world) (t : task) : nat :=
  match results_of w t with
  | Some r => length (filter has_failure (tr_images r))
  | None => 0
  end.

(** The dictionary of a task as the validation pass leaves it. *)
Definition validated_task (input_path : string) (w : world) (t : task) : task :=
  match results_of w t with
  | Some r =>
      Task (t_id t) (input_file t) (output_file t) (command t) (command_file t)
        (resume_command t) (resume_command_file t)
        (Some (length (filter has_failure (tr_images r))))
        (Some (TaskResults (tr_info r) (tr_detection_categories r)
                 (absolute_file input_path <$> tr_images r)))
  | None => t
  end.

(** The output file of a task is on disk. *)
Definition output_present (w : world) (t : task) : Prop :=
  ∃ p, output_file t = Some p ∧ is_Some (files w !! p).

(** The output files that are not on disk, in task order. *)
Definition missing_outputs (w : world) (tasks : list task) : list string :=
  omap (λ t, match output_file t with
             | Some p => if decide (is_Some (files w !! p)) then None else Some p
             | None => None
             end) tasks.

(** An image record with no failure. *)
Definition record (fn : string) : image := Image fn None "".

(** A results object of the example job. *)
Definition example_results (images : list image) : task_results :=
  TaskResults (Some (Info "1.4" "")) (Some {["1" := "animal"]}) images.

(** The tasks of the first run over the seven images. *)
Definition example_tasks : list task :=
  match (prepare_job example_config [] seven_images (World ∅ [])).2 with
  | inr r => r.2
  | inl _ => []
  end.

(** The world of [first_run] with the given results objects in the output
    files of the two chunks. *)
Definition with_result_files (r0 r1 : task_results) : world :=
  World (<["/out/job/chunk001_results.json" := File (JsonResults r1) false]>
           (<["/out/job/chunk000_results.json" := File (JsonResults r0) false]>
              (files first_run)))
        (stdout first_run).

(** The same with the metadata of the example on both. *)
Definition with_results (r0 r1 : list image) : world :=
  with_result_files (example_results r0) (example_results r1).

(** The records of the two chunks after inference: every image has its
    record, one of them a failure. *)
Definition chunk0_records : list image :=
  [record "/d/a/1.jpg"; Image "/d/a/2.jpg" (Some (Some "Failure image access")) "";
   record "/d/a/3.jpg"; record "/d/b/1.jpg"].

Definition chunk1_records : list image :=
  [record "/d/b/2.jpg"; record "/d/c/1.jpg"; record "/d/c/2.jpg"].

(** The world after inference. *)
Definition after_inference : world :=
  with_results chunk0_records chunk1_records.

(** The paths of the records are new: no path twice, none seen before. *)
Definition fresh_paths (seen : gset string) (images : list image) : Prop :=
  NoDup (im_file <$> images) ∧ ∀ fn, fn ∈ im_file <$> images → fn ∉ seen.

Global Instance fresh_paths_dec seen images : Decision (fresh_paths seen images).
Proof.
  unfold fresh_paths.
  refine (cast_if_and (decide (NoDup (im_file <$> images)))
            (decide (Forall (λ fn, fn ∉ seen) (im_file <$> images))));
    rewrite ?Forall_forall in *; tauto.
Defined.

(** The records of all the tasks, in task order. *)
Definition all_records (rs : list task_results) : list image :=
  concat (tr_images <$> rs).

(** Every results object has the two keys of metadata, with the format
    version and the detection categories of the first one. *)
Definition metadata_consistent (rs : list task_results) : Prop :=
  match rs with
  | [] => True
  | r0 :: rest =>
      ∃ i0 c0,
        tr_info r0 = Some i0 ∧ tr_detection_categories r0 = Some c0
        ∧ Forall (λ r, ∃ i, tr_info r = Some i
                            ∧ format_version i = format_version i0
                            ∧ tr_detection_categories r = Some c0) rest
  end.

(** The combined results: the metadata of the first task, the records of
    all. *)
Definition merged (rs : list task_results) : task_results :=
  TaskResults (head rs ≫= tr_info) (head rs ≫= tr_detection_categories)
    (all_records rs).

(** The world after inference with the first record of chunk 0 twice in
    its results. *)
Definition doubled_record : world :=
  with_results (record "/d/a/1.jpg" :: chunk0_records) chunk1_records.

(** The world after inference with one more detection category in the
    results of chunk 1. *)
Definition other_categories : world :=
  with_result_files (example_results chunk0_records)
    (TaskResults (Some (Info "1.4" ""))
       (Some {["1" := "animal"; "2" := "person"]}) chunk1_records).


(** * Job names, scripts, locations and the conversion to a notebook *)

(** A path below the input root, written with forward slashes. *)
Definition under_root (input_path fn : string) : Prop :=
  Py.contains fn "\" = false
  ∧ Py.startswith fn (root_prefix input_path) = true.

(** The record with the prefix of the root taken off its path. *)
Definition relative_to (input_path : string) (im : image) : image :=
  set_file im (Py.drop (String.length (root_prefix input_path)) (im_file im)).

(** The results of a task as the validation pass keeps them in the task:
    the metadata as loaded, the paths of the records made absolute. *)
Definition validated_results (input_path : string) (r : task_results)
    : task_results :=
  TaskResults (tr_info r) (tr_detection_categories r)
    (absolute_file input_path <$> tr_images r).

(** The combined results as the merge pass writes them. *)
Definition combined_results_of (input_path : string) (rs : list task_results)
    : task_results :=
  TaskResults (head rs ≫= tr_info) (head rs ≫= tr_detection_categories)
    (relative_to input_path
       <$> all_records (validated_results input_path <$> rs)).

(** The mode a file has after it is written: kept when the file was there,
    not executable when it is new. *)
Definition mode_after_write (w : world) (p : string) : bool :=
  match files w !! p with
  | Some f => f_exec f
  | None => false
  end.

(** A computation that leaves the files on disk as they are, whatever it
    returns or raises. *)
Definition keeps_files {A} (m : M A) : Prop :=
  ∀ w, files (m w).1 = files w.

(** The file of a script that holds the given command. *)
Definition script_file (body : string) : file :=
  File (Text (script_text body)) true.

(** The path of the script that runs every command of one GPU. *)
Definition gpu_script (cfg : config) (gpu_number : nat) : string :=
  Py.join (filename_base cfg)
    ("run_all_for_gpu_" +:+ Py.zfill 2 (Py.str gpu_number) +:+ script_extension).

(** The text of that script for the run scripts of the GPU. *)
Definition gpu_script_text (gpu_number : nat) (scripts : list string) : string :=
  script_header +:+ nl
  +:+ foldr (fun s acc => s +:+ nl +:+ acc) "" scripts
  +:+ "echo " +:+ quoted ("Finished all commands for GPU " +:+ Py.str gpu_number).

(** The tasks among the first [n] that run on GPU [k], in task order. *)
Definition tasks_of_gpu (cfg : config) (n k : nat) : list nat :=
  filter (λ i, gpu_number_of cfg i = k) (seq 0 n).

(** [gpu_to_scripts[k]] read without inserting: empty when the key is
    absent. *)
Fixpoint scripts_for (g : list (nat * list string)) (k : nat) : list string :=
  match g with
  | [] => []
  | (k', fs) :: g' => if decide (k' = k) then fs else scripts_for g' k
  end.

(** [gpu_to_scripts] after the loop over [n] tasks. *)
Definition gpu_to_scripts_after (cfg : config) (n : nat)
    : list (nat * list string) :=
  foldl (λ g i, gpu_append g (gpu_number_of cfg i) (chunk_script cfg "run" i))
    [] (seq 0 n).

(** The character [c] occurs in [s]. *)
Fixpoint has_char (c : ascii) (s : string) : bool :=
  match s with
  | "" => false
  | String x s' => bool_decide (x = c) || has_char c s'
  end.

(** The name of the results file of chunk [i]. *)
Definition results_name (i : nat) : string :=
  "chunk" +:+ Py.zfill 3 (Py.str i) +:+ "_results.json".

(** The name of the checkpoint file of chunk [i]. *)
Definition checkpoint_name (i : nat) : string :=
  "chunk" +:+ Py.zfill 3 (Py.str i) +:+ "_checkpoint.json".

(** [input_path = input_path.replace('\\','/')] of the cell of the
    constants. *)
Definition normalise_input_path (input_path : string) : string :=
  Py.replace "\" "/" input_path.

(** The last character of a string. *)
Fixpoint last_char (s : string) : option ascii :=
  match s with
  | "" => None
  | String c "" => Some c
  | String _ s' => last_char s'
  end.

(** ** Locations *)

(** [s.split(sep)] for a separator of one character: the pieces between the
    separators, one more than there are separators.  The list is never
    empty, the last branch is never taken. *)
Fixpoint str_split (sep : ascii) (s : string) : list string :=
  match s with
  | "" => [""]
  | String c s' =>
      if bool_decide (c = sep) then "" :: str_split sep s'
      else match str_split sep s' with
           | t :: ts => String c t :: ts
           | [] => [String c ""]
           end
  end.

(** [sep.join(l)] *)
Fixpoint str_join (sep : string) (l : list string) : string :=
  match l with
  | [] => ""
  | s :: l' =>
      match l' with
      | [] => s
      | _ :: _ => s +:+ sep +:+ str_join sep l'
      end
  end.

(** The sample function that takes the first two folders of a relative
    path for the location. *)
Definition custom_relative_path_to_location (relative_path : string) : string :=
  let relative_path := Py.replace "\" "/" relative_path in
  let tokens := str_split "/" relative_path in
  let location_name := str_join "/" (take 2 tokens) in
  location_name.

(** The cell that lists the locations of the combined results, for the
    function [relative_path_to_location] in use. *)
Definition location_names_cell (relative_path_to_location : string → string)
    (combined_api_output_file : string) : M (list string) :=
  d <- load_results combined_api_output_file ;;
  let image_filenames := im_file <$> tr_images d in
  let location_names : gset string :=
    foldl (λ location_names relative_path,
             {[relative_path_to_location relative_path]} ∪ location_names)
          ∅ image_filenames in
  let location_names := Py.sorted (elements location_names) in
  foldM (λ _ s, print s) location_names tt ;;;
  ret location_names.

(** The number of occurrences of a character. *)
Fixpoint count_char (c : ascii) (s : string) : nat :=
  match s with
  | "" => 0
  | String x s' => (if bool_decide (x = c) then 1 else 0) + count_char c s'
  end.

(** ** Turning the script into a notebook *)

(** A cell of the notebook, as [nbformat] makes them. *)
Inductive cell : Type :=
| new_markdown_cell (source : string)
| new_code_cell (source : string).

(** [c.isspace()] for a character below 256: the ASCII white space, the
    four separators 28 to 31, the next-line character 133 and the
    no-break space 160. *)
Definition is_space (c : ascii) : bool :=
  let n := nat_of_ascii c in
  ((9 <=? n) && (n <=? 13)) || ((28 <=? n) && (n <=? 32))
  || (n =? 133) || (n =? 160).

(** [s.lstrip()] *)
Fixpoint lstrip (s : string) : string :=
  match s with
  | "" => ""
  | String c s' => if is_space c then lstrip s' else s
  end.

(** [s.rstrip()] *)
Fixpoint rstrip (s : string) : string :=
  match s with
  | "" => ""
  | String c s' =>
      match rstrip s' with
      | "" => if is_space c then "" else String c ""
      | t => String c t
      end
  end.

(** [s.strip()] *)
Definition strip (s : string) : string := lstrip (rstrip s).

(** [c.lower()] for a character below 256: the letters A to Z, and the
    capital letters of Latin-1, 192 to 222 but for the multiplication sign
    215. *)
Definition lower_char (c : ascii) : ascii :=
  let n := nat_of_ascii c in
  if ((65 <=? n) && (n <=? 90))
     || ((192 <=? n) && (n <=? 222) && negb (n =? 215))
  then ascii_of_nat (n + 32) else c.

(** [s.lower()] *)
Fixpoint lower (s : string) : string :=
  match s with
  | "" => ""
  | String c s' => String (lower_char c) (lower s')
  end.

(** A computation that returns or raises, without the world. *)
Definition try_bind {A B} (m : exn + A) (k : A → exn + B) : exn + B :=
  match m with
  | inl e => inl e
  | inr a => k a
  end.

(** [lines[i]] *)
Definition line_at (lines : list string) (i : nat) : exn + string :=
  match lines !! i with
  | Some l => inr l
  | None => inl IndexError
  end.

(** [assert lines[i].strip() == s] *)
Definition assert_line (lines : list string) (i : nat) (s : string)
    : exn + unit :=
  try_bind (line_at lines i) (λ l,
    if bool_decide (strip l = s) then inr tt else inl (AssertionError None)).

(** The loop over the header comment: everything before the first cell. *)
Fixpoint read_header (lines : list string) (header_comment : string)
    : exn + (string * list string) :=
  match lines with
  | [] => inl IndexError
  | s_raw :: rest =>
      if Py.startswith s_raw "#%%" then inr (header_comment, lines)
      else
        let s_trimmed := strip s_raw in
        if bool_decide (s_trimmed = dq +:+ dq +:+ dq)
        then read_header rest header_comment
        else if (String.length s_trimmed =? 0)%nat
        then read_header rest (header_comment +:+ nl +:+ nl)
        else read_header rest (header_comment +:+ " " +:+ s_raw)
  end.

(** The loop of [write_code_cell]: the indices of the first and of the
    last line that is not blank, [None] for Python's [None]. *)
Definition non_empty_lines (c : list string) : option nat * option nat :=
  foldl (λ '(first_non_empty_line, last_non_empty_line) '(i_code_line, code_line),
           if (0 <? String.length (strip code_line))%nat then
             (match first_non_empty_line with
              | None => Some i_code_line
              | Some _ => first_non_empty_line
              end,
              Some i_code_line)
           else (first_non_empty_line, last_non_empty_line))
        (None, None) (enumerate c).

(** [write_code_cell(c)]: [c[None:]] is [c], and [None - None] raises
    [TypeError]. *)
Definition write_code_cell (c : list string) (nb : list cell)
    : exn + list cell :=
  let '(first_non_empty_line, last_non_empty_line) := non_empty_lines c in
  let c := match first_non_empty_line with
           | Some first => drop first c
           | None => c
           end in
  match last_non_empty_line, first_non_empty_line with
  | Some last, Some first =>
      let last_non_empty_line := last - first in
      let c := take (last_non_empty_line + 1) c in
      inr (nb ++ [new_code_cell (str_join nl c)])
  | _, _ => inl TypeError
  end.

(** The loop over the cells, from the line it has come to: it stops at the
    first line that holds [end notebook] in any case of letters, and reads
    past the last line otherwise. *)
Fixpoint read_cells (lines : list string) (current_cell : list string)
    (nb : list cell) : exn + (list string * list cell) :=
  match lines with
  | [] => inl IndexError
  | raw :: rest =>
      let line := rstrip raw in
      if Py.contains (lower line) "end notebook" then inr (current_cell, nb)
      else if Py.startswith raw "#%% " then
        try_bind
          (if (0 <? length current_cell)%nat
           then try_bind (write_code_cell current_cell nb)
                  (λ nb, inr (([] : list string), nb))
           else inr (current_cell, nb))
          (λ '(current_cell, nb),
             let markdown_content := Py.replace "#%%" "##" line in
             read_cells rest current_cell
               (nb ++ [new_markdown_cell markdown_content]))
      else read_cells rest (current_cell ++ [line]) nb
  end.

(** The text at the top of the notebook. *)
Definition nb_header : string :=
  "# Managing a local MegaDetector batch" +:+ nl +:+ nl
  +:+ "This notebook represents an interactive process for running MegaDetector on large batches of images, including typical and optional postprocessing steps.  Everything after "
  +:+ dq +:+ "Merge results..." +:+ dq
  +:+ " is basically optional, and we typically do a mix of these optional steps, depending on the job."
  +:+ nl +:+ nl
  +:+ "This notebook is auto-generated from manage_local_batch.py (a cell-delimited .py file that is used the same way, typically in Spyder or VS Code)."
  +:+ nl +:+ nl.

(** The cells of the notebook made from the lines of the script. *)
Definition script_to_notebook (lines : list string) : exn + list cell :=
  try_bind (assert_line lines 0 (dq +:+ dq +:+ dq)) (λ _,
  try_bind (assert_line lines 1 "") (λ _,
  try_bind (assert_line lines 2 "manage_local_batch.py") (λ _,
  try_bind (assert_line lines 3 "") (λ _,
  try_bind (read_header (drop 4 lines) "") (λ '(header_comment, rest),
  let nb := [new_markdown_cell (nb_header +:+ header_comment)] in
  try_bind (read_cells rest [] nb) (λ '(current_cell, nb),
  write_code_cell current_cell nb)))))).

(** A line that [write_code_cell] takes for empty. *)
Definition blank (s : string) : Prop := String.length (strip s) = 0.

(** A line that stops the loop over the cells. *)
Definition end_marker (raw : string) : bool :=
  Py.contains (lower (rstrip raw)) "end notebook".

Global Instance blank_dec s : Decision (blank s).
Proof. unfold blank. apply _. Defined.

(** ** Constants I set per script *)

(** The constants of the cell that name the job.  Two of them come from
    outside the notebook: the home folder behind [postprocessing_base], and
    the detector version that [get_detector_version_from_model_file] reads
    off the model file. *)
Record job_constants : Type := JobConstants {
  jc_input_path : string;
  organization_name_short : string;
  job_date : option string;
  job_tag : option string;
  (** [os.path.expanduser('~/postprocessing')] *)
  postprocessing_base : string;
  (** [get_detector_version_from_model_file(model_file)] *)
  detector_version : string
}.

(** What the cell leaves for the next ones. *)
Record job_names : Type := JobNames {
  jn_input_path : string;
  base_task_name : string;
  base_output_folder_name : string
}.

(** The cell [Constants I set per script], for the folders [isdir] that
    exist on disk: its three assertions and the names it leaves.  The speed
    estimate, which names nothing, and [os.makedirs] are left out; the calls
    into the detector library are taken to return. *)
Definition constants_cell (isdir : string → bool) (k : job_constants)
    : exn + job_names :=
  let input_path := jc_input_path k in
  if Py.endswith input_path "/" || Py.endswith input_path "\"
  then inl (AssertionError None)
  else if negb (isdir input_path)
  then inl (AssertionError
              (Some ("Could not find input folder " +:+ input_path)))
  else
    let input_path := Py.replace "\" "/" input_path in
    match job_date k with
    | Some job_date =>
        if negb (bool_decide (organization_name_short k ≠ "organization"))
        then inl (AssertionError None)
        else
          let job_description_string :=
            match job_tag k with
            | None => ""
            | Some job_tag => "-" +:+ job_tag
            end in
          let base_task_name :=
            organization_name_short k +:+ "-" +:+ job_date
            +:+ job_description_string +:+ "-" +:+ detector_version k in
          let base_output_folder_name :=
            Py.join (postprocessing_base k) (organization_name_short k) in
          inr (JobNames input_path base_task_name base_output_folder_name)
    | None => inl (AssertionError None)
    end.

(** [filename_base], [combined_api_output_folder] and
    [combined_api_output_file] of the cell of the derived variables. *)
Definition filename_base_of (n : job_names) : string :=
  Py.join (base_output_folder_name n) (base_task_name n).

Definition combined_api_output_folder_of (n : job_names) : string :=
  Py.join (filename_base_of n) "combined_api_outputs".

Definition combined_api_output_file_of (n : job_names) : string :=
  Py.join (combined_api_output_folder_of n)
    (base_task_name n +:+ "_detections.json").

(** The record as the loop that makes the paths relative leaves it. *)
Definition relativized (input_path : string) (im : image) : image :=
  set_file im
    (if Py.endswith input_path ":"
     then Py.replace_first input_path "" (im_file im)
     else Py.replace_first (input_path +:+ "/") "" (im_file im)).

(** A record that passes the two assertions of that loop. *)
Definition relativizable (input_path : string) (im : image) : Prop :=
  Py.contains (im_file im) "\" = false
  ∧ Py.startswith (im_file im) input_path = true.

(** * Properties *)

(** ** Strings *)

Lemma app_empty_l (s : string) : "" +:+ s = s.
Proof. reflexivity. Qed.

Lemma app_cons (c : ascii) (s t : string) : String c s +:+ t = String c (s +:+ t).
Proof. reflexivity. Qed.

Lemma app_empty_r (s : string) : s +:+ "" = s.
Proof. induction s as [|c s IH]; [done|]. by rewrite app_cons, IH. Qed.

Lemma app_assoc_s (s t u : string) : (s +:+ t) +:+ u = s +:+ (t +:+ u).
Proof. induction s as [|c s IH]; [done|]. by rewrite !app_cons, IH. Qed.

Lemma prefix_empty (s : string) : String.prefix "" s = true.
Proof. by destruct s. Qed.

Lemma prefix_cons (c d : ascii) (p s : string) :
  String.prefix (String c p) (String d s) = bool_decide (c = d) && String.prefix p s.
Proof.
  simpl. destruct (ascii_dec c d) as [->|Hne].
  - by rewrite bool_decide_eq_true_2.
  - by rewrite bool_decide_eq_false_2.
Qed.

Lemma prefix_app (p r : string) : String.prefix p (p +:+ r) = true.
Proof.
  induction p as [|c p IH]; [apply prefix_empty|].
  rewrite app_cons, prefix_cons, IH. by rewrite bool_decide_eq_true_2.
Qed.

Lemma prefix_drop (p s : string) :
  String.prefix p s = true → s = p +:+ Py.drop (String.length p) s.
Proof.
  revert s. induction p as [|c p IH]; intros s H; [done|].
  destruct s as [|d s]; [done|].
  rewrite prefix_cons in H. apply andb_true_iff in H as [Hc Hp].
  apply bool_decide_eq_true in Hc as ->.
  simpl. rewrite app_cons. f_equal. by apply IH.
Qed.

Lemma prefix_iff (p s : string) :
  String.prefix p s = true ↔ ∃ r, s = p +:+ r.
Proof.
  split.
  - intros H. eexists. by apply prefix_drop.
  - intros [r ->]. apply prefix_app.
Qed.

Lemma drop_app (p r : string) : Py.drop (String.length p) (p +:+ r) = r.
Proof. induction p as [|c p IH]; [by destruct r|]. done. Qed.

Lemma prefix_app_l (p q s : string) :
  String.prefix (p +:+ q) s = true → String.prefix p s = true.
Proof.
  intros [r ->]%prefix_iff. rewrite app_assoc_s. apply prefix_app.
Qed.

Lemma replace_first_unfold (old new s : string) :
  Py.replace_first old new s =
  if String.prefix old s then new +:+ Py.drop (String.length old) s
  else match s with
       | "" => ""
       | String c s' => String c (Py.replace_first old new s')
       end.
Proof. by destruct s. Qed.

Lemma replace_first_prefix (p new s : string) :
  String.prefix p s = true →
  Py.replace_first p new s = new +:+ Py.drop (String.length p) s.
Proof.
  intros H. rewrite (replace_first_unfold p new s). by rewrite H.
Qed.

(** ** The monad *)

Lemma bind_inr {A B} (m : M A) (k : A → M B) w w' a :
  m w = (w', inr a) → bind m k w = k a w'.
Proof. intros H. unfold bind. by rewrite H. Qed.

Lemma bind_inl {A B} (m : M A) (k : A → M B) w w' e :
  m w = (w', inl e) → bind m k w = (w', inl e).
Proof. intros H. unfold bind. by rewrite H. Qed.

Lemma assert_true msg w : assert true msg w = (w, inr tt).
Proof. done. Qed.

Lemma assert_false msg w : assert false msg w = (w, inl (AssertionError msg)).
Proof. done. Qed.

Lemma foldM_app {A B} (f : B → A → M B) l1 l2 b w :
  foldM f (l1 ++ l2) b w =
  match foldM f l1 b w with
  | (w', inr b') => foldM f l2 b' w'
  | (w', inl e) => (w', inl e)
  end.
Proof.
  revert b w. induction l1 as [|a l1 IH]; intros b w; [done|].
  simpl. unfold bind. destruct (f b a w) as [w1 [e|b1]]; [done|]. apply IH.
Qed.

(** ** Sorting *)

Lemma sorted_Sorted l : Sorted String.le (Py.sorted l).
Proof. apply Sorted_merge_sort, _. Qed.

Lemma sorted_Permutation l : Py.sorted l ≡ₚ l.
Proof. apply merge_sort_Permutation. Qed.

Lemma sorted_of_Permutation l1 l2 : l1 ≡ₚ l2 → Py.sorted l1 = Py.sorted l2.
Proof.
  intros H. apply (Sorted_unique String.le); try apply sorted_Sorted.
  by rewrite !sorted_Permutation.
Qed.

Lemma sorted_of_Sorted l : Sorted String.le l → Py.sorted l = l.
Proof.
  intros H. apply (Sorted_unique String.le); [apply sorted_Sorted|done|].
  apply sorted_Permutation.
Qed.

Lemma StronglySorted_filter {A} (R : relation A) (P : A → Prop)
    `{∀ x, Decision (P x)} l :
  StronglySorted R l → StronglySorted R (filter P l).
Proof.
  induction 1 as [|x l Hl IH Hx]; [constructor|].
  rewrite filter_cons. case_decide; [|done].
  constructor; [done|].
  apply Forall_forall. intros y [_ Hy]%list_elem_of_filter.
  by eapply Forall_forall in Hx.
Qed.

Lemma Sorted_le_filter (P : string → Prop) `{∀ x, Decision (P x)} l :
  Sorted String.le l → Sorted String.le (filter P l).
Proof.
  intros Hl. apply StronglySorted_Sorted, StronglySorted_filter.
  by apply Sorted_StronglySorted; [apply _|].
Qed.

(** ** Enumerate files: the enumeration branch *)

Lemma excluded_false fn :
  ¬ excluded fn ↔
  Py.startswith fn "$RECYCLE" = false
  ∧ Py.startswith fn "System Volume Information" = false.
Proof.
  unfold excluded. rewrite orb_True, !Is_true_true.
  destruct (Py.startswith fn "$RECYCLE"),
    (Py.startswith fn "System Volume Information"); simpl; intuition congruence.
Qed.

Lemma enumerate_images_Permutation found :
  enumerate_images found ≡ₚ
  filter (λ fn, Py.startswith fn "$RECYCLE" = false
                ∧ Py.startswith fn "System Volume Information" = false) found.
Proof.
  unfold enumerate_images. rewrite sorted_Permutation.
  erewrite list_filter_iff; [done|].
  intros fn. rewrite negb_True. apply excluded_false.
Qed.

Lemma enumerate_images_Sorted found : Sorted String.le (enumerate_images found).
Proof. apply Sorted_le_filter, sorted_Sorted. Qed.

Lemma no_chunk_files listing :
  Forall (λ fn, pattern_match fn = false) listing →
  filter (λ fn, pattern_match fn) listing = [].
Proof.
  induction 1 as [|fn l Hfn _ IH]; [done|].
  rewrite filter_cons, IH. case_decide as Hd; [|done].
  apply Is_true_true in Hd. congruence.
Qed.

Lemma enumerate_files_fresh listing found force filename_base input_path w :
  force = true ∨ Forall (λ fn, pattern_match fn = false) listing →
  ∃ w', enumerate_files listing found force filename_base input_path w
        = (w', inr (enumerate_images found))
        ∧ files w' = files w.
Proof.
  intros H. unfold enumerate_files.
  assert (negb force && (0 <? length (filter (λ fn, pattern_match fn) listing))%nat
          = false) as ->.
  { destruct H as [->|H]; [done|]. rewrite no_chunk_files by done.
    by rewrite andb_false_r. }
  eexists. split; [reflexivity|done].
Qed.

(** C10.  In the enumeration branch (re-enumeration forced, or no file of
    the job folder named like a chunk manifest) the cell returns the paths
    that [find_images] found, without those that start with [$RECYCLE] or
    with [System Volume Information], every other path kept as often as it
    was found, and the list is sorted. *)
Theorem enumeration_drops_system_folders
    listing found force filename_base input_path w :
  force = true ∨ Forall (λ fn, pattern_match fn = false) listing →
  ∃ w' all_images,
    enumerate_files listing found force filename_base input_path w
    = (w', inr all_images)
    ∧ (∀ fn, fn ∈ all_images →
             Py.startswith fn "$RECYCLE" = false
             ∧ Py.startswith fn "System Volume Information" = false)
    ∧ all_images ≡ₚ
        filter (λ fn, Py.startswith fn "$RECYCLE" = false
                      ∧ Py.startswith fn "System Volume Information" = false)
               found
    ∧ Sorted String.le all_images.
Proof.
  intros H.
  destruct (enumerate_files_fresh listing found force filename_base input_path w H)
    as (w' & Hrun & _).
  exists w', (enumerate_images found). split; [done|].
  split; [|split].
  - intros fn Hfn. rewrite enumerate_images_Permutation in Hfn.
    by apply list_elem_of_filter in Hfn as [? _].
  - apply enumerate_images_Permutation.
  - apply enumerate_images_Sorted.
Qed.

Lemma enumeration_drops_system_folders_witness :
  (false = true ∨ Forall (λ fn, pattern_match fn = false) ["notes.txt"])
  ∧ ∃ w' all_images,
    enumerate_files ["notes.txt"]
      ["/d/b.jpg"; "$RECYCLE.BIN/x.jpg"; "/d/a.jpg";
       "System Volume Information/y.jpg"]
      false "/out/job" "/d" (World ∅ [])
    = (w', inr all_images)
    ∧ (∀ fn, fn ∈ all_images →
             Py.startswith fn "$RECYCLE" = false
             ∧ Py.startswith fn "System Volume Information" = false)
    ∧ all_images ≡ₚ
        filter (λ fn, Py.startswith fn "$RECYCLE" = false
                      ∧ Py.startswith fn "System Volume Information" = false)
               ["/d/b.jpg"; "$RECYCLE.BIN/x.jpg"; "/d/a.jpg";
                "System Volume Information/y.jpg"]
    ∧ Sorted String.le all_images.
Proof.
  assert (Forall (λ fn, pattern_match fn = false) ["notes.txt"]) as H
    by (repeat constructor).
  split; [by right|].
  apply enumeration_drops_system_folders. by right.
Defined.

(** ** Convert to relative paths *)

Lemma root_prefix_startswith input_path fn :
  Py.startswith fn (root_prefix input_path) = true →
  Py.startswith fn input_path = true.
Proof.
  unfold root_prefix, Py.startswith.
  destruct (Py.endswith input_path ":"); [done|]. apply prefix_app_l.
Qed.

Lemma join_plain a b :
  a ≠ "" → Py.endswith a "/" = false → Py.startswith b "/" = false →
  Py.join a b = a +:+ "/" +:+ b.
Proof.
  intros Ha Hs Hb. unfold Py.join. rewrite Hb, Hs.
  by destruct (decide (a = "")).
Qed.

(** C8.  A record whose path has no backslash and starts with the prefix
    of the root (the root itself when the root ends in [:], the root and a
    slash otherwise) passes the two assertions of the loop, and the loop
    adds one record: its path is what follows that prefix in the old path,
    the prefix taken off once, at the front, and its other fields are those
    of the old record.  Putting the prefix back before the new path gives
    the old path again, in both forms of the root; in the ordinary form
    [os.path.join] of the root and the new path gives it too, the root not
    empty and not ending in a slash, the new path not starting with one. *)
Theorem relative_path_rejoins input_path done im w :
  Py.contains (im_file im) "\" = false →
  Py.startswith (im_file im) (root_prefix input_path) = true →
  ∃ im',
    relative_image input_path done im w = (w, inr (done ++ [im']))
    ∧ im_file im'
      = Py.drop (String.length (root_prefix input_path)) (im_file im)
    ∧ im_failure im' = im_failure im
    ∧ im_rest im' = im_rest im
    ∧ root_prefix input_path +:+ im_file im' = im_file im
    ∧ (Py.endswith input_path ":" = true →
       input_path +:+ im_file im' = im_file im)
    ∧ (Py.endswith input_path ":" = false →
       input_path +:+ "/" +:+ im_file im' = im_file im
       ∧ (input_path ≠ "" → Py.endswith input_path "/" = false →
          Py.startswith (im_file im') "/" = false →
          Py.join input_path (im_file im') = im_file im)).
Proof.
  intros Hbs Hpre.
  pose proof (root_prefix_startswith _ _ Hpre) as Hroot.
  pose proof (prefix_drop _ _ Hpre) as Hsplit.
  exists (set_file im
            (Py.drop (String.length (root_prefix input_path)) (im_file im))).
  split.
  { unfold relative_image, root_prefix in *.
    rewrite Hbs, Hroot. simpl. unfold bind. simpl.
    destruct (Py.endswith input_path ":") eqn:Hc;
      rewrite replace_first_prefix by done; by rewrite app_empty_l. }
  cbn [set_file im_file im_failure im_rest].
  split; [done|]. split; [done|]. split; [done|]. split; [done|].
  unfold root_prefix in *.
  destruct (Py.endswith input_path ":") eqn:Hc.
  - split; [by intros _|done].
  - rewrite app_assoc_s in Hsplit. split; [done|]. intros _.
    split; [done|]. intros. by rewrite join_plain.
Qed.

Lemma relative_path_rejoins_witness :
  (Py.contains (im_file (Image "/drive/org/a/1.jpg" None "")) "\" = false
   ∧ Py.startswith (im_file (Image "/drive/org/a/1.jpg" None ""))
       (root_prefix "/drive/org") = true)
  ∧ ∃ im',
      relative_image "/drive/org" [] (Image "/drive/org/a/1.jpg" None "")
        (World ∅ [])
      = (World ∅ [], inr ([] ++ [im']))
      ∧ im_file im' = "a/1.jpg"
      ∧ "/drive/org" +:+ "/" +:+ im_file im' = "/drive/org/a/1.jpg".
Proof.
  assert (Py.contains (im_file (Image "/drive/org/a/1.jpg" None "")) "\" = false)
    as H1 by reflexivity.
  assert (Py.startswith (im_file (Image "/drive/org/a/1.jpg" None ""))
            (root_prefix "/drive/org") = true) as H2 by reflexivity.
  destruct (relative_path_rejoins "/drive/org" []
              (Image "/drive/org/a/1.jpg" None "") (World ∅ []) H1 H2)
    as (im' & R1 & R2 & _ & _ & _ & _ & R3).
  refine (conj (conj H1 H2) (ex_intro _ im' (conj R1 (conj R2 _)))).
  exact (proj1 (R3 eq_refl)).
Defined.

(** The two forms of the root on concrete paths. *)
Example relative_path_ordinary_root :
  (relative_image "/drive/org" [] (Image "/drive/org/a/1.jpg" None "")
     (World ∅ [])).2
  = inr [Image "a/1.jpg" None ""].
Proof. reflexivity. Qed.

Example relative_path_drive_root :
  (relative_image "c:" [] (Image "c:/a/1.jpg" None "") (World ∅ [])).2
  = inr [Image "/a/1.jpg" None ""].
Proof. reflexivity. Qed.

(** ** Divide images into chunks *)

Lemma reshape_concat {A} sizes (L : list A) :
  concat (reshape sizes L) = take (sum_list sizes) L.
Proof.
  revert L. induction sizes as [|k ks IH]; intros L; simpl.
  - by rewrite take_0.
  - rewrite IH. apply take_take_drop.
Qed.

(** Every slice has the size asked for when the list is long enough. *)
Lemma reshape_sizes {A} sizes (L : list A) :
  sum_list sizes ≤ length L →
  Forall2 (λ s k, length s = k) (reshape sizes L) sizes.
Proof.
  revert L. induction sizes as [|k ks IH]; intros L H; simpl in *.
  - constructor.
  - constructor.
    + rewrite length_take. lia.
    + apply IH. rewrite length_drop. lia.
Qed.

Lemma sum_sizes_upto (k r c : nat) :
  sum_list ((λ i, if (i <? r)%nat then S k else k) <$> seq 0 c)
  = c * k + Nat.min r c.
Proof.
  induction c as [|c IH]; [simpl; lia|].
  rewrite seq_S, fmap_app, sum_list_with_app, IH. simpl.
  destruct (Nat.ltb_spec c r); lia.
Qed.

Lemma sum_chunk_sizes (m c : nat) : 0 < c → sum_list (chunk_sizes m c) = m.
Proof.
  intros Hc. unfold chunk_sizes. rewrite sum_sizes_upto.
  pose proof (Nat.mod_upper_bound m c ltac:(lia)).
  pose proof (Nat.div_mod_eq m c). lia.
Qed.

Lemma chunk_sizes_bounds (m c k : nat) :
  k ∈ chunk_sizes m c → m / c ≤ k ≤ S (m / c).
Proof.
  unfold chunk_sizes. intros (i & -> & _)%list_elem_of_fmap.
  destruct (i <? m mod c)%nat; lia.
Qed.

Lemma split_unfold {A} (L : list A) n :
  split_list_into_n_chunks L n
  = reshape (chunk_sizes (length L) (Nat.min n (length L))) L.
Proof. done. Qed.

Lemma split_length {A} (L : list A) n :
  length (split_list_into_n_chunks L n) = Nat.min n (length L).
Proof.
  rewrite split_unfold, length_reshape. unfold chunk_sizes.
  by rewrite length_fmap, length_seq.
Qed.

Lemma split_concat {A} (L : list A) n :
  0 < n → concat (split_list_into_n_chunks L n) = L.
Proof.
  intros Hn. rewrite split_unfold, reshape_concat.
  destruct L as [|x L]; [by rewrite take_nil|].
  rewrite sum_chunk_sizes by (simpl; lia). by rewrite take_ge.
Qed.

Lemma split_chunk_length {A} (L : list A) n chunk :
  chunk ∈ split_list_into_n_chunks L n →
  length L / Nat.min n (length L) ≤ length chunk
  ≤ S (length L / Nat.min n (length L)).
Proof.
  rewrite split_unfold. intros Hin.
  destruct (decide (Nat.min n (length L) = 0)) as [Hz|Hz].
  { rewrite Hz in Hin. by apply elem_of_nil in Hin. }
  pose proof (reshape_sizes (chunk_sizes (length L) (Nat.min n (length L))) L) as HF.
  rewrite sum_chunk_sizes in HF by lia. specialize (HF ltac:(lia)).
  apply list_elem_of_lookup in Hin as [i Hi].
  destruct (Forall2_lookup_l _ _ _ _ _ HF Hi) as (k & Hk & <-).
  apply chunk_sizes_bounds. by eapply list_elem_of_lookup_2.
Qed.

(** ** Names of the chunk files *)

Lemma length_app_s (s t : string) :
  String.length (s +:+ t) = String.length s + String.length t.
Proof. induction s as [|c s IH]; [done|]. rewrite app_cons. simpl. by rewrite IH. Qed.

Lemma app_inj_r (s s' t : string) : s +:+ t = s' +:+ t → s = s'.
Proof.
  intros H. assert (String.length s = String.length s') as Hlen.
  { apply (f_equal String.length) in H. rewrite !length_app_s in H. lia. }
  revert s' H Hlen. induction s as [|c s IH]; intros [|c' s'] H Hlen; try done.
  rewrite !app_cons in H. injection H as -> H. f_equal. apply IH; [done|].
  simpl in Hlen. lia.
Qed.

Lemma parse_str n : parse_nat (Py.str n) = Some n.
Proof.
  unfold parse_nat, Py.str. rewrite NilEmpty.usu. simpl.
  by rewrite Unsigned.of_to.
Qed.

Lemma parse_zeros k s : parse_nat (Py.zeros k +:+ s) = parse_nat s.
Proof.
  induction k as [|k IH]; [done|].
  simpl. rewrite app_cons. unfold parse_nat in *. simpl.
  destruct (NilEmpty.uint_of_string (Py.zeros k +:+ s)) as [d|],
    (NilEmpty.uint_of_string s) as [d'|]; simplify_eq/=; try done.
  f_equal. rewrite <- IH. done.
Qed.

Lemma parse_zfill width n : parse_nat (Py.zfill width (Py.str n)) = Some n.
Proof. unfold Py.zfill. by rewrite parse_zeros, parse_str. Qed.

Lemma chunk_name_inj i j : chunk_name i = chunk_name j → i = j.
Proof.
  unfold chunk_name. intros H. apply (inj (String.app "chunk")) in H.
  apply app_inj_r in H.
  apply (f_equal parse_nat) in H. rewrite !parse_zfill in H. by injection H.
Qed.

Lemma digits_only_app s t :
  digits_only s = true → digits_only t = true → digits_only (s +:+ t) = true.
Proof.
  induction s as [|c s IH]; [done|]. rewrite app_cons. simpl.
  intros [-> ?]%andb_true_iff ?. by rewrite IH.
Qed.

Lemma digits_only_uint d : digits_only (NilEmpty.string_of_uint d) = true.
Proof. induction d; simpl; by rewrite ?IHd. Qed.

Lemma digits_only_zeros k : digits_only (Py.zeros k) = true.
Proof. induction k as [|k IH]; [done|]. simpl. by rewrite IH. Qed.

Lemma str_not_empty n : Py.str n ≠ "".
Proof.
  intros H. pose proof (parse_str n) as Hp. rewrite H in Hp.
  injection Hp as <-. discriminate H.
Qed.

Lemma after_digit_json ds :
  digits_only ds = true → after_digit (ds +:+ ".json") = true.
Proof.
  induction ds as [|c ds IH]; [done|]. rewrite app_cons.
  intros [Hc Hds]%andb_true_iff. simpl after_digit.
  rewrite Hc, IH by done. apply orb_true_r.
Qed.

Lemma pattern_match_chunk_name i : pattern_match (chunk_name i) = true.
Proof.
  unfold chunk_name, pattern_match, Py.zfill.
  assert (digits_only (Py.zeros (3 - String.length (Py.str i)) +:+ Py.str i) = true)
    as Hd by (apply digits_only_app; [apply digits_only_zeros|apply digits_only_uint]).
  destruct (Py.zeros (3 - String.length (Py.str i)) +:+ Py.str i) as [|c ds] eqn:E.
  { apply (f_equal String.length) in E. rewrite length_app_s in E.
    pose proof (str_not_empty i). destruct (Py.str i); [done|]. simpl in E. lia. }
  apply andb_true_iff in Hd as [Hc Hds].
  change (Py.startswith ("chunk" +:+ String c ds +:+ ".json") "chunk") with true.
  change (Py.drop 5 ("chunk" +:+ String c ds +:+ ".json"))
    with (String c (ds +:+ ".json")).
  cbn [andb]. by rewrite Hc, after_digit_json.
Qed.

Lemma chunk_name_relative i : Py.startswith (chunk_name i) "/" = false.
Proof. done. Qed.

(** [os.path.join] puts the same text before every relative name. *)
Lemma join_relative a b :
  Py.startswith b "/" = false → Py.join a b = Py.join a "" +:+ b.
Proof.
  intros Hb. unfold Py.join. rewrite Hb.
  change (Py.startswith "" "/") with false. cbv iota.
  destruct (decide (a = "")); [done|].
  destruct (Py.endswith a "/").
  - by rewrite app_empty_r.
  - by rewrite app_empty_r, app_assoc_s.
Qed.

Lemma chunk_fn_inj filename_base i j :
  Py.join filename_base (chunk_name i) = Py.join filename_base (chunk_name j) →
  i = j.
Proof.
  rewrite !(join_relative _ (chunk_name _)) by apply chunk_name_relative.
  intros H%(inj (String.app _)). by apply chunk_name_inj.
Qed.

(** ** Write file lists *)

Lemma enumerate_snoc {A} (l : list A) x :
  enumerate (l ++ [x]) = enumerate l ++ [(length l, x)].
Proof.
  unfold enumerate. rewrite length_app, seq_app. simpl.
  rewrite zip_with_app by (by rewrite length_seq). done.
Qed.

Lemma enumerate_lookup {A} (l : list A) i x :
  l !! i = Some x → enumerate l !! i = Some (i, x).
Proof.
  intros H. unfold enumerate. apply lookup_zip_with_Some.
  exists i, x. split; [done|]. split; [|done].
  apply lookup_seq. split; [done|]. by eapply lookup_lt_Some.
Qed.

Lemma write_file_lists_spec filename_base chunks w :
  ∃ w',
    write_file_lists filename_base chunks w
    = (w', inr (manifest_task filename_base <$> seq 0 (length chunks)))
    ∧ stdout w' = stdout w
    ∧ (∀ i chunk, chunks !! i = Some chunk →
         ∃ x, files w' !! Py.join filename_base (chunk_name i)
              = Some (File (JsonList chunk) x))
    ∧ (∀ p, (∀ i, i < length chunks → p ≠ Py.join filename_base (chunk_name i)) →
            files w' !! p = files w !! p).
Proof.
  unfold write_file_lists.
  induction chunks as [|chunk chunks IH] using rev_ind.
  - exists w. split; [done|]. split; [done|]. split; [|done].
    intros i c Hi. by rewrite lookup_nil in Hi.
  - destruct IH as (w1 & Hrun & Hout & Hfiles & Hother).
    rewrite enumerate_snoc, foldM_app, Hrun. simpl.
    unfold bind, write_list_to_file, write_file, ret. simpl.
    eexists. split.
    { rewrite length_app, seq_app, fmap_app. done. }
    simpl. split; [done|]. split.
    + intros i c Hi. destruct (decide (i = length chunks)) as [->|Hne].
      * rewrite lookup_app_r, Nat.sub_diag in Hi by done. simplify_eq/=.
        rewrite lookup_insert_eq. eauto.
      * assert (chunks !! i = Some c) as Hi'.
        { apply lookup_lt_Some in Hi as Hlt. rewrite length_app in Hlt. simpl in Hlt.
          rewrite lookup_app_l in Hi by lia. done. }
        rewrite lookup_insert_ne; [by apply Hfiles|].
        intros Heq. apply chunk_fn_inj in Heq. done.
    + intros p Hp. rewrite length_app in Hp. simpl in Hp.
      rewrite lookup_insert_ne.
      * apply Hother. intros i Hi. apply Hp. lia.
      * intros <-. eapply (Hp (length chunks)); [lia|done].
Qed.

(** ** The chunks and their manifests *)

(** C1.  Cutting a list of [m] images for [n] jobs, [n] at least one,
    gives [min(n,m)] chunks (hence [n] of them when [m >= n]), any two of
    sizes that differ by at most one; the chunks put end to end in index
    order are the list itself, so a permutation of it in which every path
    occurs as often as in the list, without duplicates when the list has
    none; and the cell that writes the file lists makes one task per chunk,
    whose manifest file holds the chunk. *)
Theorem chunks_balanced_partition (all_images : list string) n filename_base w :
  0 < n →
  length (split_list_into_n_chunks all_images n) = Nat.min n (length all_images)
  ∧ (∀ a b, a ∈ split_list_into_n_chunks all_images n →
            b ∈ split_list_into_n_chunks all_images n →
            length a ≤ S (length b))
  ∧ concat (split_list_into_n_chunks all_images n) = all_images
  ∧ concat (split_list_into_n_chunks all_images n) ≡ₚ all_images
  ∧ (NoDup all_images → NoDup (concat (split_list_into_n_chunks all_images n)))
  ∧ ∃ w',
      write_file_lists filename_base (split_list_into_n_chunks all_images n) w
      = (w', inr (manifest_task filename_base
                    <$> seq 0 (Nat.min n (length all_images))))
      ∧ ∀ i chunk,
          split_list_into_n_chunks all_images n !! i = Some chunk →
          ∃ x, files w' !! Py.join filename_base (chunk_name i)
               = Some (File (JsonList chunk) x).
Proof.
  intros Hn.
  split; [apply split_length|].
  split.
  { intros a b Ha%split_chunk_length Hb%split_chunk_length. lia. }
  rewrite split_concat by done.
  split; [done|]. split; [done|]. split; [done|].
  destruct (write_file_lists_spec filename_base
              (split_list_into_n_chunks all_images n) w)
    as (w' & Hrun & _ & Hfiles & _).
  rewrite split_length in Hrun. by exists w'.
Qed.

Lemma chunks_balanced_partition_witness :
  0 < 2
  ∧ length (split_list_into_n_chunks seven_images 2) = Nat.min 2 (length seven_images)
  ∧ (∀ a b, a ∈ split_list_into_n_chunks seven_images 2 →
            b ∈ split_list_into_n_chunks seven_images 2 →
            length a ≤ S (length b))
  ∧ concat (split_list_into_n_chunks seven_images 2) = seven_images.
Proof.
  assert (0 < 2) as H by lia.
  destruct (chunks_balanced_partition seven_images 2 "/out/job" (World ∅ []) H)
    as (H1 & H2 & H3 & _).
  exact (conj H (conj H1 (conj H2 H3))).
Defined.

Example seven_in_two :
  split_list_into_n_chunks seven_images 2
  = [["/d/a/1.jpg"; "/d/a/2.jpg"; "/d/a/3.jpg"; "/d/b/1.jpg"];
     ["/d/b/2.jpg"; "/d/c/1.jpg"; "/d/c/2.jpg"]].
Proof. reflexivity. Qed.

(** ** Enumerate files: the recovery branch *)

Lemma concat_Permutation {A} (ls ks : list (list A)) :
  ls ≡ₚ ks → concat ls ≡ₚ concat ks.
Proof.
  induction 1 as [|x l k _ IH|x y l|l k m _ IH1 _ IH2]; simpl.
  - done.
  - by rewrite IH.
  - rewrite !(assoc_L (++)). f_equiv. apply Permutation_app_comm.
  - by etrans.
Qed.

Lemma chunk_files_Permutation listing names others :
  listing ≡ₚ names ++ others →
  Forall (λ fn, pattern_match fn = true) names →
  Forall (λ fn, pattern_match fn = false) others →
  filter (λ fn, pattern_match fn) listing ≡ₚ names.
Proof.
  intros -> Hn Ho. rewrite filter_app, (no_chunk_files others) by done.
  rewrite app_nil_r.
  induction Hn as [|fn l Hfn _ IH]; [done|].
  rewrite filter_cons. case_decide as Hd.
  - by rewrite IH.
  - by rewrite Is_true_false, Hfn in Hd.
Qed.

Lemma load_chunk_world filename_base acc fn w :
  (load_chunk filename_base acc fn w).1 = w.
Proof.
  unfold load_chunk, bind, json_load.
  destruct (files w !! Py.join filename_base fn) as [[[]]|]; done.
Qed.

Lemma load_chunks_world filename_base fs acc w :
  (foldM (load_chunk filename_base) fs acc w).1 = w.
Proof.
  revert acc. induction fs as [|fn fs IH]; intros acc; [done|].
  simpl. unfold bind.
  pose proof (load_chunk_world filename_base acc fn w) as Hw.
  destruct (load_chunk filename_base acc fn w) as [w1 [e|acc1]];
    simpl in Hw; subst w1; [done|]. apply IH.
Qed.

Lemma load_chunks_ok filename_base fs acc w :
  Forall (λ fn, ∃ l x, files w !! Py.join filename_base fn
                       = Some (File (JsonList l) x)) fs →
  foldM (load_chunk filename_base) fs acc w
  = (w, inr (acc ++ concat (manifest_at filename_base w <$> fs))).
Proof.
  intros H. revert acc. induction H as [|fn fs (l & x & Hfn) _ IH]; intros acc.
  - simpl. by rewrite app_nil_r.
  - simpl. unfold bind at 1.
    assert (load_chunk filename_base acc fn w = (w, inr (acc ++ l))) as ->.
    { unfold load_chunk, bind, json_load. by rewrite Hfn. }
    rewrite IH. unfold manifest_at at 2. rewrite Hfn. by rewrite (assoc_L (++)).
Qed.

(** A chunk file that does not hold a list stops the loop. *)
Lemma load_chunks_not_list filename_base fs fn acc w :
  fn ∈ fs →
  (∀ l x, files w !! Py.join filename_base fn ≠ Some (File (JsonList l) x)) →
  ∃ e, foldM (load_chunk filename_base) fs acc w = (w, inl e).
Proof.
  intros Hin Hbad. revert acc.
  induction fs as [|a fs IH]; intros acc; [by apply elem_of_nil in Hin|].
  simpl. unfold bind.
  pose proof (load_chunk_world filename_base acc a w) as Hw.
  destruct (load_chunk filename_base acc a w) as [w1 [e|acc1]] eqn:E;
    simpl in Hw; subst w1; [by eexists|].
  apply elem_of_cons in Hin as [->|Hin]; [|by apply IH].
  exfalso. unfold load_chunk, bind, json_load in E.
  destruct (files w !! Py.join filename_base a) as [[[] x]|] eqn:Ef;
    simplify_eq/=. by eapply Hbad.
Qed.

(** With every listed chunk file on disk and holding JSON, the exception is
    the one of [assert isinstance(chunk,list)]. *)
Lemma load_chunks_assertion filename_base fs acc w e :
  Forall (λ fn, ∃ d x, files w !! Py.join filename_base fn = Some (File d x)
                       ∧ ∀ s, d ≠ Text s) fs →
  foldM (load_chunk filename_base) fs acc w = (w, inl e) →
  e = AssertionError None.
Proof.
  intros H. revert acc. induction H as [|fn fs (d & x & Hfn & Hd) _ IH]; intros acc.
  - done.
  - simpl. unfold bind at 1. unfold load_chunk at 1. unfold bind, json_load.
    rewrite Hfn. simpl. destruct d; try (by intros [=]).
    + by destruct (Hd s).
    + apply IH.
Qed.

Lemma enumerate_files_recovery listing found filename_base input_path w :
  filter (λ fn, pattern_match fn) listing ≠ [] →
  ∃ msg,
    enumerate_files listing found false filename_base input_path w
      = match foldM (load_chunk filename_base)
                (filter (λ fn, pattern_match fn) listing) []
                (World (files w) (stdout w ++ [msg])) with
        | (w1, inl e) => (w1, inl e)
        | (w1, inr all_images) =>
            (World (files w1)
               (stdout w1 ++
                ["Loaded " +:+ Py.str (length (Py.sorted all_images))
                 +:+ " image files from "
                 +:+ Py.str (length (filter (λ fn, pattern_match fn) listing))
                 +:+ " chunks in " +:+ filename_base]),
             inr (Py.sorted all_images))
        end.
Proof.
  intros Hne. unfold enumerate_files.
  destruct (filter (λ fn, pattern_match fn) listing) as [|fn fs] eqn:E; [done|].
  replace (negb false && (0 <? length (fn :: fs))%nat) with true by done.
  exists ("Found " +:+ Py.str (length (fn :: fs)) +:+ " chunk files in folder "
          +:+ filename_base +:+ ", bypassing enumeration").
  unfold bind at 1. unfold print at 1. unfold bind at 1.
  by destruct (foldM _ _ _ _) as [w1 [e|imgs]].
Qed.

Lemma manifests_of_names filename_base w chunks :
  (∀ i chunk, chunks !! i = Some chunk →
     ∃ x, files w !! Py.join filename_base (chunk_name i)
          = Some (File (JsonList chunk) x)) →
  manifest_at filename_base w <$> (chunk_name <$> seq 0 (length chunks)) = chunks.
Proof.
  intros H. apply list_eq. intros i. rewrite <- list_fmap_compose, list_lookup_fmap.
  destruct (chunks !! i) as [chunk|] eqn:E.
  - rewrite (lookup_seq_lt _ _ _ (lookup_lt_Some _ _ _ E)). simpl.
    destruct (H i chunk E) as [x Hx]. unfold manifest_at. by rewrite Hx.
  - rewrite lookup_seq_ge; [done|]. by apply lookup_ge_None.
Qed.

(** C7.  When the job folder lists the manifests of the chunks (in any
    order, among other names that do not look like chunk files), the files
    hold the chunks, and enumeration is not forced, the cell gives back the
    sorted image list the chunks were cut from, whatever [find_images] would
    find now; and a listed chunk file that does not hold a list makes the
    cell fail, with the assertion on the list when every listed chunk file
    is there and holds JSON. *)
Theorem recovery_reloads_enumeration listing found filename_base input_path w :
  (∀ chunks others all_images,
     chunks ≠ [] →
     Sorted String.le all_images →
     concat chunks ≡ₚ all_images →
     (∀ i chunk, chunks !! i = Some chunk →
        ∃ x, files w !! Py.join filename_base (chunk_name i)
             = Some (File (JsonList chunk) x)) →
     listing ≡ₚ (chunk_name <$> seq 0 (length chunks)) ++ others →
     Forall (λ fn, pattern_match fn = false) others →
     ∃ w', enumerate_files listing found false filename_base input_path w
           = (w', inr all_images)
           ∧ files w' = files w)
  ∧ (∀ fn,
       fn ∈ listing → pattern_match fn = true →
       (∀ l x, files w !! Py.join filename_base fn ≠ Some (File (JsonList l) x)) →
       ∃ w' e, enumerate_files listing found false filename_base input_path w
               = (w', inl e)
               ∧ (Forall (λ fn', pattern_match fn' = true →
                            ∃ d x, files w !! Py.join filename_base fn'
                                   = Some (File d x) ∧ ∀ s, d ≠ Text s) listing →
                  e = AssertionError None)).
Proof.
  split.
  - intros chunks others all_images Hne Hsorted Hperm Hfiles Hlisting Hothers.
    set (names := chunk_name <$> seq 0 (length chunks)) in *.
    assert (Forall (λ fn, pattern_match fn = true) names) as Hnames.
    { apply Forall_fmap, Forall_forall. intros i _. apply pattern_match_chunk_name. }
    pose proof (chunk_files_Permutation _ _ _ Hlisting Hnames Hothers) as Hcf.
    assert (filter (λ fn, pattern_match fn) listing ≠ []) as Hcf_ne.
    { intros E. rewrite E in Hcf. symmetry in Hcf.
      apply Permutation_nil_r in Hcf. unfold names in Hcf.
      apply fmap_nil_inv in Hcf. destruct chunks; [done|discriminate]. }
    destruct (enumerate_files_recovery listing found filename_base input_path w Hcf_ne)
      as (msg & ->).
    set (w0 := World (files w) (stdout w ++ [msg])).
    assert (files w0 = files w) as Hw0 by done.
    rewrite load_chunks_ok; cycle 1.
    { apply Forall_forall. intros fn Hfn. rewrite Hcf in Hfn.
      apply list_elem_of_fmap in Hfn as (i & -> & Hi).
      apply elem_of_seq in Hi as [_ Hi].
      destruct (lookup_lt_is_Some_2 chunks i ltac:(lia)) as [chunk Hc].
      destruct (Hfiles i chunk Hc) as [x Hx]. rewrite Hw0. eauto. }
    assert (Py.sorted ([] ++ concat (manifest_at filename_base w0
              <$> filter (λ fn, pattern_match fn) listing)) = all_images) as ->.
    { rewrite <- (sorted_of_Sorted all_images) by done.
      apply sorted_of_Permutation. rewrite <- Hperm. simpl.
      apply concat_Permutation.
      assert (manifest_at filename_base w0 = manifest_at filename_base w) as ->
        by done.
      rewrite Hcf. unfold names. by rewrite manifests_of_names. }
    by eexists.
  - intros fn Hin Hpm Hbad.
    assert (fn ∈ filter (λ fn, pattern_match fn) listing) as Hfn.
    { apply list_elem_of_filter. by rewrite Is_true_true. }
    assert (filter (λ fn, pattern_match fn) listing ≠ []) as Hcf_ne.
    { intros E. rewrite E in Hfn. by apply elem_of_nil in Hfn. }
    destruct (enumerate_files_recovery listing found filename_base input_path w Hcf_ne)
      as (msg & ->).
    set (w0 := World (files w) (stdout w ++ [msg])).
    assert (files w0 = files w) as Hw0 by done.
    destruct (load_chunks_not_list filename_base _ fn [] w0 Hfn) as [e He].
    { intros l x. rewrite Hw0. apply Hbad. }
    rewrite He. exists w0, e. split; [done|].
    intros Hall. eapply (load_chunks_assertion filename_base _ [] w0); [|done].
    apply Forall_forall. intros fn' [Hp Hin']%list_elem_of_filter.
    rewrite Forall_forall in Hall. rewrite Hw0.
    apply Hall; [done|]. by apply Is_true_true.
Qed.

Lemma recovery_reloads_enumeration_witness :
  (Sorted String.le seven_images
   ∧ concat (split_list_into_n_chunks seven_images 2) ≡ₚ seven_images
   ∧ ["run_chunk_001_gpu_01.sh"; "chunk001.json"; "chunk000_results.json";
      "chunk000.json"]
     ≡ₚ (chunk_name <$> seq 0 (length (split_list_into_n_chunks seven_images 2)))
        ++ ["run_chunk_001_gpu_01.sh"; "chunk000_results.json"])
  ∧ ∃ w',
      enumerate_files
        ["run_chunk_001_gpu_01.sh"; "chunk001.json"; "chunk000_results.json";
         "chunk000.json"]
        [] false "/out/job" "/d" first_run
      = (w', inr seven_images)
      ∧ files w' = files first_run.
Proof.
  assert (Sorted String.le seven_images) as Hs
    by (apply (bool_decide_unpack _); vm_compute; exact I).
  assert (concat (split_list_into_n_chunks seven_images 2) ≡ₚ seven_images)
    as Hc by reflexivity.
  assert (["run_chunk_001_gpu_01.sh"; "chunk001.json"; "chunk000_results.json";
           "chunk000.json"]
          ≡ₚ (chunk_name <$> seq 0 (length (split_list_into_n_chunks seven_images 2)))
             ++ ["run_chunk_001_gpu_01.sh"; "chunk000_results.json"]) as Hl
    by (apply (bool_decide_unpack _); vm_compute; exact I).
  split; [done|].
  apply (proj1 (recovery_reloads_enumeration _ [] "/out/job" "/d" first_run)
           (split_list_into_n_chunks seven_images 2)
           ["run_chunk_001_gpu_01.sh"; "chunk000_results.json"]
           seven_images); try done.
  - intros [|[|i]] chunk H; simplify_eq/=; eexists; vm_compute; reflexivity.
  - repeat constructor.
Defined.

(** ** Constant validation *)

(** What the assertions of the cell let through. *)
Lemma validate_constants_accepts cfg w :
  validate_constants cfg w = (w, inr tt) ↔
  (use_image_queue cfg = true → checkpoint_frequency cfg = None)
  ∧ (augment cfg = true →
     checkpoint_frequency cfg = None ∧ use_yolo_inference_scripts cfg = true)
  ∧ (use_tiled_inference cfg = true →
     augment cfg = false ∧ use_yolo_inference_scripts cfg = false
     ∧ checkpoint_frequency cfg = None).
Proof.
  unfold validate_constants, bind, assert, ret, raise.
  destruct (use_image_queue cfg), (augment cfg), (use_tiled_inference cfg),
    (use_yolo_inference_scripts cfg), (checkpoint_frequency cfg);
    simpl; intuition (try done; congruence).
Qed.

Lemma validate_constants_world cfg w : (validate_constants cfg w).1 = w.
Proof.
  unfold validate_constants, bind, assert, ret, raise.
  by destruct (use_image_queue cfg), (augment cfg), (use_tiled_inference cfg),
    (use_yolo_inference_scripts cfg), (checkpoint_frequency cfg).
Qed.

Lemma validate_constants_rejects cfg w :
  (checkpoint_frequency cfg ≠ None
   ∧ (use_image_queue cfg = true ∨ augment cfg = true
      ∨ use_tiled_inference cfg = true))
  ∨ (augment cfg = true ∧ use_tiled_inference cfg = true) →
  ∃ msg, validate_constants cfg w = (w, inl (AssertionError (Some msg))).
Proof.
  unfold validate_constants, bind, assert, ret, raise.
  destruct (use_image_queue cfg), (augment cfg), (use_tiled_inference cfg),
    (use_yolo_inference_scripts cfg), (checkpoint_frequency cfg);
    simpl; intros H; try (by eexists); exfalso; intuition (try done; congruence).
Qed.

(** C5, amended to the pairs the cell checks.  A configuration that sets a
    checkpoint frequency together with the image queue, with augmentation
    or with tiled inference, or that asks for augmentation together with
    tiled inference, is rejected by an assertion of the validation cell, and
    the job stops there: no file is written and nothing is printed. *)
Theorem conflicting_modes_rejected cfg listing found w :
  (checkpoint_frequency cfg ≠ None
   ∧ (use_image_queue cfg = true ∨ augment cfg = true
      ∨ use_tiled_inference cfg = true))
  ∨ (augment cfg = true ∧ use_tiled_inference cfg = true) →
  ∃ msg, prepare_job cfg listing found w = (w, inl (AssertionError (Some msg))).
Proof.
  intros H. destruct (validate_constants_rejects cfg w H) as [msg Hv].
  exists msg. unfold prepare_job. by erewrite bind_inl.
Qed.

Lemma conflicting_modes_rejected_witness :
  ((checkpoint_frequency (with_modes true false false false (Some 10000%Z)) ≠ None
    ∧ (use_image_queue (with_modes true false false false (Some 10000%Z)) = true
       ∨ augment (with_modes true false false false (Some 10000%Z)) = true
       ∨ use_tiled_inference (with_modes true false false false (Some 10000%Z)) = true))
   ∨ (augment (with_modes true false false false (Some 10000%Z)) = true
      ∧ use_tiled_inference (with_modes true false false false (Some 10000%Z)) = true))
  ∧ ∃ msg,
      prepare_job (with_modes true false false false (Some 10000%Z)) []
        ["/d/a/1.jpg"] (World ∅ [])
      = (World ∅ [], inl (AssertionError (Some msg))).
Proof.
  assert (checkpoint_frequency (with_modes true false false false (Some 10000%Z)) ≠ None
          ∧ (use_image_queue (with_modes true false false false (Some 10000%Z)) = true
             ∨ augment (with_modes true false false false (Some 10000%Z)) = true
             ∨ use_tiled_inference (with_modes true false false false (Some 10000%Z)) = true))
    as H by (split; [done|by left]).
  split; [by left|].
  apply conflicting_modes_rejected. by left.
Defined.

(** C5 as stated fails for the image queue together with tiled inference,
    and for the image queue together with augmentation: no assertion of the
    cell looks at these pairs, and the scripts are written. *)
Lemma image_queue_pairs_accepted :
  (use_image_queue (with_modes true false true false None) = true
   ∧ use_tiled_inference (with_modes true false true false None) = true
   ∧ validate_constants (with_modes true false true false None) (World ∅ [])
     = (World ∅ [], inr tt)
   ∧ is_Some (files (prepare_job (with_modes true false true false None) []
                       ["/d/a/1.jpg"] (World ∅ [])).1
              !! "/out/job/run_chunk_000_gpu_00.sh"))
  ∧ (use_image_queue (with_modes true true false true None) = true
     ∧ augment (with_modes true true false true None) = true
     ∧ validate_constants (with_modes true true false true None) (World ∅ [])
       = (World ∅ [], inr tt)
     ∧ is_Some (files (prepare_job (with_modes true true false true None) []
                         ["/d/a/1.jpg"] (World ∅ [])).1
                !! "/out/job/run_chunk_000_gpu_00.sh")).
Proof.
  split; (split; [done|]; split; [done|]; split; [done|]);
    vm_compute; by eexists.
Qed.

(** ** Generate commands *)

Lemma write_script_spec path body w :
  write_script path body w
  = (World (<[path := File (Text (script_text body)) true]> (files w)) (stdout w),
     inr tt).
Proof.
  unfold write_script, bind, write_file, chmod_exec. simpl.
  rewrite lookup_insert_eq. simpl. by rewrite insert_insert_eq.
Qed.

Lemma generate_task_spec cfg done g i t w :
  generate_task cfg (done, g) (i, t) w
  = (World
       (match checkpoint_frequency cfg with
        | Some _ =>
            <[chunk_script cfg "resume" i :=
                File (Text (script_text (task_command cfg i (input_file t)
                                         +:+ resume_string (input_file t)))) true]>
        | None => id
        end
          (<[chunk_script cfg "run" i :=
               File (Text (script_text (task_command cfg i (input_file t)))) true]>
             (files w)))
       (stdout w),
     inr (done ++ [generated_task cfg i t],
          gpu_append g (gpu_number_of cfg i) (chunk_script cfg "run" i))).
Proof.
  unfold generate_task, generated_task.
  unfold bind at 1. rewrite write_script_spec.
  destruct (checkpoint_frequency cfg); [|done].
  unfold bind. by rewrite write_script_spec.
Qed.

Lemma foldM_snoc {A B} (f : B → A → M B) l a b w :
  foldM f (l ++ [a]) b w =
  match foldM f l b w with
  | (w', inr b') => f b' a w'
  | (w', inl e) => (w', inl e)
  end.
Proof.
  rewrite foldM_app. destruct (foldM f l b w) as [w' [e|b']]; [done|].
  simpl. unfold bind. by destruct (f b' a w') as [w2 [e|b2]].
Qed.

Lemma chunk_script_run cfg i : run_script_path cfg (chunk_script cfg "run" i).
Proof. by eexists. Qed.

Lemma generate_tasks_spec cfg tasks w :
  ∃ w' g,
    foldM (generate_task cfg) (enumerate tasks) ([], []) w
    = (w', inr (imap (generated_task cfg) tasks, g))
    ∧ stdout w' = stdout w
    ∧ (∀ p, is_Some (files w !! p) → is_Some (files w' !! p))
    ∧ (checkpoint_frequency cfg = None →
       ∀ p, ¬ run_script_path cfg p → files w' !! p = files w !! p)
    ∧ (∀ i, i < length tasks → is_Some (files w' !! chunk_script cfg "run" i))
    ∧ (checkpoint_frequency cfg ≠ None →
       ∀ i, i < length tasks → is_Some (files w' !! chunk_script cfg "resume" i)).
Proof.
  induction tasks as [|t tasks IH] using rev_ind.
  - exists w, []. repeat split; try done; intros; simpl in *; lia.
  - destruct IH as (w1 & g & Hrun & Hout & Hkeep & Hnone & Hcmd & Hres).
    rewrite enumerate_snoc, foldM_snoc, Hrun, generate_task_spec.
    eexists _, _. split.
    { rewrite imap_app. simpl. by rewrite Nat.add_0_r. }
    simpl. split; [done|].
    assert (∀ p, is_Some (files w1 !! p) →
                 is_Some (match checkpoint_frequency cfg with
                          | Some _ =>
                              <[chunk_script cfg "resume" (length tasks) :=
                                  File (Text (script_text
                                    (task_command cfg (length tasks) (input_file t)
                                     +:+ resume_string (input_file t)))) true]>
                          | None => id
                          end
                            (<[chunk_script cfg "run" (length tasks) :=
                                 File (Text (script_text
                                   (task_command cfg (length tasks) (input_file t)))) true]>
                               (files w1)) !! p)) as Hkeep1.
    { intros p Hp. destruct (checkpoint_frequency cfg); simpl.
      - rewrite !lookup_insert. repeat case_decide; eauto.
      - rewrite lookup_insert. case_decide; eauto. }
    split; [by auto|]. split; [|split].
    + intros Hn p Hp. rewrite Hn. simpl. rewrite lookup_insert_ne; [by apply Hnone|].
      intros <-. apply Hp, chunk_script_run.
    + intros i Hi. rewrite length_app in Hi. simpl in Hi.
      destruct (decide (i = length tasks)) as [->|Hne].
      * destruct (checkpoint_frequency cfg); simpl.
        -- rewrite lookup_insert. case_decide; [eauto|].
           rewrite lookup_insert_eq. eauto.
        -- rewrite lookup_insert_eq. eauto.
      * apply Hkeep1, Hcmd. lia.
    + intros Hs i Hi. rewrite length_app in Hi. simpl in Hi.
      destruct (decide (i = length tasks)) as [->|Hne].
      * destruct (checkpoint_frequency cfg); [|done]. simpl.
        rewrite lookup_insert_eq. eauto.
      * apply Hkeep1, Hres; [done|lia].
Qed.

Lemma write_gpu_scripts_spec cfg g w :
  ∃ w',
    foldM (write_gpu_script cfg) g tt w = (w', inr tt)
    ∧ stdout w' = stdout w
    ∧ (∀ p, is_Some (files w !! p) → is_Some (files w' !! p))
    ∧ (∀ p, ¬ run_script_path cfg p → files w' !! p = files w !! p).
Proof.
  revert w. induction g as [|[gpu scripts] g IH]; intros w.
  - by exists w.
  - simpl. unfold bind at 1. unfold write_gpu_script at 1.
    unfold bind at 1, write_file at 1, chmod_exec at 1. simpl.
    rewrite lookup_insert_eq. simpl. rewrite insert_insert_eq.
    match goal with |- context [foldM _ g tt ?w1] =>
      destruct (IH w1) as (w' & Hrun & Hout & Hkeep & Hother) end.
    exists w'. split; [done|]. simpl in *. split; [done|]. split.
    + intros p Hp. apply Hkeep. rewrite lookup_insert. case_decide; eauto.
    + intros p Hp. rewrite Hother by done. rewrite lookup_insert_ne; [done|].
      intros <-. apply Hp. by eexists.
Qed.

(** The cell never fails; it leaves one dictionary per task, the files that
    were there, and the run script of every task; it writes the resume
    script of every task when a checkpoint frequency is set, and nothing but
    files named [run...] when none is. *)
Lemma generate_commands_spec cfg tasks w :
  ∃ w',
    generate_commands cfg tasks w = (w', inr (imap (generated_task cfg) tasks))
    ∧ stdout w' = stdout w
    ∧ (∀ p, is_Some (files w !! p) → is_Some (files w' !! p))
    ∧ (checkpoint_frequency cfg = None →
       ∀ p, ¬ run_script_path cfg p → files w' !! p = files w !! p)
    ∧ (∀ i, i < length tasks → is_Some (files w' !! chunk_script cfg "run" i))
    ∧ (checkpoint_frequency cfg ≠ None →
       ∀ i, i < length tasks → is_Some (files w' !! chunk_script cfg "resume" i)).
Proof.
  destruct (generate_tasks_spec cfg tasks w)
    as (w1 & g & Hrun & Hout & Hkeep & Hnone & Hcmd & Hres).
  destruct (write_gpu_scripts_spec cfg g w1) as (w2 & Hrun2 & Hout2 & Hkeep2 & Hother2).
  exists w2. unfold generate_commands. unfold bind at 1. rewrite Hrun. simpl.
  unfold bind. rewrite Hrun2. split; [done|].
  split; [congruence|]. split; [by auto|]. split; [|split].
  - intros Hn p Hp. rewrite Hother2 by done. by apply Hnone.
  - intros i Hi. by apply Hkeep2, Hcmd.
  - intros Hs i Hi. by apply Hkeep2, Hres.
Qed.

Lemma resume_not_run cfg i : ¬ run_script_path cfg (chunk_script cfg "resume" i).
Proof.
  intros [s Hs]. unfold chunk_script in Hs.
  rewrite (join_relative _ ("resume" +:+ _)), (join_relative _ ("run" +:+ _)) in Hs
    by done.
  apply (inj (String.app _)) in Hs. discriminate Hs.
Qed.

(** What the loop does by its own test: a task gets a resume command, the
    command followed by the resume flag, exactly when the checkpoint
    frequency is not [None], whatever its value. *)
Lemma resume_command_generated cfg i t :
  resume_command t = None →
  (checkpoint_frequency cfg = None →
   resume_command (generated_task cfg i t) = None)
  ∧ (checkpoint_frequency cfg ≠ None →
     resume_command (generated_task cfg i t)
     = Some (task_command cfg i (input_file t) +:+ " --resume_from_checkpoint "
             +:+ quoted (checkpoint_filename_of (input_file t)))).
Proof.
  intros Ht. unfold generated_task. simpl.
  destruct (checkpoint_frequency cfg); split; intros H; try done.
Qed.

(** Without a checkpoint frequency the cell writes no resume script and
    gives no task a resume command. *)
Lemma no_resume_without_frequency cfg tasks w :
  checkpoint_frequency cfg = None →
  Forall (λ t, resume_command t = None ∧ resume_command_file t = None) tasks →
  ∃ w' tasks',
    generate_commands cfg tasks w = (w', inr tasks')
    ∧ Forall (λ t, resume_command t = None ∧ resume_command_file t = None) tasks'
    ∧ ∀ i, files w' !! chunk_script cfg "resume" i
           = files w !! chunk_script cfg "resume" i.
Proof.
  intros Hn Hts.
  destruct (generate_commands_spec cfg tasks w) as (w' & Hrun & _ & _ & Hnone & _).
  exists w', (imap (generated_task cfg) tasks). split; [done|]. split.
  - apply Forall_forall. intros t' Ht'.
    apply list_elem_of_lookup in Ht' as [i Hi].
    rewrite list_lookup_imap in Hi.
    destruct (tasks !! i) as [t|] eqn:E; [|done]. simpl in Hi. injection Hi as <-.
    rewrite Forall_forall in Hts.
    destruct (Hts t (list_elem_of_lookup_2 _ _ _ E)) as [H1 H2].
    unfold generated_task. simpl. by rewrite Hn.
  - intros i. apply Hnone; [done|]. apply resume_not_run.
Qed.

(** C6 fails on the code.  With a checkpoint frequency of 0 the command of
    a task takes no checkpoint flag (the test of the command is
    [checkpoint_frequency is not None and checkpoint_frequency > 0]), yet the
    task gets a resume command and a resume script, under the test
    [checkpoint_frequency is not None].  The same happens with the YOLO
    scripts and the default frequency of 10000: the command has no
    checkpoint flag and the resume script is written. *)
Theorem resume_script_without_checkpointing :
  (checkpointing_on (with_modes false false false false (Some 0%Z)) = false
   ∧ validate_constants (with_modes false false false false (Some 0%Z)) (World ∅ [])
     = (World ∅ [], inr tt)
   ∧ ∃ w' t cmd,
       generate_commands (with_modes false false false false (Some 0%Z))
         [manifest_task "/out/job" 0] (World ∅ [])
       = (w', inr [t])
       ∧ command t = Some cmd
       ∧ Py.contains cmd "--checkpoint" = false
       ∧ resume_command t
         = Some (cmd +:+ " --resume_from_checkpoint "
                 +:+ quoted "/out/job/chunk000_checkpoint.json")
       ∧ resume_command_file t = Some "/out/job/resume_chunk_000_gpu_00.sh"
       ∧ is_Some (files w' !! "/out/job/resume_chunk_000_gpu_00.sh"))
  ∧ (validate_constants (with_modes false false false true (Some 10000%Z)) (World ∅ [])
     = (World ∅ [], inr tt)
     ∧ ∃ w' t cmd,
         generate_commands (with_modes false false false true (Some 10000%Z))
           [manifest_task "/out/job" 0] (World ∅ [])
         = (w', inr [t])
         ∧ command t = Some cmd
         ∧ Py.contains cmd "--checkpoint" = false
         ∧ resume_command t
           = Some (cmd +:+ " --resume_from_checkpoint "
                   +:+ quoted "/out/job/chunk000_checkpoint.json")
         ∧ is_Some (files w' !! "/out/job/resume_chunk_000_gpu_00.sh")).
Proof.
  split.
  - split; [done|]. split; [done|].
    eexists _, _, _. split; [vm_compute; reflexivity|].
    split; [reflexivity|]. split; [by vm_compute|]. split; [by vm_compute|].
    split; [done|]. vm_compute. by eexists.
  - split; [done|].
    eexists _, _, _. split; [vm_compute; reflexivity|].
    split; [reflexivity|]. split; [by vm_compute|]. split; [by vm_compute|].
    vm_compute. by eexists.
Qed.

(** ** The records of one task *)

Lemma absolute_file_failure ip im :
  im_failure (absolute_file ip im) = im_failure im.
Proof. unfold absolute_file. by destruct (negb _). Qed.

Lemma validate_image_ok ip s st im w :
  record_ok ip s im →
  validate_image ip s st im w
  = (w, inr (Scan (<[im_file (absolute_file ip im) := absolute_file ip im]>
                     (filename_to_results st))
                  (if decide (has_failure_key im)
                   then S (n_task_failures st) else n_task_failures st)
                  (scanned st ++ [absolute_file ip im]))).
Proof.
  intros (H1 & H2 & H3). unfold validate_image.
  rewrite H1, (bool_decide_eq_true_2 _ H2). simpl. unfold bind. simpl.
  rewrite absolute_file_failure. unfold has_failure_key.
  case_decide as Hk; destruct (im_failure im) as [[v|]|]; simpl; try done;
    destruct Hk; eauto.
Qed.

Lemma validate_image_bad ip s st im w :
  ¬ record_ok ip s im →
  validate_image ip s st im w = (w, inl (AssertionError None)).
Proof.
  intros H. unfold validate_image, bind.
  destruct (Py.startswith (im_file (absolute_file ip im)) ip) eqn:H1; [|done].
  simpl. destruct (decide (im_file (absolute_file ip im) ∈ s)) as [H2|H2].
  - rewrite (bool_decide_eq_true_2 _ H2). simpl.
    rewrite absolute_file_failure.
    destruct (im_failure im) as [[v|]|] eqn:H3; simpl; try done;
      destruct H; unfold record_ok; rewrite H3; by repeat split.
  - by rewrite (bool_decide_eq_false_2 _ H2).
Qed.

Lemma scan_from_ok ip s images st w :
  Forall (record_ok ip s) images →
  foldM (validate_image ip s) images st w
  = (w, inr (Scan (index_records (filename_to_results st)
                     (absolute_file ip <$> images))
                  (n_task_failures st + length (filter has_failure_key images))
                  (scanned st ++ (absolute_file ip <$> images)))).
Proof.
  intros H. revert st. induction H as [|im images Him _ IH]; intros st.
  - simpl. rewrite Nat.add_0_r, app_nil_r. by destruct st.
  - simpl. unfold bind. rewrite validate_image_ok by done. rewrite IH. simpl.
    do 3 f_equal.
    + rewrite filter_cons. destruct (decide (has_failure_key im)); simpl; lia.
    + by rewrite <- (assoc_L (++)).
Qed.

Lemma scan_from_bad ip s images st w :
  Exists (λ im, ¬ record_ok ip s im) images →
  foldM (validate_image ip s) images st w = (w, inl (AssertionError None)).
Proof.
  intros H. revert st. induction images as [|im images IH]; intros st.
  - by apply Exists_nil in H.
  - simpl. unfold bind. destruct (decide (record_ok ip s im)) as [Hok|Hbad].
    + rewrite validate_image_ok by done. apply IH.
      apply Exists_cons in H as [H|H]; [by destruct H|done].
    + by rewrite validate_image_bad.
Qed.

Lemma scan_images_ok ip s images w :
  Forall (record_ok ip s) images →
  scan_images ip s images w
  = (w, inr (Scan (index_records ∅ (absolute_file ip <$> images))
                  (length (filter has_failure_key images))
                  (absolute_file ip <$> images))).
Proof. intros H. unfold scan_images. by rewrite scan_from_ok. Qed.

Lemma scan_images_bad ip s images w :
  ¬ Forall (record_ok ip s) images →
  scan_images ip s images w = (w, inl (AssertionError None)).
Proof.
  intros H. apply scan_from_bad.
  apply (not_Forall_Exists (record_ok ip s)) in H. exact H.
Qed.

(** In a task that passes, a record has the key ['failure'] exactly when
    its failure is not null. *)
Lemma failure_key_not_null ip s images :
  Forall (record_ok ip s) images →
  filter has_failure_key images = filter has_failure images.
Proof.
  intros H. induction H as [|im images (_ & _ & Him) _ IH]; [done|].
  rewrite !filter_cons, IH.
  destruct (decide (has_failure_key im)) as [Hk|Hk],
    (decide (has_failure im)) as [Hf|Hf]; try done; exfalso.
  - destruct Hk as [[v|] Hv]; [|done]. apply Hf. by exists v.
  - destruct Hf as [v Hv]. apply Hk. unfold has_failure_key. by rewrite Hv.
Qed.

Lemma index_records_lookup m ims fn :
  is_Some (index_records m ims !! fn) ↔ fn ∈ im_file <$> ims ∨ is_Some (m !! fn).
Proof.
  revert m. induction ims as [|im ims IH]; intros m; simpl.
  - rewrite elem_of_nil. tauto.
  - rewrite IH, elem_of_cons, lookup_insert.
    case_decide; intuition (eauto; congruence).
Qed.

(** ** The manifest of one task *)

Lemma check_manifest_ok f2r i task_images w :
  Forall (λ fn, is_Some (f2r !! fn)) task_images →
  check_manifest f2r i task_images w = (w, inr tt).
Proof.
  unfold check_manifest. induction 1 as [|fn l Hfn _ IH]; [done|].
  simpl. unfold bind. by rewrite (bool_decide_eq_true_2 _ Hfn).
Qed.

(** The assertion stops at the first image of the manifest that has no
    record, and names that image alone. *)
Lemma check_manifest_first_missing f2r i before fn after w :
  Forall (λ fn, is_Some (f2r !! fn)) before →
  f2r !! fn = None →
  check_manifest f2r i (before ++ fn :: after) w
  = (w, inl (AssertionError (Some (not_found_message fn i)))).
Proof.
  intros Hb Hfn. unfold check_manifest. rewrite foldM_app.
  fold (check_manifest f2r i before). rewrite check_manifest_ok by done.
  simpl. unfold bind. rewrite bool_decide_eq_false_2; [done|].
  rewrite Hfn. by intros [? [=]].
Qed.

Lemma check_manifest_inv f2r i task_images w w' :
  check_manifest f2r i task_images w = (w', inr tt) →
  Forall (λ fn, is_Some (f2r !! fn)) task_images.
Proof.
  unfold check_manifest. induction task_images as [|fn l IH]; [done|].
  simpl. unfold bind. case_bool_decide as Hfn; simpl; [|done].
  intros H. constructor; [done|]. by apply IH.
Qed.

(** ** The loop over the tasks *)

Lemma scan_images_world ip s images w : (scan_images ip s images w).1 = w.
Proof.
  destruct (decide (Forall (record_ok ip s) images)).
  - by rewrite scan_images_ok.
  - by rewrite scan_images_bad.
Qed.

Lemma check_manifest_world f2r i task_images w :
  (check_manifest f2r i task_images w).1 = w.
Proof.
  unfold check_manifest. induction task_images as [|fn l IH]; [done|].
  simpl. unfold bind. by case_bool_decide.
Qed.

(** The task loop body once both files are given: the two loads, the
    iteration of the manifest and the key ['images']. *)
Lemma validate_task_files ip done n i t w p fm xm fr xr :
  output_file t = Some p →
  files w !! input_file t = Some (File fm xm) →
  files w !! p = Some (File fr xr) →
  validate_task ip (done, n) (i, t) w
  = match fm, fr, iterable fm with
    | Text _, _, _ => (w, inl JSONDecodeError)
    | _, Text _, _ => (w, inl JSONDecodeError)
    | _, _, None => (w, inl TypeError)
    | _, JsonResults r, Some m =>
        match scan_images ip (list_to_set m) (tr_images r) w with
        | (w1, inl e) => (w1, inl e)
        | (w1, inr sc) =>
            match check_manifest (filename_to_results sc) i m w1 with
            | (w2, inl e) => (w2, inl e)
            | (w2, inr _) =>
                (w2, inr (done ++ [Task (t_id t) (input_file t) (Some p)
                                     (command t) (command_file t)
                                     (resume_command t) (resume_command_file t)
                                     (Some (n_task_failures sc))
                                     (Some (TaskResults (tr_info r)
                                              (tr_detection_categories r)
                                              (scanned sc)))],
                          n + n_task_failures sc))
            end
        end
    | _, JsonObject _, Some _ => (w, inl (KeyError "images"))
    | _, _, Some _ => (w, inl TypeError)
    end.
Proof.
  intros Hp Hfm Hfr. unfold validate_task. rewrite Hp.
  unfold bind, getitem, iterate, results_object, json_load, ret, raise.
  rewrite Hfm. cbn [f_data].
  destruct fm; cbn beta iota; rewrite ?Hfr; cbn [f_data iterable];
    destruct fr; cbn beta iota; try reflexivity.
  all: destruct (scan_images _ _ _ _) as [w1 [e|sc]]; [reflexivity|].
  all: by destruct (check_manifest _ _ _ _) as [w2 [e|[]]].
Qed.

Lemma validate_task_world ip st it w : (validate_task ip st it w).1 = w.
Proof.
  destruct st as [done n], it as [i t].
  destruct (output_file t) as [p|] eqn:Hp; cycle 1.
  { unfold validate_task. rewrite Hp. reflexivity. }
  destruct (files w !! input_file t) as [[fm xm]|] eqn:Hfm; cycle 1.
  { unfold validate_task. rewrite Hp.
    unfold bind, getitem, json_load, ret, raise. by rewrite Hfm. }
  destruct (files w !! p) as [[fr xr]|] eqn:Hfr; cycle 1.
  { unfold validate_task. rewrite Hp.
    unfold bind, getitem, json_load, ret, raise. rewrite Hfm. cbn [f_data].
    by destruct fm; cbn beta iota; rewrite ?Hfr. }
  rewrite (validate_task_files ip done n i t w p fm xm fr xr) by done.
  destruct fm, fr; cbn [iterable]; try reflexivity;
    (match goal with |- context [scan_images ?a ?b ?c w] =>
       pose proof (scan_images_world a b c w) as Hs;
       destruct (scan_images a b c w) as [w1 [e|sc]] end;
     simpl in Hs; subst w1; [done|];
     match goal with |- context [check_manifest ?a ?b ?c w] =>
       pose proof (check_manifest_world a b c w) as Hc;
       destruct (check_manifest a b c w) as [w1 [e|[]]] end;
     simpl in Hc; by subst w1).
Qed.

Lemma validate_task_loaded ip done n i t w m r :
  manifest_of w t = Some m → results_of w t = Some r →
  validate_task ip (done, n) (i, t) w
  = match scan_images ip (list_to_set m) (tr_images r) w with
    | (w1, inl e) => (w1, inl e)
    | (w1, inr sc) =>
        match check_manifest (filename_to_results sc) i m w1 with
        | (w2, inl e) => (w2, inl e)
        | (w2, inr _) =>
            (w2, inr (done ++ [Task (t_id t) (input_file t) (output_file t)
                                 (command t) (command_file t) (resume_command t)
                                 (resume_command_file t)
                                 (Some (n_task_failures sc))
                                 (Some (TaskResults (tr_info r)
                                          (tr_detection_categories r)
                                          (scanned sc)))],
                      n + n_task_failures sc))
        end
    end.
Proof.
  intros Hm Hr. unfold manifest_of in Hm. unfold results_of in Hr.
  destruct (output_file t) as [p|] eqn:Hp; [|done].
  destruct (files w !! input_file t) as [[fm xm]|] eqn:Hfm; [|done].
  destruct (files w !! p) as [[fr xr]|] eqn:Hfr; [|done].
  cbn [f_data] in Hm.
  rewrite (validate_task_files ip done n i t w p fm xm fr xr) by done.
  destruct fr; try done. injection Hr as ->.
  destruct fm; cbn [iterable] in Hm |- *; by simplify_eq.
Qed.

Lemma validate_task_ok ip done n i t w :
  task_valid ip w t →
  validate_task ip (done, n) (i, t) w
  = (w, inr (done ++ [validated_task ip w t], n + failures_of w t)).
Proof.
  intros (m & r & Hm & Hr & Hrec & Hall).
  rewrite (validate_task_loaded ip done n i t w m r) by done.
  unfold validated_task, failures_of. rewrite Hr.
  rewrite scan_images_ok by done. simpl.
  rewrite check_manifest_ok; cycle 1.
  { eapply Forall_impl; [exact Hall|]. intros fn Hfn. simpl in Hfn.
    apply index_records_lookup. by left. }
  simpl. by rewrite (failure_key_not_null _ _ _ Hrec).
Qed.

(** A task for which the loop body returns has a manifest that can be
    iterated and a results object. *)
Lemma validate_task_returns ip st i t w w' st' :
  validate_task ip st (i, t) w = (w', inr st') →
  ∃ m r, manifest_of w t = Some m ∧ results_of w t = Some r.
Proof.
  destruct st as [done n]. unfold manifest_of, results_of.
  destruct (output_file t) as [p|] eqn:Hp; cycle 1.
  { unfold validate_task. rewrite Hp. unfold bind, getitem, raise. done. }
  destruct (files w !! input_file t) as [[fm xm]|] eqn:Hfm; cycle 1.
  { unfold validate_task. rewrite Hp.
    unfold bind, getitem, json_load, ret, raise. by rewrite Hfm. }
  destruct (files w !! p) as [[fr xr]|] eqn:Hfr; cycle 1.
  { unfold validate_task. rewrite Hp.
    unfold bind, getitem, json_load, ret, raise. rewrite Hfm. cbn [f_data].
    by destruct fm; cbn beta iota; rewrite ?Hfr. }
  rewrite (validate_task_files ip done n i t w p fm xm fr xr) by done.
  cbn [f_data].
  destruct fm, fr; cbn [iterable]; try done; intros _; by eexists _, _.
Qed.

Lemma validate_task_inv ip st i t w w' st' :
  validate_task ip st (i, t) w = (w', inr st') → task_valid ip w t.
Proof.
  intros H. destruct (validate_task_returns _ _ _ _ _ _ _ H) as (m & r & Hm & Hr).
  destruct st as [done n].
  rewrite (validate_task_loaded ip done n i t w m r) in H by done.
  exists m, r. split; [done|]. split; [done|].
  destruct (decide (Forall (record_ok ip (list_to_set m)) (tr_images r)))
    as [Hrec|Hrec].
  - rewrite scan_images_ok in H by done. simpl in H.
    destruct (check_manifest _ _ _ _) as [w1 [e|[]]] eqn:Hc; [done|].
    split; [done|].
    apply check_manifest_inv in Hc.
    eapply Forall_impl; [exact Hc|]. intros fn Hfn. simpl in Hfn.
    apply index_records_lookup in Hfn as [Hfn|Hfn]; [done|].
    rewrite lookup_empty in Hfn. by destruct Hfn.
  - by rewrite scan_images_bad in H.
Qed.

(** A chunk file that holds a JSON object is read by its keys: the task
    passes with a record for each key.  A chunk file that holds a number
    stops the task with [TypeError], and a results file that holds an object
    without the key ['images'] with [KeyError]. *)
Example manifest_read_by_keys :
  let t := Task 0 "/out/job/chunk000.json"
             (Some "/out/job/chunk000_results.json")
             None None None None None None in
  let results := File (JsonResults (example_results [record "/d/a/1.jpg"])) false in
  (validate_task "/d" ([], 0) (0, t)
     (World {["/out/job/chunk000.json" := File (JsonObject ["/d/a/1.jpg"]) false;
              "/out/job/chunk000_results.json" := results]} [])).2
  = inr ([Task 0 "/out/job/chunk000.json"
            (Some "/out/job/chunk000_results.json") None None None None
            (Some 0) (Some (example_results [record "/d/a/1.jpg"]))], 0)
  ∧ (validate_task "/d" ([], 0) (0, t)
       (World {["/out/job/chunk000.json" := File JsonScalar false;
                "/out/job/chunk000_results.json" := results]} [])).2
    = inl TypeError
  ∧ (validate_task "/d" ([], 0) (0, t)
       (World {["/out/job/chunk000.json" := File (JsonList ["/d/a/1.jpg"]) false;
                "/out/job/chunk000_results.json"
                  := File (JsonObject ["info"]) false]} [])).2
    = inl (KeyError "images").
Proof. repeat split; vm_compute; reflexivity. Qed.

Lemma enumerate_length {A} (l : list A) : length (enumerate l) = length l.
Proof. unfold enumerate. rewrite length_zip_with, length_seq. lia. Qed.

(** The loop passes exactly on tasks that are all valid; it changes
    nothing on disk, prints nothing, and its total is the number of
    records with a failure that is not null. *)
Lemma validate_tasks_spec ip tasks w :
  (Forall (task_valid ip w) tasks →
   validate_tasks ip tasks w
   = (w, inr (validated_task ip w <$> tasks, sum_list (failures_of w <$> tasks))))
  ∧ (∀ w' r, validate_tasks ip tasks w = (w', inr r) →
             Forall (task_valid ip w) tasks)
  ∧ (validate_tasks ip tasks w).1 = w.
Proof.
  unfold validate_tasks.
  induction tasks as [|t tasks IH] using rev_ind.
  - repeat split; try done.
  - destruct IH as (IH1 & IH2 & IH3).
    rewrite enumerate_snoc, foldM_snoc.
    destruct (foldM (validate_task ip) (enumerate tasks) ([], 0) w)
      as [w1 [e|[done n]]] eqn:E; simpl in IH3; subst w1.
    + split; [|split; [|done]].
      * intros [H _]%Forall_app. specialize (IH1 H). done.
      * intros w' r [=].
    + pose proof (IH2 _ _ eq_refl) as Hvalid.
      specialize (IH1 Hvalid). injection IH1 as -> ->.
      split; [|split].
      * intros [_ Ht]%Forall_app. rewrite Forall_singleton in Ht.
        rewrite validate_task_ok by done.
        by rewrite !fmap_app, sum_list_with_app; simpl; rewrite Nat.add_0_r.
      * intros w' r Hr. apply Forall_app. split; [done|].
        rewrite Forall_singleton. by eapply validate_task_inv.
      * apply validate_task_world.
Qed.

(** ** The output files *)

Lemma find_missing_from tasks acc w :
  Forall (λ t, is_Some (output_file t)) tasks →
  foldM (λ missing_output_files task,
           output_file <- getitem "output_file" (output_file task) ;;
           present <- isfile output_file ;;
           ret (if present then missing_output_files
                else missing_output_files ++ [output_file]))
        tasks acc w
  = (w, inr (acc ++ missing_outputs w tasks)).
Proof.
  intros H. revert acc. induction H as [|t tasks [p Hp] _ IH]; intros acc.
  - simpl. by rewrite app_nil_r.
  - cbn [foldM]. unfold bind at 1. rewrite Hp.
    change ((output_file <- getitem "output_file" (Some p) ;;
             present <- isfile output_file ;;
             ret (if present then acc else acc ++ [output_file])) w)
      with (w, @inr exn _ (if bool_decide (is_Some (files w !! p))
                           then acc else acc ++ [p])).
    unfold missing_outputs. simpl. rewrite Hp. fold (missing_outputs w tasks).
    case_bool_decide as Hd.
    + rewrite decide_True by done. simpl. apply IH.
    + rewrite decide_False by done. simpl. rewrite IH.
      by rewrite <- (assoc_L (++)).
Qed.

Lemma find_missing_spec tasks w :
  Forall (λ t, is_Some (output_file t)) tasks →
  find_missing_output_files tasks w = (w, inr (missing_outputs w tasks)).
Proof. intros H. unfold find_missing_output_files. by rewrite find_missing_from. Qed.

Lemma print_all lines w :
  foldM (λ _ s, print s) lines tt w
  = (World (files w) (stdout w ++ lines), inr tt).
Proof.
  revert w. induction lines as [|s lines IH]; intros w; simpl.
  - rewrite app_nil_r. by destruct w.
  - unfold bind. unfold print at 1. rewrite IH. simpl.
    by rewrite <- (assoc_L (++)).
Qed.

Lemma missing_outputs_nil w tasks :
  Forall (output_present w) tasks → missing_outputs w tasks = [].
Proof.
  induction 1 as [|t tasks (p & Hp & Hf) _ IH]; [done|].
  unfold missing_outputs. simpl. rewrite Hp. rewrite decide_True by done.
  apply IH.
Qed.

Lemma check_output_files_ok tasks w :
  Forall (output_present w) tasks → check_output_files tasks w = (w, inr tt).
Proof.
  intros H. unfold check_output_files, bind.
  rewrite find_missing_spec.
  - by rewrite missing_outputs_nil.
  - eapply Forall_impl; [exact H|]. intros t (p & -> & _). eauto.
Qed.

(** With an output file missing, every missing file is printed, in task
    order, before the exception is raised. *)
Lemma check_output_files_missing tasks w :
  Forall (λ t, is_Some (output_file t)) tasks →
  missing_outputs w tasks ≠ [] →
  check_output_files tasks w
  = (World (files w)
       (stdout w
        ++ ("Missing " +:+ Py.str (length (missing_outputs w tasks))
            +:+ " output files:") :: missing_outputs w tasks),
     inl (Exception "Missing output files")).
Proof.
  intros H Hne. unfold check_output_files. unfold bind at 1.
  rewrite find_missing_spec by done.
  destruct (missing_outputs w tasks) as [|p ps] eqn:E; [done|].
  cbn [length Nat.ltb Nat.leb]. unfold bind at 1. unfold print at 1.
  unfold bind. rewrite print_all. simpl.
  by rewrite <- (assoc_L (++)).
Qed.

Lemma task_valid_output_present ip w t : task_valid ip w t → output_present w t.
Proof.
  intros (m & r & _ & Hr & _). unfold results_of in Hr. unfold output_present.
  destruct (output_file t) as [p|]; [|done]. exists p. split; [done|].
  by destruct (files w !! p).
Qed.

(** ** The validation pass *)

Lemma check_output_files_world tasks w w' :
  check_output_files tasks w = (w', inr tt) → w' = w.
Proof.
  unfold check_output_files, find_missing_output_files. unfold bind at 1.
  assert (∀ acc, (foldM (λ missing_output_files task,
             output_file <- getitem "output_file" (output_file task) ;;
             present <- isfile output_file ;;
             ret (if present then missing_output_files
                  else missing_output_files ++ [output_file]))
           tasks acc w).1 = w) as Hw.
  { induction tasks as [|t tasks IH]; intros acc; [done|].
    cbn [foldM]. unfold bind at 1. destruct (output_file t) as [p|]; [|done].
    apply IH. }
  specialize (Hw []).
  destruct (foldM _ tasks [] w) as [w1 [e|missing]]; simpl in Hw; subst w1;
    [done|].
  destruct missing as [|p ps]; cbn [length Nat.ltb Nat.leb].
  - by intros [=].
  - unfold bind at 1. unfold print at 1. unfold bind. by rewrite print_all.
Qed.

Lemma validation_pass_valid cfg ip all_images tasks w :
  Forall (task_valid ip w) tasks →
  validation_pass cfg ip all_images tasks w
  = if (Z.of_nat (sum_list (failures_of w <$> tasks))
        <? max_tolerable_failed_images cfg)%Z
    then (World (files w)
            (stdout w ++
             ["Processed all " +:+ Py.str (length all_images) +:+ " images with "
              +:+ Py.str (sum_list (failures_of w <$> tasks)) +:+ " failures"]),
          inr (validated_task ip w <$> tasks,
               sum_list (failures_of w <$> tasks)))
    else (w, inl (AssertionError
                    (Some (too_many_failures_message
                             (sum_list (failures_of w <$> tasks))
                             (max_tolerable_failed_images cfg))))).
Proof.
  intros H. unfold validation_pass. unfold bind at 1.
  rewrite check_output_files_ok; cycle 1.
  { eapply Forall_impl; [exact H|]. apply task_valid_output_present. }
  unfold bind at 1.
  rewrite (proj1 (validate_tasks_spec ip tasks w) H).
  unfold bind at 1.
  by destruct (Z.of_nat _ <? _)%Z.
Qed.

(** An exception of the loop over the tasks is the outcome of the pass. *)
Lemma validation_pass_loop_error cfg ip all_images tasks w e :
  Forall (output_present w) tasks →
  validate_tasks ip tasks w = (w, inl e) →
  validation_pass cfg ip all_images tasks w = (w, inl e).
Proof.
  intros Hout Hloop. unfold validation_pass. unfold bind at 1.
  rewrite check_output_files_ok by done. unfold bind at 1. by rewrite Hloop.
Qed.

Lemma enumerate_app {A} (l1 l2 : list A) :
  enumerate (l1 ++ l2)
  = enumerate l1 ++ zip (seq (length l1) (length l2)) l2.
Proof.
  unfold enumerate. rewrite length_app, seq_app.
  by rewrite zip_with_app by (by rewrite length_seq).
Qed.

(** The first task that raises stops the loop with its exception. *)
Lemma validate_tasks_first_error ip before t after w e :
  Forall (task_valid ip w) before →
  (∀ st, validate_task ip st (length before, t) w = (w, inl e)) →
  validate_tasks ip (before ++ t :: after) w = (w, inl e).
Proof.
  intros Hb Ht. unfold validate_tasks. rewrite enumerate_app, foldM_app.
  fold (validate_tasks ip before w).
  rewrite (proj1 (validate_tasks_spec ip before w) Hb).
  cbn [length seq zip_with foldM]. unfold bind. by rewrite Ht.
Qed.

(** A record with a null ['failure'] makes its task raise the assertion. *)
Lemma validate_task_null_failure ip st i t w m r im :
  manifest_of w t = Some m → results_of w t = Some r →
  im ∈ tr_images r → im_failure im = Some None →
  validate_task ip st (i, t) w = (w, inl (AssertionError None)).
Proof.
  intros Hm Hr Him Hnull. destruct st as [done n].
  rewrite (validate_task_loaded _ _ _ _ _ _ _ _ Hm Hr).
  rewrite scan_images_bad; [done|].
  intros Hall. rewrite Forall_forall in Hall.
  by destruct (Hall im Him) as (_ & _ & Hf).
Qed.

(** An image of the manifest without record makes its task raise the
    assertion that names this image, the first such of the manifest. *)
Lemma validate_task_missing_record ip st i t w before fn after r :
  manifest_of w t = Some (before ++ fn :: after) →
  results_of w t = Some r →
  Forall (record_ok ip (list_to_set (before ++ fn :: after))) (tr_images r) →
  Forall (λ f, f ∈ im_file <$> (absolute_file ip <$> tr_images r)) before →
  fn ∉ im_file <$> (absolute_file ip <$> tr_images r) →
  validate_task ip st (i, t) w
  = (w, inl (AssertionError (Some (not_found_message fn i)))).
Proof.
  intros Hm Hr Hrec Hb Hfn. destruct st as [done n].
  rewrite (validate_task_loaded _ _ _ _ _ _ _ _ Hm Hr).
  rewrite scan_images_ok by done. simpl.
  rewrite check_manifest_first_missing; [done| |].
  - eapply Forall_impl; [exact Hb|]. intros f Hf. simpl in Hf.
    apply index_records_lookup. by left.
  - apply eq_None_not_Some. intros Hs.
    apply index_records_lookup in Hs as [Hs|Hs]; [done|].
    rewrite lookup_empty in Hs. by destruct Hs.
Qed.

Lemma reconcile_validation_error cfg all_images tasks w w' e :
  validation_pass cfg (strip_input_path (input_path cfg)) all_images tasks w
  = (w', inl e) →
  reconcile cfg all_images tasks w = (w', inl e).
Proof. intros H. unfold reconcile. by erewrite bind_inl. Qed.

(** C4.  Once the loop over the tasks has passed, its total is the number
    of records with a failure that is not null, and the validation pass
    raises exactly when this total is at or above
    [max_tolerable_failed_images]: then it raises the assertion with the
    two numbers, and so does the reconciliation; a total strictly below
    passes. *)
Theorem tolerance_gate cfg ip all_images tasks w w1 tasks' n :
  validate_tasks ip tasks w = (w1, inr (tasks', n)) →
  n = sum_list (failures_of w <$> tasks)
  ∧ ((max_tolerable_failed_images cfg ≤ Z.of_nat n)%Z ↔
     ∃ w' e, validation_pass cfg ip all_images tasks w = (w', inl e))
  ∧ ((max_tolerable_failed_images cfg ≤ Z.of_nat n)%Z →
     validation_pass cfg ip all_images tasks w
     = (w, inl (AssertionError
                  (Some (too_many_failures_message n
                           (max_tolerable_failed_images cfg)))))
     ∧ (ip = strip_input_path (input_path cfg) →
        reconcile cfg all_images tasks w
        = (w, inl (AssertionError
                     (Some (too_many_failures_message n
                              (max_tolerable_failed_images cfg)))))))
  ∧ ((Z.of_nat n < max_tolerable_failed_images cfg)%Z →
     ∃ w', validation_pass cfg ip all_images tasks w = (w', inr (tasks', n))
           ∧ files w' = files w).
Proof.
  intros Hloop.
  pose proof (proj1 (proj2 (validate_tasks_spec ip tasks w)) _ _ Hloop) as Hvalid.
  pose proof (proj1 (validate_tasks_spec ip tasks w) Hvalid) as Hrun.
  rewrite Hrun in Hloop. injection Hloop as <- <- <-.
  pose proof (validation_pass_valid cfg ip all_images tasks w Hvalid) as Hpass.
  split; [done|].
  destruct (Z.ltb_spec (Z.of_nat (sum_list (failures_of w <$> tasks)))
              (max_tolerable_failed_images cfg)) as [Hlt|Hge].
  - split; [|split].
    + split; [lia|]. intros (w' & e & He). rewrite Hpass in He. discriminate He.
    + lia.
    + intros _. eexists. by split.
  - split; [|split].
    + split; [eauto|done].
    + intros _. split; [done|]. intros ->.
      by apply reconcile_validation_error.
    + lia.
Qed.

Lemma tolerance_gate_witness :
  validate_tasks "/d" example_tasks after_inference
  = (after_inference, inr (validated_task "/d" after_inference <$> example_tasks, 1))
  ∧ 1 = sum_list (failures_of after_inference <$> example_tasks)
  ∧ ((max_tolerable_failed_images example_config ≤ Z.of_nat 1)%Z ↔
     ∃ w' e, validation_pass example_config "/d" seven_images example_tasks
               after_inference = (w', inl e)).
Proof.
  assert (validate_tasks "/d" example_tasks after_inference
          = (after_inference,
             inr (validated_task "/d" after_inference <$> example_tasks, 1)))
    as H by (vm_compute; reflexivity).
  split; [exact H|].
  destruct (tolerance_gate example_config "/d" seven_images example_tasks
              after_inference _ _ _ H) as (H1 & H2 & _).
  by split.
Defined.

(** C9.  The loop over the records of a task, when it passes, has counted
    the records that have the key ['failure'], each of them once and no
    other, and none of them has a null failure; it passes on records that
    are under the root, in the manifest and without null failure; a record
    whose ['failure'] is null makes the loop raise the assertion, and with
    it the task, the validation pass and the reconciliation, once the tasks
    before it have passed. *)
Theorem failure_key_counted ip s images w :
  (∀ w' sc, scan_images ip s images w = (w', inr sc) →
     n_task_failures sc = length (filter has_failure_key images)
     ∧ Forall (λ im, im_failure im ≠ Some None) images)
  ∧ (Forall (record_ok ip s) images →
     ∃ sc, scan_images ip s images w = (w, inr sc)
           ∧ n_task_failures sc = length (filter has_failure_key images))
  ∧ (∀ im, im ∈ images → im_failure im = Some None →
     scan_images ip s images w = (w, inl (AssertionError None)))
  ∧ (∀ cfg all_images before t after m r im,
       ip = strip_input_path (input_path cfg) →
       Forall (task_valid ip w) before →
       Forall (output_present w) (before ++ t :: after) →
       manifest_of w t = Some m → results_of w t = Some r →
       im ∈ tr_images r → im_failure im = Some None →
       reconcile cfg all_images (before ++ t :: after) w
       = (w, inl (AssertionError None))).
Proof.
  split; [|split; [|split]].
  - intros w' sc Hrun.
    destruct (decide (Forall (record_ok ip s) images)) as [Hok|Hbad].
    + rewrite scan_images_ok in Hrun by done. injection Hrun as <- <-.
      split; [done|]. eapply Forall_impl; [exact Hok|]. by intros im (_ & _ & H).
    + by rewrite scan_images_bad in Hrun.
  - intros Hok. eexists. by rewrite scan_images_ok.
  - intros im Him Hnull. apply scan_images_bad. intros Hall.
    rewrite Forall_forall in Hall. by destruct (Hall im Him) as (_ & _ & H).
  - intros cfg all_images before t after m r im -> Hb Hout Hm Hr Him Hnull.
    apply reconcile_validation_error, validation_pass_loop_error; [done|].
    apply validate_tasks_first_error; [done|]. intros st.
    by eapply validate_task_null_failure.
Qed.

Lemma failure_key_counted_witness :
  Forall (record_ok "/d" {["/d/a/1.jpg"; "/d/a/2.jpg"]})
    [record "/d/a/1.jpg"; Image "a/2.jpg" (Some (Some "Failure image access")) ""]
  ∧ ∃ sc, scan_images "/d" {["/d/a/1.jpg"; "/d/a/2.jpg"]}
            [record "/d/a/1.jpg";
             Image "a/2.jpg" (Some (Some "Failure image access")) ""]
            (World ∅ [])
          = (World ∅ [], inr sc)
          ∧ n_task_failures sc
            = length (filter has_failure_key
                        [record "/d/a/1.jpg";
                         Image "a/2.jpg" (Some (Some "Failure image access")) ""]).
Proof.
  assert (Forall (record_ok "/d" {["/d/a/1.jpg"; "/d/a/2.jpg"]})
            [record "/d/a/1.jpg";
             Image "a/2.jpg" (Some (Some "Failure image access")) ""]) as H.
  { repeat constructor; try done; simpl; set_solver. }
  split; [exact H|].
  exact (proj1 (proj2 (failure_key_counted "/d" {["/d/a/1.jpg"; "/d/a/2.jpg"]}
                         [record "/d/a/1.jpg";
                          Image "a/2.jpg" (Some (Some "Failure image access")) ""]
                         (World ∅ []))) H).
Defined.

(** A null failure in the results of the second chunk. *)
Example null_failure_raises :
  (reconcile example_config seven_images example_tasks
     (with_results
        [record "/d/a/1.jpg"; record "/d/a/2.jpg"; record "/d/a/3.jpg";
         record "/d/b/1.jpg"]
        [record "/d/b/2.jpg"; Image "/d/c/1.jpg" (Some None) "";
         record "/d/c/2.jpg"])).2
  = inl (AssertionError None).
Proof. vm_compute. reflexivity. Qed.

(** ** The merge loop *)

Lemma mark_all_ok images seen w :
  fresh_paths seen images →
  foldM mark_processed images seen w
  = (w, inr (list_to_set (im_file <$> images) ∪ seen)).
Proof.
  unfold fresh_paths.
  revert seen. induction images as [|im images IH]; intros seen [Hnd Hfresh].
  - simpl. by rewrite union_empty_l_L.
  - rewrite fmap_cons in Hnd, Hfresh. apply NoDup_cons in Hnd as [Him Hnd].
    cbn [foldM]. unfold bind at 1. unfold mark_processed at 1.
    rewrite bool_decide_eq_true_2 by (apply Hfresh; left).
    simpl. rewrite IH.
    + do 2 f_equal. change (list_fmap image string im_file images)
        with (im_file <$> images).
      rewrite (assoc_L (∪)).
      by rewrite (comm_L (∪) (list_to_set (im_file <$> images)) {[im_file im]}).
    + split; [done|]. intros fn Hfn.
      apply not_elem_of_union. split; [|apply Hfresh; by right].
      apply not_elem_of_singleton. intros ->. done.
Qed.

Lemma mark_all_bad images seen w :
  ¬ fresh_paths seen images →
  foldM mark_processed images seen w = (w, inl (AssertionError None)).
Proof.
  unfold fresh_paths.
  revert seen. induction images as [|im images IH]; intros seen Hbad.
  - destruct Hbad. split; [constructor|]. intros fn Hfn. by apply elem_of_nil in Hfn.
  - cbn [foldM]. unfold bind at 1. unfold mark_processed at 1.
    case_bool_decide as Him; [|done]. simpl. apply IH.
    intros [Hnd Hfresh]. apply Hbad. split.
    + rewrite fmap_cons. apply NoDup_cons. split; [|done].
      intros Hin. apply (Hfresh _ Hin), elem_of_union. left.
      by apply elem_of_singleton.
    + intros fn. rewrite fmap_cons, elem_of_cons. intros [->|Hfn]; [done|].
      intros Hs. apply (Hfresh _ Hfn), elem_of_union. by right.
Qed.

Lemma mark_all_world images seen w : (foldM mark_processed images seen w).1 = w.
Proof.
  destruct (decide (fresh_paths seen images)).
  - by rewrite mark_all_ok.
  - by rewrite mark_all_bad.
Qed.

Lemma mark_all_inv images seen w w' seen' :
  foldM mark_processed images seen w = (w', inr seen') →
  fresh_paths seen images ∧ seen' = list_to_set (im_file <$> images) ∪ seen.
Proof.
  destruct (decide (fresh_paths seen images)).
  - rewrite mark_all_ok by done. by intros [= <- <-].
  - by rewrite mark_all_bad.
Qed.

Lemma merge_task_first c seen t r i0 c0 w :
  results t = Some r → tr_info r = Some i0 →
  tr_detection_categories r = Some c0 →
  merge_task (c, seen) (0, t) w
  = match foldM mark_processed (tr_images r) seen w with
    | (w', inl e) => (w', inl e)
    | (w', inr seen') =>
        (w', inr (TaskResults (Some i0) (Some c0) (tr_images c ++ tr_images r),
                  seen'))
    end.
Proof.
  intros Hr Hi Hc. unfold merge_task. rewrite Hr. simpl.
  unfold bind at 1. simpl. unfold bind at 1. rewrite Hi, Hc. simpl.
  unfold bind. by destruct (foldM _ _ _ _) as [w' [e|seen']].
Qed.

Lemma merge_task_next c seen i t r ti ci cc w :
  i ≠ 0 → results t = Some r →
  tr_info r = Some ti → tr_info c = Some ci →
  format_version ti = format_version ci →
  tr_detection_categories r = Some cc → tr_detection_categories c = Some cc →
  merge_task (c, seen) (i, t) w
  = match foldM mark_processed (tr_images r) seen w with
    | (w', inl e) => (w', inl e)
    | (w', inr seen') =>
        (w', inr (TaskResults (Some ci) (Some cc) (tr_images c ++ tr_images r),
                  seen'))
    end.
Proof.
  intros Hi Hr Hti Hci Hfv Hcr Hcc. unfold merge_task. rewrite Hr. simpl.
  destruct i as [|i]; [done|]. simpl.
  unfold bind, getitem, assert, ret. rewrite Hti, Hci, Hcr, Hcc.
  rewrite !bool_decide_eq_true_2 by done.
  destruct (foldM _ _ _ _) as [w' [e|seen']]; [done|]. by rewrite Hci, Hcc.
Qed.

Lemma merge_task_inv c seen i t w w' c' seen' :
  merge_task (c, seen) (i, t) w = (w', inr (c', seen')) →
  ∃ r, results t = Some r
       ∧ foldM mark_processed (tr_images r) seen w = (w', inr seen')
       ∧ tr_images c' = tr_images c ++ tr_images r.
Proof.
  unfold merge_task. destruct (results t) as [r|]; [|done]. simpl.
  intros H. exists r. split; [done|]. revert H.
  unfold bind, getitem, assert, ret, raise.
  destruct i as [|i]; simpl.
  - destruct (tr_info r), (tr_detection_categories r); simpl; try done.
    destruct (foldM _ _ _ _) as [w1 [e|s1]]; [done|].
    intros Heq. by simplify_eq/=.
  - destruct (tr_info r), (tr_info c); simpl; try done.
    case_bool_decide; simpl; [|done].
    destruct (tr_detection_categories r), (tr_detection_categories c);
      simpl; try done.
    case_bool_decide; simpl; [|done].
    destruct (foldM _ _ _ _) as [w1 [e|s1]]; [done|].
    intros Heq. by simplify_eq/=.
Qed.

Lemma merge_task_world st it w : (merge_task st it w).1 = w.
Proof.
  destruct st as [c seen], it as [i t]. unfold merge_task.
  destruct (results t) as [r|]; [|done]. simpl.
  pose proof (mark_all_world (tr_images r) seen w) as Hm.
  unfold bind, getitem, assert, ret, raise.
  destruct i as [|i]; simpl.
  - destruct (tr_info r), (tr_detection_categories r); simpl; try done.
    by destruct (foldM _ _ _ _) as [w1 [e|s1]].
  - destruct (tr_info r), (tr_info c); simpl; try done.
    case_bool_decide; simpl; [|done].
    destruct (tr_detection_categories r), (tr_detection_categories c);
      simpl; try done.
    case_bool_decide; simpl; [|done].
    by destruct (foldM _ _ _ _) as [w1 [e|s1]].
Qed.

Lemma foldM_world {A B} (f : B → A → M B) l b w :
  (∀ b a w, (f b a w).1 = w) → (foldM f l b w).1 = w.
Proof.
  intros Hf. revert b. induction l as [|a l IH]; intros b; [done|].
  simpl. unfold bind. specialize (Hf b a w).
  destruct (f b a w) as [w1 [e|b1]]; simpl in Hf; subst w1; [done|]. apply IH.
Qed.

Lemma merge_tasks_world tasks w : (merge_tasks tasks w).1 = w.
Proof. apply foldM_world. intros. apply merge_task_world. Qed.

Lemma all_records_snoc rs r : all_records (rs ++ [r]) = all_records rs ++ tr_images r.
Proof.
  unfold all_records. rewrite fmap_app, concat_app. simpl. by rewrite app_nil_r.
Qed.

Lemma metadata_consistent_snoc rs r :
  metadata_consistent (rs ++ [r]) →
  metadata_consistent rs
  ∧ match head rs with
    | None => is_Some (tr_info r) ∧ is_Some (tr_detection_categories r)
    | Some r0 =>
        ∃ i0 c0 i,
          tr_info r0 = Some i0 ∧ tr_detection_categories r0 = Some c0
          ∧ tr_info r = Some i ∧ format_version i = format_version i0
          ∧ tr_detection_categories r = Some c0
    end.
Proof.
  destruct rs as [|r0 rs]; simpl.
  - intros (i0 & c0 & Hi & Hc & _). split; [done|]. eauto.
  - intros (i0 & c0 & Hi & Hc & Hall). apply Forall_app in Hall as [Hrs Hr].
    rewrite Forall_singleton in Hr. destruct Hr as (i & H1 & H2 & H3).
    split; [by exists i0, c0|]. by exists i0, c0, i.
Qed.

Lemma merge_tasks_ok tasks rs w :
  Forall2 (λ t r, results t = Some r) tasks rs →
  metadata_consistent rs →
  NoDup (im_file <$> all_records rs) →
  merge_tasks tasks w
  = (w, inr (merged rs, list_to_set (im_file <$> all_records rs))).
Proof.
  unfold merge_tasks. revert rs.
  induction tasks as [|t tasks IH] using rev_ind; intros rs Hres Hmeta Hnd.
  - apply Forall2_nil_inv_l in Hres as ->. done.
  - apply Forall2_app_inv_l in Hres as (rs' & rl & Hres' & Hlast & ->).
    apply Forall2_cons_inv_l in Hlast as (r & rl' & Hr & Hnil & ->).
    apply Forall2_nil_inv_l in Hnil as ->.
    apply metadata_consistent_snoc in Hmeta as [Hmeta' Hlast].
    rewrite all_records_snoc, fmap_app in Hnd.
    apply NoDup_app in Hnd as (Hnd' & Hdisj & Hndr).
    rewrite enumerate_snoc, foldM_snoc, (IH rs' Hres' Hmeta' Hnd').
    assert (fresh_paths (list_to_set (im_file <$> all_records rs')) (tr_images r))
      as Hfresh.
    { split; [done|]. intros fn Hfn Hin. apply elem_of_list_to_set in Hin.
      by apply (Hdisj fn). }
    assert (length tasks = length rs') as Hlen by by eapply Forall2_length.
    assert (list_to_set (im_file <$> tr_images r)
              ∪ list_to_set (im_file <$> all_records rs')
            = (list_to_set (im_file <$> all_records (rs' ++ [r])) : gset string))
      as Hset.
    { rewrite all_records_snoc, fmap_app, list_to_set_app_L.
      apply (comm_L (∪)). }
    destruct rs' as [|r0 rs'].
    + destruct tasks; [|done]. destruct Hlast as [[i0 Hi] [c0 Hc]].
      rewrite (merge_task_first _ _ _ r i0 c0) by done.
      rewrite mark_all_ok by done. rewrite Hset.
      unfold merged. simpl. rewrite Hi, Hc.
      change (all_records [r]) with (all_records ([] ++ [r])).
      by rewrite (all_records_snoc [] r).
    + destruct Hlast as (i0 & c0 & i & Hi0 & Hc0 & Hi & Hfv & Hc).
      rewrite (merge_task_next _ _ _ _ r i i0 c0)
        by (try done; try (by rewrite Hlen);
            unfold merged; simpl; by rewrite ?Hi0, ?Hc0).
      rewrite mark_all_ok by done. rewrite Hset.
      unfold merged. rewrite all_records_snoc. simpl. by rewrite Hi0, Hc0.
Qed.

Lemma merge_tasks_inv tasks w w' c seen :
  merge_tasks tasks w = (w', inr (c, seen)) →
  ∃ rs, Forall2 (λ t r, results t = Some r) tasks rs
        ∧ tr_images c = all_records rs
        ∧ seen = list_to_set (im_file <$> all_records rs)
        ∧ NoDup (im_file <$> all_records rs).
Proof.
  unfold merge_tasks. revert w' c seen.
  induction tasks as [|t tasks IH] using rev_ind; intros w' c seen.
  - intros [= <- <- <-]. exists []. repeat split; try done. constructor.
  - rewrite enumerate_snoc, foldM_snoc.
    destruct (foldM merge_task (enumerate tasks) _ w) as [w1 [e|[c1 s1]]] eqn:E;
      [done|].
    destruct (IH _ _ _ eq_refl) as (rs & Hres & Himg & Hseen & Hnd).
    intros (r & Hr & Hmark & Hc)%merge_task_inv.
    apply mark_all_inv in Hmark as [[Hndr Hfresh] ->].
    exists (rs ++ [r]). rewrite all_records_snoc. split; [|split; [|split]].
    + apply Forall2_app; [done|]. by constructor.
    + by rewrite Hc, Himg.
    + rewrite fmap_app, list_to_set_app_L, Hseen. apply (comm_L (∪)).
    + rewrite fmap_app. apply NoDup_app. split; [done|]. split; [|done].
      intros fn Hin Hfn. apply (Hfresh fn Hfn). rewrite Hseen.
      by apply elem_of_list_to_set.
Qed.

(** With the metadata consistent, a path that occurs twice among the
    records of the tasks makes the merge loop raise the assertion, which
    carries no message. *)
Lemma merge_tasks_duplicate tasks rs w :
  Forall2 (λ t r, results t = Some r) tasks rs →
  metadata_consistent rs →
  ¬ NoDup (im_file <$> all_records rs) →
  merge_tasks tasks w = (w, inl (AssertionError None)).
Proof.
  revert rs.
  induction tasks as [|t tasks IH] using rev_ind; intros rs Hres Hmeta Hdup.
  - apply Forall2_nil_inv_l in Hres as ->. destruct Hdup. constructor.
  - apply Forall2_app_inv_l in Hres as (rs' & rl & Hres' & Hlast & ->).
    apply Forall2_cons_inv_l in Hlast as (r & rl' & Hr & Hnil & ->).
    apply Forall2_nil_inv_l in Hnil as ->.
    apply metadata_consistent_snoc in Hmeta as [Hmeta' Hlast].
    unfold merge_tasks. rewrite enumerate_snoc, foldM_snoc.
    fold (merge_tasks tasks w).
    destruct (decide (NoDup (im_file <$> all_records rs'))) as [Hnd'|Hnd'].
    + rewrite (merge_tasks_ok tasks rs' w) by done.
      assert (¬ fresh_paths (list_to_set (im_file <$> all_records rs'))
                (tr_images r)) as Hfresh.
      { intros [Hndr Hf]. apply Hdup. rewrite all_records_snoc, fmap_app.
        apply NoDup_app. split; [done|]. split; [|done].
        intros fn Hin Hfn. apply (Hf fn Hfn). by apply elem_of_list_to_set. }
      assert (length tasks = length rs') as Hlen by by eapply Forall2_length.
      destruct rs' as [|r0 rs'].
      * destruct tasks; [|done]. destruct Hlast as [[i0 Hi] [c0 Hc]].
        rewrite (merge_task_first _ _ _ r i0 c0) by done.
        by rewrite mark_all_bad.
      * destruct Hlast as (i0 & c0 & i & Hi0 & Hc0 & Hi & Hfv & Hc).
        rewrite (merge_task_next _ _ _ _ r i i0 c0)
          by (try done; try (by rewrite Hlen);
              unfold merged; simpl; by rewrite ?Hi0, ?Hc0).
        by rewrite mark_all_bad.
    + by rewrite (IH rs').
Qed.

(** ** The merge and its two checks *)

Lemma merge_results_ok all_images tasks rs w :
  Forall2 (λ t r, results t = Some r) tasks rs →
  metadata_consistent rs →
  NoDup (im_file <$> all_records rs) →
  length (all_records rs) = length all_images →
  merge_results all_images tasks w = (w, inr (merged rs)).
Proof.
  intros Hres Hmeta Hnd Hlen. unfold merge_results. unfold bind at 1.
  rewrite (merge_tasks_ok tasks rs w) by done. simpl.
  unfold bind at 1. rewrite Hlen, Nat.eqb_refl. simpl.
  unfold bind. rewrite size_list_to_set by done.
  by rewrite length_fmap, Hlen, Nat.eqb_refl.
Qed.

(** A count that differs from the number of enumerated images raises the
    assertion with the two numbers. *)
Lemma merge_results_wrong_count all_images tasks rs w :
  Forall2 (λ t r, results t = Some r) tasks rs →
  metadata_consistent rs →
  NoDup (im_file <$> all_records rs) →
  length (all_records rs) ≠ length all_images →
  merge_results all_images tasks w
  = (w, inl (AssertionError
               (Some (wrong_count_message (length all_images)
                        (length (all_records rs)))))).
Proof.
  intros Hres Hmeta Hnd Hlen. unfold merge_results. unfold bind at 1.
  rewrite (merge_tasks_ok tasks rs w) by done. simpl.
  unfold bind at 1. by rewrite (proj2 (Nat.eqb_neq _ _) Hlen).
Qed.

Lemma merge_results_duplicate all_images tasks rs w :
  Forall2 (λ t r, results t = Some r) tasks rs →
  metadata_consistent rs →
  ¬ NoDup (im_file <$> all_records rs) →
  merge_results all_images tasks w = (w, inl (AssertionError None)).
Proof.
  intros Hres Hmeta Hdup. unfold merge_results.
  by erewrite bind_inl by by eapply merge_tasks_duplicate.
Qed.

Lemma merge_results_inv all_images tasks w w' combined :
  merge_results all_images tasks w = (w', inr combined) →
  w' = w
  ∧ length (tr_images combined) = length all_images
  ∧ NoDup (im_file <$> tr_images combined).
Proof.
  unfold merge_results. unfold bind at 1.
  pose proof (merge_tasks_world tasks w) as Hw.
  destruct (merge_tasks tasks w) as [w1 [e|[c seen]]] eqn:E; [done|].
  simpl in Hw. subst w1.
  destruct (merge_tasks_inv _ _ _ _ _ E) as (rs & _ & Himg & _ & Hnd).
  simpl. unfold bind at 1.
  destruct (Nat.eqb_spec (length (tr_images c)) (length all_images)) as [Hlen|];
    [|done].
  simpl. unfold bind. destruct (_ =? _)%nat; [|done]. simpl.
  intros [= <- <-]. split; [done|]. split; [done|]. by rewrite Himg.
Qed.

Lemma NoDup_concat_lookup {A} (ls : list (list A)) i j a b x :
  NoDup (concat ls) → i < j → ls !! i = Some a → ls !! j = Some b →
  x ∈ a → x ∉ b.
Proof.
  revert i j. induction ls as [|l ls IH]; intros i j Hnd Hij Hi Hj Ha Hb.
  - by rewrite lookup_nil in Hi.
  - simpl in Hnd. apply NoDup_app in Hnd as (_ & Hdisj & Hnd).
    destruct j as [|j]; [lia|]. destruct i as [|i]; simpl in *.
    + injection Hi as ->. apply (Hdisj x Ha).
      apply list_elem_of_In, in_concat. exists b. split.
      * apply list_elem_of_In. by eapply list_elem_of_lookup_2.
      * by apply list_elem_of_In.
    + eapply (IH i j); try done. lia.
Qed.

Lemma all_records_paths rs :
  im_file <$> all_records rs = concat ((λ r, im_file <$> tr_images r) <$> rs).
Proof.
  unfold all_records. induction rs as [|r rs IH]; [done|].
  rewrite !fmap_cons. cbn [concat]. by rewrite fmap_app, IH.
Qed.

(** The same path in the results of two tasks stops the merge. *)
Lemma merge_results_shared_path all_images tasks w i j ti tj ri rj p :
  i ≠ j → tasks !! i = Some ti → tasks !! j = Some tj →
  results ti = Some ri → results tj = Some rj →
  p ∈ im_file <$> tr_images ri → p ∈ im_file <$> tr_images rj →
  ∃ e, merge_results all_images tasks w = (w, inl e).
Proof.
  intros Hij Hi Hj Hri Hrj Hpi Hpj. unfold merge_results.
  pose proof (merge_tasks_world tasks w) as Hw.
  destruct (merge_tasks tasks w) as [w1 [e|[c seen]]] eqn:E;
    simpl in Hw; subst w1.
  { exists e. by erewrite bind_inl. }
  exfalso.
  destruct (merge_tasks_inv _ _ _ _ _ E) as (rs & Hres & _ & _ & Hnd).
  rewrite all_records_paths in Hnd.
  destruct (Forall2_lookup_l _ _ _ _ _ Hres Hi) as (ri' & Hri' & Hri2).
  destruct (Forall2_lookup_l _ _ _ _ _ Hres Hj) as (rj' & Hrj' & Hrj2).
  assert (ri' = ri) as -> by congruence. assert (rj' = rj) as -> by congruence.
  assert (((λ r, im_file <$> tr_images r) <$> rs) !! i
          = Some (im_file <$> tr_images ri)) as Hli
    by (by rewrite list_lookup_fmap, Hri').
  assert (((λ r, im_file <$> tr_images r) <$> rs) !! j
          = Some (im_file <$> tr_images rj)) as Hlj
    by (by rewrite list_lookup_fmap, Hrj').
  destruct (Nat.lt_total i j) as [Hlt|[Heq|Hgt]]; [|done|].
  - by eapply (NoDup_concat_lookup _ i j _ _ p Hnd).
  - by eapply (NoDup_concat_lookup _ j i _ _ p Hnd).
Qed.

Lemma paths_of_manifests rs manifests :
  Forall2 (λ r m, im_file <$> tr_images r ≡ₚ m) rs manifests →
  im_file <$> all_records rs ≡ₚ concat manifests.
Proof.
  rewrite all_records_paths.
  induction 1 as [|r m rs ms Hr _ IH]; [done|]. simpl. by rewrite Hr, IH.
Qed.

Lemma length_concat_sum {A} (ls : list (list A)) :
  length (concat ls) = sum_list (length <$> ls).
Proof.
  induction ls as [|l ls IH]; [done|]. simpl. by rewrite length_app, IH.
Qed.

(** ** The loop that makes the paths relative *)

Lemma relative_image_under_root ip done im w :
  under_root ip (im_file im) →
  relative_image ip done im w = (w, inr (done ++ [relative_to ip im])).
Proof.
  intros [Hbs Hpre].
  pose proof (root_prefix_startswith _ _ Hpre) as Hroot.
  unfold relative_image, relative_to, root_prefix in *.
  rewrite Hbs, Hroot. simpl. unfold bind. simpl.
  destruct (Py.endswith ip ":") eqn:Hc;
    rewrite replace_first_prefix by done; by rewrite app_empty_l.
Qed.

Lemma relative_image_world ip done im w : (relative_image ip done im w).1 = w.
Proof.
  unfold relative_image, bind, assert.
  destruct (negb _); [|done]. simpl.
  destruct (Py.startswith _ _); [|done]. simpl.
  by destruct (Py.endswith _ _).
Qed.

Lemma relative_images_from ip images done w :
  Forall (λ im, under_root ip (im_file im)) images →
  foldM (relative_image ip) images done w
  = (w, inr (done ++ (relative_to ip <$> images))).
Proof.
  intros H. revert done. induction H as [|im images Him _ IH]; intros done.
  - simpl. by rewrite app_nil_r.
  - simpl. unfold bind at 1. rewrite relative_image_under_root by done.
    rewrite IH. by rewrite <- app_assoc.
Qed.

Lemma convert_to_relative_ok ip c w :
  Forall (λ im, under_root ip (im_file im)) (tr_images c) →
  convert_to_relative ip c w
  = (w, inr (TaskResults (tr_info c) (tr_detection_categories c)
               (relative_to ip <$> tr_images c))).
Proof.
  intros H. unfold convert_to_relative, bind.
  by rewrite relative_images_from.
Qed.

Lemma convert_to_relative_world ip c w : (convert_to_relative ip c w).1 = w.
Proof.
  unfold convert_to_relative, bind.
  pose proof (foldM_world (relative_image ip) (tr_images c) [] w
                (relative_image_world ip)) as H.
  destruct (foldM _ _ _ _) as [w1 [e|images]]; simpl in *; by subst.
Qed.

Lemma relative_paths_inj ip f1 f2 :
  Py.startswith f1 (root_prefix ip) = true →
  Py.startswith f2 (root_prefix ip) = true →
  Py.drop (String.length (root_prefix ip)) f1
  = Py.drop (String.length (root_prefix ip)) f2 →
  f1 = f2.
Proof.
  intros H1 H2 Heq.
  rewrite (prefix_drop _ _ H1), (prefix_drop _ _ H2). by rewrite Heq.
Qed.

Lemma relative_paths_NoDup ip (paths : list string) :
  Forall (λ fn, Py.startswith fn (root_prefix ip) = true) paths →
  NoDup paths →
  NoDup (Py.drop (String.length (root_prefix ip)) <$> paths).
Proof.
  intros Hall Hnd. induction Hnd as [|fn paths Hnotin Hnd IH]; simpl.
  - constructor.
  - apply Forall_cons in Hall as [Hfn Hall]. constructor; [|by apply IH].
    intros Hin. apply list_elem_of_fmap in Hin as (fn' & Heq & Hin').
    rewrite Forall_forall in Hall.
    apply (relative_paths_inj ip fn fn') in Heq; [|done|by apply Hall].
    by subst.
Qed.

Lemma relative_to_paths ip (images : list image) :
  im_file <$> (relative_to ip <$> images)
  = Py.drop (String.length (root_prefix ip)) <$> (im_file <$> images).
Proof. by rewrite <- !list_fmap_compose. Qed.

Lemma contains_cons_false c s sub :
  Py.contains (String c s) sub = false →
  String.prefix sub (String c s) = false ∧ Py.contains s sub = false.
Proof. simpl. intros H. by apply orb_false_elim in H. Qed.

Lemma replace_first_absent old new s :
  Py.contains s old = false → Py.replace_first old new s = s.
Proof.
  induction s as [|c s IH]; intros H.
  - destruct old; [done|]. reflexivity.
  - apply contains_cons_false in H as [H1 H2].
    rewrite replace_first_unfold, H1. by rewrite IH.
Qed.

Lemma relative_image_passes ip done im w :
  relativizable ip im →
  relative_image ip done im w = (w, inr (done ++ [relativized ip im])).
Proof.
  intros [Hbs Hpre]. unfold relative_image, relativized.
  rewrite Hbs, Hpre. unfold bind, assert, ret. cbn [negb].
  by destruct (Py.endswith ip ":").
Qed.

Lemma relative_image_inv ip done im w w' done' :
  relative_image ip done im w = (w', inr done') → relativizable ip im.
Proof.
  unfold relative_image, relativizable, bind, assert, ret, raise.
  destruct (Py.contains (im_file im) "\"); [done|]. cbn [negb].
  by destruct (Py.startswith (im_file im) ip).
Qed.

Lemma relative_images_pass ip images done w :
  Forall (relativizable ip) images →
  foldM (relative_image ip) images done w
  = (w, inr (done ++ (relativized ip <$> images))).
Proof.
  intros H. revert done. induction H as [|im images Him _ IH]; intros done.
  - simpl. by rewrite app_nil_r.
  - simpl. unfold bind at 1. rewrite relative_image_passes by done.
    rewrite IH. by rewrite <- app_assoc.
Qed.

Lemma relative_images_inv ip images done w w' done' :
  foldM (relative_image ip) images done w = (w', inr done') →
  Forall (relativizable ip) images.
Proof.
  revert done w. induction images as [|im images IH]; intros done w H;
    [constructor|].
  cbn [foldM] in H. unfold bind at 1 in H.
  destruct (relative_image ip done im w) as [w1 [e|done1]] eqn:E; [done|].
  constructor; [by eapply relative_image_inv|by eapply IH].
Qed.

Lemma convert_to_relative_passes ip c w :
  Forall (relativizable ip) (tr_images c) →
  convert_to_relative ip c w
  = (w, inr (TaskResults (tr_info c) (tr_detection_categories c)
               (relativized ip <$> tr_images c))).
Proof.
  intros H. unfold convert_to_relative, bind.
  by rewrite relative_images_pass.
Qed.

Lemma convert_to_relative_inv ip c w w' c' :
  convert_to_relative ip c w = (w', inr c') →
  Forall (relativizable ip) (tr_images c).
Proof.
  unfold convert_to_relative, bind.
  destruct (foldM _ _ _ _) as [w1 [e|images]] eqn:E; [done|].
  intros _. by eapply relative_images_inv.
Qed.

Lemma merge_task_inv_meta c seen i t w w' c' seen' :
  merge_task (c, seen) (i, t) w = (w', inr (c', seen')) →
  ∃ r ti tc,
    results t = Some r ∧ tr_info r = Some ti
    ∧ tr_detection_categories r = Some tc
    ∧ (i = 0 → tr_info c' = Some ti ∧ tr_detection_categories c' = Some tc)
    ∧ (i ≠ 0 →
       ∃ ci, tr_info c = Some ci ∧ format_version ti = format_version ci
             ∧ tr_detection_categories c = Some tc
             ∧ tr_info c' = tr_info c
             ∧ tr_detection_categories c' = tr_detection_categories c).
Proof.
  unfold merge_task. destruct (results t) as [r|]; [|done]. simpl.
  unfold bind, getitem, assert, ret, raise.
  destruct i as [|i]; simpl.
  - destruct (tr_info r) as [ti|] eqn:Eti,
      (tr_detection_categories r) as [tc|] eqn:Etc; simpl; try done.
    destruct (foldM _ _ _ _) as [w1 [e|s1]]; [done|].
    intros Heq. simplify_eq/=. exists r, ti, tc.
    split; [done|]. split; [done|]. split; [done|]. split; [done|].
    by intros ?.
  - destruct (tr_info r) as [ti|] eqn:Eti, (tr_info c) as [ci|] eqn:Eci;
      simpl; try done.
    case_bool_decide; simpl; [|done].
    destruct (tr_detection_categories r) as [tc|] eqn:Etc,
      (tr_detection_categories c) as [cc|] eqn:Ecc; simpl; try done.
    case_bool_decide; simpl; [|done].
    destruct (foldM _ _ _ _) as [w1 [e|s1]]; [done|].
    intros Heq. simplify_eq/=. exists r, ti, cc.
    split; [done|]. split; [done|]. split; [done|]. split; [by intros ?|].
    intros _. exists ci. by repeat split.
Qed.

Lemma metadata_consistent_snoc_intro rs r :
  metadata_consistent rs →
  match head rs with
  | None => is_Some (tr_info r) ∧ is_Some (tr_detection_categories r)
  | Some r0 =>
      ∃ i0 c0 i,
        tr_info r0 = Some i0 ∧ tr_detection_categories r0 = Some c0
        ∧ tr_info r = Some i ∧ format_version i = format_version i0
        ∧ tr_detection_categories r = Some c0
  end →
  metadata_consistent (rs ++ [r]).
Proof.
  destruct rs as [|r0 rest]; simpl.
  - intros _ [[i0 Hi] [c0 Hc]]. exists i0, c0. by repeat split.
  - intros (i0 & c0 & Hi0 & Hc0 & Hrest) (i0' & c0' & i & Hi0' & Hc0' & Hi & Hv & Hc).
    simplify_eq. exists i0, c0. split; [done|]. split; [done|].
    apply Forall_app. split; [done|]. constructor; [|constructor].
    by exists i.
Qed.

Lemma merge_tasks_inv_meta tasks w w' c seen :
  merge_tasks tasks w = (w', inr (c, seen)) →
  ∃ rs, Forall2 (λ t r, results t = Some r) tasks rs
        ∧ metadata_consistent rs
        ∧ tr_info c = head rs ≫= tr_info
        ∧ tr_detection_categories c = head rs ≫= tr_detection_categories.
Proof.
  unfold merge_tasks. revert w' c seen.
  induction tasks as [|t tasks IH] using rev_ind; intros w' c seen.
  - intros [= <- <- <-]. exists []. repeat split; try done; constructor.
  - rewrite enumerate_snoc, foldM_snoc.
    destruct (foldM merge_task (enumerate tasks) _ w) as [w1 [e|[c1 s1]]] eqn:E;
      [done|].
    destruct (IH _ _ _ eq_refl) as (rs & Hres & Hmeta & Hinfo & Hcats).
    intros (r & ti & tc & Hr & Hti & Htc & Hzero & Hnext)%merge_task_inv_meta.
    pose proof (Forall2_length _ _ _ Hres) as Hlen.
    exists (rs ++ [r]). split; [apply Forall2_app; [done|by constructor]|].
    destruct rs as [|r0 rest].
    + destruct tasks; [|done]. destruct (Hzero eq_refl) as [Hi Hc].
      split; [|simpl; by rewrite Hi, Hc, Hti, Htc].
      exists ti, tc. by repeat split.
    + assert (length tasks ≠ 0) as Hne by (rewrite Hlen; done).
      destruct (Hnext Hne) as (ci & Hci & Hv & Hcc & Hi & Hc).
      simpl in Hinfo, Hcats. split; [|split].
      * apply metadata_consistent_snoc_intro; [done|]. simpl.
        destruct Hmeta as (i0 & c0 & Hi0 & Hc0 & _).
        exists i0, c0, ti. rewrite Hinfo in Hci. rewrite Hcats in Hcc.
        simplify_eq. by repeat split.
      * simpl. by rewrite Hi.
      * simpl. by rewrite Hc.
Qed.

Lemma merge_results_inv_full all_images tasks w w' c :
  merge_results all_images tasks w = (w', inr c) →
  ∃ rs, Forall2 (λ t r, results t = Some r) tasks rs
        ∧ metadata_consistent rs
        ∧ NoDup (im_file <$> all_records rs)
        ∧ length (all_records rs) = length all_images
        ∧ c = merged rs.
Proof.
  unfold merge_results. unfold bind at 1.
  destruct (merge_tasks tasks w) as [w1 [e|[c1 seen]]] eqn:E; [done|].
  destruct (merge_tasks_inv_meta _ _ _ _ _ E) as (rs & Hres & Hmeta & Hi & Hc).
  destruct (merge_tasks_inv _ _ _ _ _ E) as (rs' & Hres' & Himg & _ & Hnd).
  assert (rs' = rs) as ->.
  { clear -Hres Hres'. revert rs' Hres'.
    induction Hres as [|t r tasks rs Hr _ IH]; intros rs' Hres'.
    - by apply Forall2_nil_inv_l in Hres'.
    - apply Forall2_cons_inv_l in Hres' as (r' & rs'' & Hr' & Hres' & ->).
      rewrite Hr in Hr'. injection Hr' as <-. f_equal. by apply IH. }
  unfold bind, assert, ret, raise. cbn [fst].
  destruct (length (tr_images c1) =? length all_images)%nat eqn:Hlen; [|done].
  destruct (length (tr_images c1) =? size _)%nat; [|done].
  intros [= <- <-]. exists rs. apply Nat.eqb_eq in Hlen. rewrite Himg in Hlen.
  repeat split; try done.
  unfold merged. destruct c1 as [i cc ims]. simpl in *. by subst.
Qed.

(** ** C2 *)

Lemma relativized_under_root ip im :
  Py.startswith (im_file im) (root_prefix ip) = true →
  relativized ip im = relative_to ip im.
Proof.
  intros Hpre. unfold relativized, relative_to, root_prefix in *.
  destruct (Py.endswith ip ":");
    rewrite replace_first_prefix by done; by rewrite app_empty_l.
Qed.

Lemma merge_pass_ok cfg ip all_images tasks rs w :
  Forall2 (λ t r, results t = Some r) tasks rs →
  metadata_consistent rs →
  NoDup (im_file <$> all_records rs) →
  length (all_records rs) = length all_images →
  Forall (λ im, under_root ip (im_file im)) (all_records rs) →
  merge_pass cfg ip all_images tasks w
  = (World
       (<[combined_api_output_file cfg :=
            File (JsonResults
                    (TaskResults (head rs ≫= tr_info)
                       (head rs ≫= tr_detection_categories)
                       (relative_to ip <$> all_records rs)))
              (mode_after_write w (combined_api_output_file cfg))]> (files w))
       (stdout w ++ ["Wrote results to " +:+ combined_api_output_file cfg]),
     inr (TaskResults (head rs ≫= tr_info) (head rs ≫= tr_detection_categories)
            (relative_to ip <$> all_records rs))).
Proof.
  intros Hres Hmeta Hnd Hlen Hroot. unfold merge_pass. unfold bind at 1.
  rewrite (merge_results_ok all_images tasks rs w) by done.
  unfold bind at 1. rewrite convert_to_relative_ok by done.
  reflexivity.
Qed.

Lemma merge_pass_inv cfg ip all_images tasks w w' combined :
  merge_pass cfg ip all_images tasks w = (w', inr combined) →
  ∃ rs, Forall2 (λ t r, results t = Some r) tasks rs
        ∧ metadata_consistent rs
        ∧ NoDup (im_file <$> all_records rs)
        ∧ length (all_records rs) = length all_images
        ∧ Forall (relativizable ip) (all_records rs)
        ∧ combined
          = TaskResults (head rs ≫= tr_info) (head rs ≫= tr_detection_categories)
              (relativized ip <$> all_records rs).
Proof.
  unfold merge_pass. unfold bind at 1.
  destruct (merge_results all_images tasks w) as [w1 [e|c]] eqn:Hm; [done|].
  destruct (merge_results_inv_full _ _ _ _ _ Hm)
    as (rs & Hres & Hmeta & Hnd & Hlen & ->).
  unfold bind at 1.
  destruct (convert_to_relative ip (merged rs) w1) as [w2 [e|c2]] eqn:Hc; [done|].
  pose proof (convert_to_relative_inv _ _ _ _ _ Hc) as Hrel.
  rewrite convert_to_relative_passes in Hc by done. injection Hc as <- <-.
  unfold bind, write_file, print, ret. intros [= <- <-].
  exists rs. by repeat split.
Qed.

(** C2, amended.  When every task holds its validated results, the metadata
    of the tasks agree, the records of each task are one per image of its
    manifest, and the manifests are disjoint and without duplicates, all
    [len(all_images)] images, every one of them below the input root and
    without backslash, the merge pass returns the combined results and
    writes them to the combined results file: the metadata of the first
    task and the records of all tasks in task order, as many as enumerated
    images, that is the sum of the chunk sizes; their paths are the paths of
    the manifests without the prefix of the root, and no path occurs twice.
    Whenever the merge pass gives a result it has that count, the paths it
    merged held no duplicate, and the relative paths it gives hold none
    when the merged paths start with the prefix of the root.  And a path in
    the results of two different tasks makes the merge pass raise. *)
Theorem merge_counts_and_uniqueness cfg ip all_images tasks w :
  (∀ rs manifests,
     Forall2 (λ t r, results t = Some r) tasks rs →
     metadata_consistent rs →
     Forall2 (λ r m, im_file <$> tr_images r ≡ₚ m) rs manifests →
     NoDup (concat manifests) →
     Forall (under_root ip) (concat manifests) →
     length all_images = sum_list (length <$> manifests) →
     ∃ combined,
       merge_pass cfg ip all_images tasks w
       = (World
            (<[combined_api_output_file cfg :=
                 File (JsonResults combined)
                   (mode_after_write w (combined_api_output_file cfg))]>
               (files w))
            (stdout w ++ ["Wrote results to " +:+ combined_api_output_file cfg]),
          inr combined)
       ∧ tr_info combined = head rs ≫= tr_info
       ∧ tr_detection_categories combined = head rs ≫= tr_detection_categories
       ∧ tr_images combined = relative_to ip <$> all_records rs
       ∧ length (tr_images combined) = length all_images
       ∧ length (tr_images combined) = sum_list (length <$> manifests)
       ∧ NoDup (im_file <$> tr_images combined)
       ∧ im_file <$> tr_images combined
         ≡ₚ Py.drop (String.length (root_prefix ip)) <$> concat manifests)
  ∧ (∀ w' combined,
       merge_pass cfg ip all_images tasks w = (w', inr combined) →
       length (tr_images combined) = length all_images
       ∧ ∃ rs,
           Forall2 (λ t r, results t = Some r) tasks rs
           ∧ NoDup (im_file <$> all_records rs)
           ∧ (Forall (λ im, Py.startswith (im_file im) (root_prefix ip) = true)
                (all_records rs) →
              NoDup (im_file <$> tr_images combined)))
  ∧ (∀ i j ti tj ri rj p,
       i ≠ j → tasks !! i = Some ti → tasks !! j = Some tj →
       results ti = Some ri → results tj = Some rj →
       p ∈ im_file <$> tr_images ri → p ∈ im_file <$> tr_images rj →
       ∃ e, merge_pass cfg ip all_images tasks w = (w, inl e)).
Proof.
  split; [|split].
  - intros rs manifests Hres Hmeta Hperm Hnd Hroot Hlen.
    pose proof (paths_of_manifests rs manifests Hperm) as Hpaths.
    assert (NoDup (im_file <$> all_records rs)) as Hnd' by by rewrite Hpaths.
    assert (length (all_records rs) = length all_images) as Hlen'.
    { rewrite Hlen, <- length_concat_sum, <- Hpaths. by rewrite length_fmap. }
    assert (Forall (λ im, under_root ip (im_file im)) (all_records rs)) as Hunder.
    { apply Forall_forall. intros im Him. rewrite Forall_forall in Hroot.
      apply Hroot. rewrite <- Hpaths. apply list_elem_of_fmap. by exists im. }
    eexists. split; [by apply merge_pass_ok|].
    cbn [tr_info tr_detection_categories tr_images].
    split; [done|]. split; [done|]. split; [done|].
    rewrite length_fmap. split; [done|]. split; [by rewrite Hlen', Hlen|].
    rewrite relative_to_paths. split; [|by rewrite Hpaths].
    apply relative_paths_NoDup; [|done].
    apply Forall_fmap. eapply Forall_impl; [exact Hunder|]. by intros im [_ ?].
  - intros w' combined H.
    destruct (merge_pass_inv _ _ _ _ _ _ _ H)
      as (rs & Hres & _ & Hnd & Hlen & _ & ->).
    cbn [tr_images]. rewrite length_fmap. split; [done|].
    exists rs. split; [done|]. split; [done|]. intros Hpre.
    assert (relativized ip <$> all_records rs = relative_to ip <$> all_records rs)
      as ->.
    { apply list_fmap_ext. intros k im Him. apply relativized_under_root.
      rewrite Forall_forall in Hpre. apply Hpre.
      by eapply list_elem_of_lookup_2. }
    rewrite relative_to_paths. apply relative_paths_NoDup; [|done].
    by apply Forall_fmap.
  - intros i j ti tj ri rj p Hij Hi Hj Hri Hrj Hpi Hpj.
    destruct (merge_results_shared_path all_images tasks w i j ti tj ri rj p)
      as [e He]; try done.
    exists e. unfold merge_pass. by erewrite bind_inl.
Qed.

Lemma merge_counts_and_uniqueness_witness :
  (Forall2 (λ t r, results t = Some r)
     (validated_task "/d" after_inference <$> example_tasks)
     (example_results <$> [chunk0_records; chunk1_records])
   ∧ metadata_consistent (example_results <$> [chunk0_records; chunk1_records])
   ∧ Forall2 (λ r m, im_file <$> tr_images r ≡ₚ m)
       (example_results <$> [chunk0_records; chunk1_records])
       (split_list_into_n_chunks seven_images 2)
   ∧ NoDup (concat (split_list_into_n_chunks seven_images 2))
   ∧ Forall (under_root "/d") (concat (split_list_into_n_chunks seven_images 2))
   ∧ length seven_images
     = sum_list (length <$> split_list_into_n_chunks seven_images 2))
  ∧ ∃ combined,
      (merge_pass example_config "/d" seven_images
         (validated_task "/d" after_inference <$> example_tasks)
         (World ∅ [])).2
      = inr combined
      ∧ length (tr_images combined) = length seven_images
      ∧ NoDup (im_file <$> tr_images combined)
      ∧ im_file <$> tr_images combined
        ≡ₚ Py.drop (String.length (root_prefix "/d"))
             <$> concat (split_list_into_n_chunks seven_images 2).
Proof.
  assert (Forall2 (λ t r, results t = Some r)
            (validated_task "/d" after_inference <$> example_tasks)
            (example_results <$> [chunk0_records; chunk1_records])) as H1
    by (repeat constructor).
  assert (metadata_consistent (example_results <$> [chunk0_records; chunk1_records]))
    as H2.
  { eexists _, _. split; [done|]. split; [done|].
    repeat constructor. by eexists. }
  assert (Forall2 (λ r m, im_file <$> tr_images r ≡ₚ m)
            (example_results <$> [chunk0_records; chunk1_records])
            (split_list_into_n_chunks seven_images 2)) as H3
    by (repeat constructor).
  assert (NoDup (concat (split_list_into_n_chunks seven_images 2))) as H4
    by (apply (bool_decide_unpack _); vm_compute; exact I).
  assert (Forall (under_root "/d")
            (concat (split_list_into_n_chunks seven_images 2))) as H5
    by (repeat constructor).
  assert (length seven_images
          = sum_list (length <$> split_list_into_n_chunks seven_images 2)) as H6
    by reflexivity.
  destruct (proj1 (merge_counts_and_uniqueness example_config "/d" seven_images
                     (validated_task "/d" after_inference <$> example_tasks)
                     (World ∅ []))
              _ _ H1 H2 H3 H4 H5 H6)
    as (combined & R1 & _ & _ & _ & R2 & _ & R3 & R4).
  refine (conj (conj H1 (conj H2 (conj H3 (conj H4 (conj H5 H6)))))
            (ex_intro _ combined (conj _ (conj R2 (conj R3 R4))))).
  exact (f_equal snd R1).
Defined.

(** C2 as stated fails: with every image of every manifest in the results
    of its task, every record in the manifest of its task and the chunks
    disjoint, the validation pass passes and the merge raises, and with it
    the merge pass, when a task has two records for one image, and when the
    detection categories of two tasks differ. *)
Lemma complete_results_fail_to_merge :
  NoDup (concat (split_list_into_n_chunks seven_images 2))
  ∧ (Forall (task_valid "/d" doubled_record) example_tasks
     ∧ ∃ w' r,
         validation_pass example_config "/d" seven_images example_tasks
           doubled_record = (w', inr r)
         ∧ merge_results seven_images r.1 w' = (w', inl (AssertionError None))
         ∧ merge_pass example_config "/d" seven_images r.1 w'
           = (w', inl (AssertionError None)))
  ∧ (Forall (task_valid "/d" other_categories) example_tasks
     ∧ ∃ w' r,
         validation_pass example_config "/d" seven_images example_tasks
           other_categories = (w', inr r)
         ∧ merge_results seven_images r.1 w' = (w', inl (AssertionError None))
         ∧ merge_pass example_config "/d" seven_images r.1 w'
           = (w', inl (AssertionError None))).
Proof.
  split; [apply (bool_decide_unpack _); vm_compute; exact I|].
  split.
  - split.
    + eapply (proj1 (proj2 (validate_tasks_spec "/d" example_tasks doubled_record))).
      vm_compute. reflexivity.
    + eexists _, _. split; [vm_compute; reflexivity|].
      split; vm_compute; reflexivity.
  - split.
    + eapply (proj1 (proj2 (validate_tasks_spec "/d" example_tasks other_categories))).
      vm_compute. reflexivity.
    + eexists _, _. split; [vm_compute; reflexivity|].
      split; vm_compute; reflexivity.
Qed.

(** Without the root below every path: two different paths that start with
    the root [/data] as a string, neither below it, pass every check of the
    merge pass and are written as one and the same path. *)
Example sibling_paths_collide :
  ∃ w' combined,
    merge_pass example_config "/data"
      ["/data2/data/x.jpg"; "/data2x.jpg"]
      [Task 0 "/out/job/chunk000.json" None None None None None (Some 0)
         (Some (example_results
                  [record "/data2/data/x.jpg"; record "/data2x.jpg"]))]
      (World ∅ [])
    = (w', inr combined)
    ∧ im_file <$> tr_images combined = ["/data2x.jpg"; "/data2x.jpg"].
Proof. eexists _, _. split; [vm_compute; reflexivity|]. reflexivity. Qed.

(** ** C3 *)

Lemma reconcile_merge_error cfg all_images tasks w w1 r w2 e :
  validation_pass cfg (strip_input_path (input_path cfg)) all_images tasks w
  = (w1, inr r) →
  merge_results all_images r.1 w1 = (w2, inl e) →
  reconcile cfg all_images tasks w = (w2, inl e).
Proof.
  intros Hv Hm. unfold reconcile. unfold bind at 1. rewrite Hv.
  unfold merge_pass. by erewrite bind_inl.
Qed.

(** C3, amended.  Each completeness error stops the reconciliation with an
    exception.  Missing output files: every missing file is printed, in
    task order, after a line with their number, and the exception is
    [Exception('Missing output files')].  An image of a manifest without
    record: the assertion names the first such image of the first such task
    and the index of the task, and nothing else.  A path twice among the
    records of the tasks: the assertion has no message.  A count of records
    other than the number of enumerated images: the assertion gives the two
    numbers. *)
Theorem completeness_errors_reported cfg all_images tasks w :
  (Forall (λ t, is_Some (output_file t)) tasks →
   missing_outputs w tasks ≠ [] →
   reconcile cfg all_images tasks w
   = (World (files w)
        (stdout w
         ++ ("Missing " +:+ Py.str (length (missing_outputs w tasks))
             +:+ " output files:") :: missing_outputs w tasks),
      inl (Exception "Missing output files")))
  ∧ (∀ before t after m1 fn m2 r,
       tasks = before ++ t :: after →
       Forall (task_valid (strip_input_path (input_path cfg)) w) before →
       Forall (output_present w) tasks →
       manifest_of w t = Some (m1 ++ fn :: m2) →
       results_of w t = Some r →
       Forall (record_ok (strip_input_path (input_path cfg))
                 (list_to_set (m1 ++ fn :: m2))) (tr_images r) →
       Forall (λ f, f ∈ im_file <$> (absolute_file (strip_input_path (input_path cfg))
                                       <$> tr_images r)) m1 →
       fn ∉ im_file <$> (absolute_file (strip_input_path (input_path cfg))
                           <$> tr_images r) →
       reconcile cfg all_images tasks w
       = (w, inl (AssertionError (Some (not_found_message fn (length before))))))
  ∧ (∀ w1 validated rs,
       validation_pass cfg (strip_input_path (input_path cfg)) all_images tasks w
       = (w1, inr validated) →
       Forall2 (λ t r, results t = Some r) validated.1 rs →
       metadata_consistent rs →
       (¬ NoDup (im_file <$> all_records rs) →
        reconcile cfg all_images tasks w = (w1, inl (AssertionError None)))
       ∧ (NoDup (im_file <$> all_records rs) →
          length (all_records rs) ≠ length all_images →
          reconcile cfg all_images tasks w
          = (w1, inl (AssertionError
                        (Some (wrong_count_message (length all_images)
                                 (length (all_records rs)))))))).
Proof.
  split; [|split].
  - intros Hkeys Hmissing. unfold reconcile, validation_pass.
    erewrite bind_inl; [done|]. erewrite bind_inl; [done|].
    by apply check_output_files_missing.
  - intros before t after m1 fn m2 r -> Hb Hout Hm Hr Hrec Hm1 Hfn.
    apply reconcile_validation_error, validation_pass_loop_error; [done|].
    apply validate_tasks_first_error; [done|]. intros st.
    by eapply validate_task_missing_record.
  - intros w1 validated rs Hv Hres Hmeta. split.
    + intros Hdup. eapply reconcile_merge_error; [done|].
      by eapply merge_results_duplicate.
    + intros Hnd Hlen. eapply reconcile_merge_error; [done|].
      by eapply merge_results_wrong_count.
Qed.

Lemma completeness_errors_reported_witness :
  (Forall (λ t, is_Some (output_file t)) example_tasks
   ∧ missing_outputs first_run example_tasks ≠ [])
  ∧ reconcile example_config seven_images example_tasks first_run
    = (World (files first_run)
         (stdout first_run
          ++ ("Missing " +:+ Py.str (length (missing_outputs first_run example_tasks))
              +:+ " output files:") :: missing_outputs first_run example_tasks),
       inl (Exception "Missing output files")).
Proof.
  assert (Forall (λ t, is_Some (output_file t)) example_tasks) as H1
    by (repeat constructor; by eexists).
  assert (missing_outputs first_run example_tasks ≠ []) as H2 by by vm_compute.
  split; [done|].
  exact (proj1 (completeness_errors_reported example_config seven_images
                  example_tasks first_run) H1 H2).
Defined.

(** Both output files missing: both are printed. *)
Example both_outputs_missing :
  missing_outputs first_run example_tasks
  = ["/out/job/chunk000_results.json"; "/out/job/chunk001_results.json"].
Proof. by vm_compute. Qed.

(** C3 as stated fails for three of the four kinds.  Two images of chunk 0
    without record: the assertion names the first, the second appears
    nowhere.  A path of chunk 0 among the records of chunk 1 as well: the
    assertion has no message and the path appears nowhere.  One enumerated
    image more than there are records: the assertion gives the two counts,
    the image appears nowhere. *)
Lemma later_offenders_not_reported :
  (∃ w',
     reconcile example_config seven_images example_tasks
       (with_results [record "/d/a/3.jpg"; record "/d/b/1.jpg"] chunk1_records)
     = (w', inl (AssertionError
                   (Some "File /d/a/1.jpg not found in results for task 0")))
     ∧ Py.contains "File /d/a/1.jpg not found in results for task 0" "/d/a/2.jpg"
       = false
     ∧ Forall (λ line, Py.contains line "/d/a/2.jpg" = false) (stdout w'))
  ∧ (∃ w',
       reconcile example_config seven_images example_tasks
         (with_results chunk0_records (record "/d/a/1.jpg" :: chunk1_records))
       = (w', inl (AssertionError None))
       ∧ Forall (λ line, Py.contains line "/d/a/1.jpg" = false) (stdout w'))
  ∧ (∃ w',
       reconcile example_config (seven_images ++ ["/d/c/3.jpg"]) example_tasks
         after_inference
       = (w', inl (AssertionError
                     (Some "Expected 8 images in combined results, found 7")))
       ∧ Forall (λ line, Py.contains line "/d/c/3.jpg" = false) (stdout w')).
Proof.
  split; [|split].
  - eexists. split; [vm_compute; reflexivity|]. split; [by vm_compute|].
    vm_compute. repeat constructor.
  - eexists. split; [vm_compute; reflexivity|]. vm_compute. repeat constructor.
  - eexists. split; [vm_compute; reflexivity|]. vm_compute. repeat constructor.
Qed.

(** The end-to-end scenario of the spec: seven images, two jobs, every
    image with its record and no failure. *)
Example seven_images_reconciled :
  (reconcile example_config seven_images example_tasks
     (with_results
        [record "/d/a/1.jpg"; record "/d/a/2.jpg"; record "/d/a/3.jpg";
         record "/d/b/1.jpg"] chunk1_records)).2
  = inr (example_results
           [record "a/1.jpg"; record "a/2.jpg"; record "a/3.jpg";
            record "b/1.jpg"; record "b/2.jpg"; record "c/1.jpg";
            record "c/2.jpg"]).
Proof. vm_compute. reflexivity. Qed.


(** * Reconciliation, scripts, paths and the conversion to a notebook *)

(** ** The relativization loop *)

(** X1. Relativization of a whole results object whose paths are all below
    the root, in forward slashes: no assertion fires, the records keep their
    order, their number and their other fields, the metadata is kept, every
    path is the old one without the prefix of the root, and paths that were
    distinct stay distinct. *)
Theorem relativization_keeps_records ip c w :
  Forall (λ im, under_root ip (im_file im)) (tr_images c) →
  ∃ c',
    convert_to_relative ip c w = (w, inr c')
    ∧ tr_info c' = tr_info c
    ∧ tr_detection_categories c' = tr_detection_categories c
    ∧ length (tr_images c') = length (tr_images c)
    ∧ (∀ i im, tr_images c !! i = Some im →
         ∃ im', tr_images c' !! i = Some im'
                ∧ root_prefix ip +:+ im_file im' = im_file im
                ∧ im_failure im' = im_failure im
                ∧ im_rest im' = im_rest im)
    ∧ (NoDup (im_file <$> tr_images c) → NoDup (im_file <$> tr_images c')).
Proof.
  intros H. eexists. split; [by apply convert_to_relative_ok|].
  simpl. split; [done|]. split; [done|].
  split; [by rewrite length_fmap|]. split.
  - intros i im Hi. exists (relative_to ip im).
    rewrite list_lookup_fmap, Hi. split; [done|].
    rewrite Forall_forall in H.
    destruct (H im (list_elem_of_lookup_2 _ _ _ Hi)) as [_ Hpre].
    split; [|done]. simpl. symmetry. by apply prefix_drop.
  - intros Hnd. rewrite relative_to_paths.
    apply relative_paths_NoDup; [|done].
    apply Forall_fmap. eapply Forall_impl; [exact H|].
    by intros im [_ ?].
Qed.

Lemma relativization_keeps_records_witness :
  Forall (λ im, under_root "/d" (im_file im))
    (tr_images (example_results chunk1_records))
  ∧ ∃ c',
      convert_to_relative "/d" (example_results chunk1_records) (World ∅ [])
      = (World ∅ [], inr c')
      ∧ tr_info c' = tr_info (example_results chunk1_records)
      ∧ tr_detection_categories c'
        = tr_detection_categories (example_results chunk1_records)
      ∧ length (tr_images c') = length (tr_images (example_results chunk1_records))
      ∧ (∀ i im, tr_images (example_results chunk1_records) !! i = Some im →
           ∃ im', tr_images c' !! i = Some im'
                  ∧ root_prefix "/d" +:+ im_file im' = im_file im
                  ∧ im_failure im' = im_failure im
                  ∧ im_rest im' = im_rest im)
      ∧ (NoDup (im_file <$> tr_images (example_results chunk1_records)) →
         NoDup (im_file <$> tr_images c')).
Proof.
  assert (H : Forall (λ im, under_root "/d" (im_file im))
                (tr_images (example_results chunk1_records))).
  { repeat constructor. }
  exact (conj H (relativization_keeps_records "/d"
                   (example_results chunk1_records) (World ∅ []) H)).
Defined.

(** ** A path that starts with the root without being below it *)

(** X2. The assertion of the relativization loop tests the root as a string
    prefix, the replacement looks for the root followed by a slash: a path
    of a folder whose name only starts like the root (as [/data2/x.jpg] for
    the root [/data]) passes the assertion and is written to the combined
    results unchanged, still absolute. *)
Theorem sibling_of_root_stays_absolute ip done im w :
  Py.contains (im_file im) "\" = false →
  Py.startswith (im_file im) ip = true →
  Py.endswith ip ":" = false →
  Py.contains (im_file im) (ip +:+ "/") = false →
  relative_image ip done im w = (w, inr (done ++ [im])).
Proof.
  intros Hbs Hpre Hc Hno. unfold relative_image.
  rewrite Hbs, Hpre, Hc. simpl. unfold bind. simpl.
  rewrite replace_first_absent by done. by destruct im.
Qed.

Lemma sibling_of_root_stays_absolute_witness :
  (Py.contains "/data2/x.jpg" "\" = false
   ∧ Py.startswith "/data2/x.jpg" "/data" = true
   ∧ Py.endswith "/data" ":" = false
   ∧ Py.contains "/data2/x.jpg" ("/data" +:+ "/") = false)
  ∧ relative_image "/data" [] (record "/data2/x.jpg") (World ∅ [])
    = (World ∅ [], inr ([] ++ [record "/data2/x.jpg"])).
Proof.
  split; [by repeat split|].
  apply (sibling_of_root_stays_absolute "/data" [] (record "/data2/x.jpg")
           (World ∅ [])); reflexivity.
Defined.

(** ** Computations that leave the files as they are *)

Lemma keeps_files_ret {A} (a : A) : keeps_files (ret a).
Proof. by intros w. Qed.

Lemma keeps_files_raise {A} e : keeps_files (raise e : M A).
Proof. by intros w. Qed.

Lemma keeps_files_bind {A B} (m : M A) (k : A → M B) :
  keeps_files m → (∀ a, keeps_files (k a)) → keeps_files (bind m k).
Proof.
  intros Hm Hk w. unfold bind. specialize (Hm w).
  destruct (m w) as [w1 [e|a]]; simpl in *; [done|].
  by rewrite Hk.
Qed.

Lemma keeps_files_assert c msg : keeps_files (assert c msg).
Proof. by destruct c. Qed.

Lemma keeps_files_print s : keeps_files (print s).
Proof. by intros w. Qed.

Lemma keeps_files_isfile p : keeps_files (isfile p).
Proof. by intros w. Qed.

Lemma keeps_files_getitem {A} key (v : option A) : keeps_files (getitem key v).
Proof. by destruct v. Qed.

Lemma keeps_files_json_load p : keeps_files (json_load p).
Proof.
  intros w. unfold json_load.
  destruct (files w !! p) as [f|]; [|done]. by destruct (f_data f).
Qed.

Lemma keeps_files_foldM {A B} (f : B → A → M B) l b :
  (∀ b a, keeps_files (f b a)) → keeps_files (foldM f l b).
Proof.
  intros Hf. revert b. induction l as [|a l IH]; intros b.
  - apply keeps_files_ret.
  - simpl. apply keeps_files_bind; [apply Hf|]. intros b'. apply IH.
Qed.

Lemma keeps_files_world {A} (m : M A) :
  (∀ w, (m w).1 = w) → keeps_files m.
Proof. intros H w. by rewrite H. Qed.

Lemma keeps_files_check_output_files tasks :
  keeps_files (check_output_files tasks).
Proof.
  unfold check_output_files, find_missing_output_files.
  apply keeps_files_bind.
  - apply keeps_files_foldM. intros missing t.
    apply keeps_files_bind; [apply keeps_files_getitem|]. intros p.
    apply keeps_files_bind; [apply keeps_files_isfile|]. intros present.
    apply keeps_files_ret.
  - intros missing. destruct (0 <? length missing)%nat.
    + apply keeps_files_bind; [apply keeps_files_print|]. intros _.
      apply keeps_files_bind.
      * apply keeps_files_foldM. intros _ s. apply keeps_files_print.
      * intros _. apply keeps_files_raise.
    + apply keeps_files_ret.
Qed.

Lemma keeps_files_validation_pass cfg ip all_images tasks :
  keeps_files (validation_pass cfg ip all_images tasks).
Proof.
  unfold validation_pass.
  apply keeps_files_bind; [apply keeps_files_check_output_files|]. intros _.
  apply keeps_files_bind.
  - apply keeps_files_world. intros w.
    by destruct (validate_tasks_spec ip tasks w) as (_ & _ & ?).
  - intros [tasks' n].
    apply keeps_files_bind; [apply keeps_files_assert|]. intros _.
    apply keeps_files_bind; [apply keeps_files_print|]. intros _.
    apply keeps_files_ret.
Qed.

Lemma keeps_files_merge_results all_images tasks :
  keeps_files (merge_results all_images tasks).
Proof.
  unfold merge_results.
  apply keeps_files_bind.
  - apply keeps_files_world. apply merge_tasks_world.
  - intros r.
    apply keeps_files_bind; [apply keeps_files_assert|]. intros _.
    apply keeps_files_bind; [apply keeps_files_assert|]. intros _.
    apply keeps_files_ret.
Qed.

Lemma keeps_files_convert_to_relative ip c :
  keeps_files (convert_to_relative ip c).
Proof. apply keeps_files_world. apply convert_to_relative_world. Qed.

Lemma reconcile_files cfg all_images tasks w :
  match reconcile cfg all_images tasks w with
  | (w', inl _) => files w' = files w
  | (w', inr combined) =>
      files w'
      = <[combined_api_output_file cfg :=
            File (JsonResults combined)
              (mode_after_write w (combined_api_output_file cfg))]> (files w)
  end.
Proof.
  unfold reconcile, merge_pass. unfold bind at 1.
  pose proof (keeps_files_validation_pass cfg
                (strip_input_path (input_path cfg)) all_images tasks w) as H1.
  destruct (validation_pass _ _ _ _ _) as [w1 [e|r]]; simpl in *; [done|].
  unfold bind at 1.
  pose proof (keeps_files_merge_results all_images r.1 w1) as H2.
  destruct (merge_results _ _ _) as [w2 [e|c]]; simpl in *; [congruence|].
  unfold bind at 1.
  pose proof (keeps_files_convert_to_relative
                (strip_input_path (input_path cfg)) c w2) as H3.
  destruct (convert_to_relative _ _ _) as [w3 [e|c']]; simpl in *; [congruence|].
  unfold bind, write_file, print, ret, mode_after_write. simpl.
  rewrite H3, H2, H1. done.
Qed.

(** X3. Reconciliation writes all or nothing.  Whatever the tasks and the
    files are, when it stops on an exception no file on disk has changed:
    there is no partial combined results file.  When it returns, the one
    change on disk is the combined results file, which holds the object
    returned. *)
Theorem reconcile_writes_all_or_nothing cfg all_images tasks w :
  match reconcile cfg all_images tasks w with
  | (w', inl _) => files w' = files w
  | (w', inr combined) =>
      files w'
      = <[combined_api_output_file cfg :=
            File (JsonResults combined)
              (mode_after_write w (combined_api_output_file cfg))]> (files w)
  end.
Proof. apply reconcile_files. Qed.

(** ** Reconciliation of a complete batch *)

Lemma Forall2_fmap_same {A B} (f : A → B) (l : list A) :
  Forall2 (λ a b, f a = b) l (f <$> l).
Proof. induction l; simpl; by constructor. Qed.

Lemma filter_concat {A} (P : A → Prop) `{∀ x, Decision (P x)} (ls : list (list A)) :
  filter P (concat ls) = concat (filter P <$> ls).
Proof.
  induction ls as [|l ls IH]; [done|]. simpl.
  by rewrite filter_app, IH.
Qed.

Lemma failures_of_all_records w tasks rs :
  Forall2 (λ t r, results_of w t = Some r) tasks rs →
  sum_list (failures_of w <$> tasks)
  = length (filter has_failure (all_records rs)).
Proof.
  induction 1 as [|t r tasks rs Htr _ IH]; [done|].
  change (sum_list (failures_of w <$> t :: tasks))
    with (failures_of w t + sum_list (failures_of w <$> tasks)).
  change (all_records (r :: rs)) with (tr_images r ++ all_records rs).
  rewrite filter_app, length_app, IH. unfold failures_of. by rewrite Htr.
Qed.

Lemma validated_tasks_results ip w tasks rs :
  Forall2 (λ t r, results_of w t = Some r) tasks rs →
  Forall2 (λ t r, results t = Some r)
    (validated_task ip w <$> tasks) (validated_results ip <$> rs).
Proof.
  induction 1 as [|t r tasks rs Htr _ IH]; simpl; constructor; [|done].
  unfold validated_task. by rewrite Htr.
Qed.

Lemma validated_results_metadata ip rs :
  metadata_consistent rs → metadata_consistent (validated_results ip <$> rs).
Proof.
  destruct rs as [|r0 rest]; [done|]. simpl.
  intros (i0 & c0 & Hi & Hc & Hrest). exists i0, c0.
  split; [done|]. split; [done|].
  apply Forall_fmap. eapply Forall_impl; [exact Hrest|]. by intros r.
Qed.

Lemma validated_results_paths ip rs manifests :
  Forall2 (λ r m, im_file <$> (absolute_file ip <$> tr_images r) ≡ₚ m)
    rs manifests →
  Forall2 (λ r m, im_file <$> tr_images r ≡ₚ m)
    (validated_results ip <$> rs) manifests.
Proof. induction 1; simpl; by constructor. Qed.

Lemma complete_task_valid ip w t m r :
  manifest_of w t = Some m → results_of w t = Some r →
  im_file <$> (absolute_file ip <$> tr_images r) ≡ₚ m →
  Forall (λ im, im_failure im ≠ Some None) (tr_images r) →
  Forall (under_root ip) m →
  task_valid ip w t.
Proof.
  intros Hm Hr Hperm Hfail Hroot. exists m, r.
  split; [done|]. split; [done|]. split.
  - rewrite Forall_forall in Hfail. rewrite Forall_forall in Hroot.
    apply Forall_forall. intros im Him.
    assert (Hin : im_file (absolute_file ip im) ∈ m).
    { rewrite <- Hperm. apply list_elem_of_fmap. eexists. split; [done|].
      apply list_elem_of_fmap. by exists im. }
    split; [|split].
    + apply root_prefix_startswith. by apply Hroot.
    + by apply elem_of_list_to_set.
    + by apply Hfail.
  - apply Forall_forall. intros fn Hfn. by rewrite Hperm.
Qed.

Lemma complete_tasks_valid ip w tasks manifests rs :
  Forall2 (λ t m, manifest_of w t = Some m) tasks manifests →
  Forall2 (λ t r, results_of w t = Some r) tasks rs →
  Forall2 (λ r m, im_file <$> (absolute_file ip <$> tr_images r) ≡ₚ m)
    rs manifests →
  Forall (λ im, im_failure im ≠ Some None) (all_records rs) →
  Forall (under_root ip) (concat manifests) →
  Forall (task_valid ip w) tasks.
Proof.
  intros Hm. revert rs.
  induction Hm as [|t m tasks manifests Htm _ IH]; intros rs Hr Hperm Hfail Hroot.
  - constructor.
  - inversion Hr as [|? r ? rs' Htr Hr']; subst.
    inversion Hperm as [|? ? ? ? Hp Hperm']; subst.
    unfold all_records in Hfail. simpl in Hfail, Hroot.
    apply Forall_app in Hfail as [Hf1 Hf2].
    apply Forall_app in Hroot as [Hr1 Hr2].
    constructor.
    + by apply (complete_task_valid ip w t m r).
    + by apply (IH rs').
Qed.

Lemma head_validated_results ip rs :
  head (validated_results ip <$> rs) ≫= tr_info = head rs ≫= tr_info
  ∧ head (validated_results ip <$> rs) ≫= tr_detection_categories
    = head rs ≫= tr_detection_categories.
Proof. by destruct rs. Qed.

(** X4. Reconciliation of a complete batch succeeds.  When every task has
    its manifest and its results on disk, the results of a task hold, after
    the normalisation of the paths, one record for each image of its
    manifest, no record has a null failure, the images of the manifests are
    distinct, below the root and as many as the images enumerated, the
    metadata of the tasks agree and the failures are fewer than the
    tolerance, then reconciliation returns the combined results: the
    metadata of the first task and the records of all the tasks in task
    order, with relative paths.  It writes them to the combined results
    file and prints its two lines. *)
Theorem complete_batch_reconciles cfg ip all_images tasks manifests rs w :
  ip = strip_input_path (input_path cfg) →
  Forall2 (λ t m, manifest_of w t = Some m) tasks manifests →
  Forall2 (λ t r, results_of w t = Some r) tasks rs →
  Forall2 (λ r m, im_file <$> (absolute_file ip <$> tr_images r) ≡ₚ m)
    rs manifests →
  Forall (λ im, im_failure im ≠ Some None) (all_records rs) →
  Forall (under_root ip) (concat manifests) →
  NoDup (concat manifests) →
  length all_images = length (concat manifests) →
  metadata_consistent rs →
  (Z.of_nat (length (filter has_failure (all_records rs)))
   < max_tolerable_failed_images cfg)%Z →
  reconcile cfg all_images tasks w
  = (World
       (<[combined_api_output_file cfg :=
            File (JsonResults (combined_results_of ip rs))
              (mode_after_write w (combined_api_output_file cfg))]> (files w))
       (stdout w
        ++ ["Processed all " +:+ Py.str (length all_images) +:+ " images with "
            +:+ Py.str (length (filter has_failure (all_records rs)))
            +:+ " failures";
            "Wrote results to " +:+ combined_api_output_file cfg]),
     inr (combined_results_of ip rs))
  ∧ im_file <$> tr_images (combined_results_of ip rs)
    ≡ₚ Py.drop (String.length (root_prefix ip)) <$> concat manifests
  ∧ NoDup (im_file <$> tr_images (combined_results_of ip rs)).
Proof.
  intros Hip Hm Hr Hperm Hfail Hroot Hnd Hlen Hmeta Htol.
  pose proof (complete_tasks_valid ip w tasks manifests rs
                Hm Hr Hperm Hfail Hroot) as Hvalid.
  pose proof (paths_of_manifests _ _ (validated_results_paths ip rs manifests Hperm))
    as Hpaths.
  assert (Hunder : Forall (λ im, under_root ip (im_file im))
                     (all_records (validated_results ip <$> rs))).
  { apply Forall_forall. intros im Him.
    rewrite Forall_forall in Hroot. apply Hroot. rewrite <- Hpaths.
    apply list_elem_of_fmap. by exists im. }
  split; [|split].
  - unfold reconcile. rewrite <- Hip. unfold bind at 1.
    rewrite (validation_pass_valid cfg ip all_images tasks w Hvalid).
    rewrite (failures_of_all_records w tasks rs Hr).
    apply Z.ltb_lt in Htol. rewrite Htol. simpl.
    unfold merge_pass. unfold bind at 1.
    rewrite (merge_results_ok all_images _ (validated_results ip <$> rs)).
    + unfold bind at 1. rewrite convert_to_relative_ok by done.
      unfold bind, write_file, print, ret, mode_after_write,
        combined_results_of. simpl.
      destruct (head_validated_results ip rs) as [-> ->].
      by rewrite <- app_assoc.
    + by apply validated_tasks_results.
    + by apply validated_results_metadata.
    + by rewrite Hpaths.
    + rewrite Hlen. rewrite <- (length_fmap im_file). by rewrite Hpaths.
  - unfold combined_results_of. simpl. rewrite relative_to_paths.
    by rewrite Hpaths.
  - unfold combined_results_of. simpl. rewrite relative_to_paths.
    apply relative_paths_NoDup.
    + apply Forall_fmap. eapply Forall_impl; [exact Hunder|]. by intros im [_ ?].
    + by rewrite Hpaths.
Qed.

Lemma complete_batch_reconciles_witness :
  ("/d" = strip_input_path (input_path example_config)
   ∧ Forall2 (λ t m, manifest_of after_inference t = Some m) example_tasks
       (split_list_into_n_chunks seven_images 2)
   ∧ Forall2 (λ t r, results_of after_inference t = Some r) example_tasks
       (example_results <$> [chunk0_records; chunk1_records])
   ∧ Forall2 (λ r m, im_file <$> (absolute_file "/d" <$> tr_images r) ≡ₚ m)
       (example_results <$> [chunk0_records; chunk1_records])
       (split_list_into_n_chunks seven_images 2)
   ∧ Forall (λ im, im_failure im ≠ Some None)
       (all_records (example_results <$> [chunk0_records; chunk1_records]))
   ∧ Forall (under_root "/d") (concat (split_list_into_n_chunks seven_images 2))
   ∧ NoDup (concat (split_list_into_n_chunks seven_images 2))
   ∧ length seven_images = length (concat (split_list_into_n_chunks seven_images 2))
   ∧ metadata_consistent (example_results <$> [chunk0_records; chunk1_records])
   ∧ (Z.of_nat (length (filter has_failure
                          (all_records (example_results
                                          <$> [chunk0_records; chunk1_records]))))
      < max_tolerable_failed_images example_config)%Z)
  ∧ im_file <$> tr_images
      (combined_results_of "/d"
         (example_results <$> [chunk0_records; chunk1_records]))
    ≡ₚ Py.drop (String.length (root_prefix "/d"))
         <$> concat (split_list_into_n_chunks seven_images 2)
  ∧ NoDup (im_file <$> tr_images
             (combined_results_of "/d"
                (example_results <$> [chunk0_records; chunk1_records]))).
Proof.
  assert ("/d" = strip_input_path (input_path example_config)) as H0
    by reflexivity.
  assert (Forall2 (λ t m, manifest_of after_inference t = Some m) example_tasks
            (split_list_into_n_chunks seven_images 2)) as H1
    by (repeat constructor).
  assert (Forall2 (λ t r, results_of after_inference t = Some r) example_tasks
            (example_results <$> [chunk0_records; chunk1_records])) as H2
    by (repeat constructor).
  assert (Forall2 (λ r m, im_file <$> (absolute_file "/d" <$> tr_images r) ≡ₚ m)
            (example_results <$> [chunk0_records; chunk1_records])
            (split_list_into_n_chunks seven_images 2)) as H3
    by (repeat constructor).
  assert (Forall (λ im, im_failure im ≠ Some None)
            (all_records (example_results <$> [chunk0_records; chunk1_records])))
    as H4 by (repeat constructor; discriminate).
  assert (Forall (under_root "/d")
            (concat (split_list_into_n_chunks seven_images 2))) as H5
    by (repeat constructor).
  assert (NoDup (concat (split_list_into_n_chunks seven_images 2))) as H6
    by (apply (bool_decide_unpack _); vm_compute; exact I).
  assert (length seven_images
          = length (concat (split_list_into_n_chunks seven_images 2))) as H7
    by reflexivity.
  assert (metadata_consistent
            (example_results <$> [chunk0_records; chunk1_records])) as H8.
  { eexists _, _. split; [done|]. split; [done|].
    repeat constructor. by eexists. }
  assert (Z.of_nat (length (filter has_failure
                              (all_records (example_results
                                              <$> [chunk0_records; chunk1_records]))))
          < max_tolerable_failed_images example_config)%Z as H9
    by (vm_compute; reflexivity).
  destruct (complete_batch_reconciles example_config "/d" seven_images
              example_tasks _ _ after_inference H0 H1 H2 H3 H4 H5 H6 H7 H8 H9)
    as (_ & R2 & R3).
  exact (conj (conj H0 (conj H1 (conj H2 (conj H3 (conj H4 (conj H5 (conj H6
           (conj H7 (conj H8 H9))))))))) (conj R2 R3)).
Defined.

(** ** Names of the files of the job folder *)

Lemma app_inj_l (p s t : string) : p +:+ s = p +:+ t → s = t.
Proof.
  induction p as [|c p IH]; [by rewrite !app_empty_l|].
  rewrite !app_cons. intros [= H]. by apply IH.
Qed.

Lemma digits_then_inj d1 d2 c1 c2 r1 r2 :
  digits_only d1 = true → digits_only d2 = true →
  is_digit c1 = false → is_digit c2 = false →
  d1 +:+ String c1 r1 = d2 +:+ String c2 r2 → d1 = d2.
Proof.
  revert d2. induction d1 as [|a d1 IH]; intros [|b d2] H1 H2 Hc1 Hc2.
  - done.
  - rewrite app_empty_l, app_cons. intros [= -> _].
    simpl in H2. apply andb_prop in H2 as [H2 _]. congruence.
  - rewrite app_empty_l, app_cons. intros [= -> _].
    simpl in H1. apply andb_prop in H1 as [H1 _]. congruence.
  - rewrite !app_cons. intros [= -> H].
    simpl in H1, H2. apply andb_prop in H1 as [_ H1].
    apply andb_prop in H2 as [_ H2]. f_equal. by apply (IH d2).
Qed.

Lemma digits_only_zfill width n : digits_only (Py.zfill width (Py.str n)) = true.
Proof.
  unfold Py.zfill. apply digits_only_app; [apply digits_only_zeros|].
  apply digits_only_uint.
Qed.

Lemma zfill_inj width i j :
  Py.zfill width (Py.str i) = Py.zfill width (Py.str j) → i = j.
Proof.
  intros H. pose proof (parse_zfill width i) as Hi.
  rewrite H, parse_zfill in Hi. congruence.
Qed.

Lemma chunk_script_unfold cfg kind i :
  Py.startswith kind "/" = false → kind ≠ "" →
  chunk_script cfg kind i
  = Py.join (filename_base cfg) ""
    +:+ kind +:+ "_chunk_" +:+ Py.zfill 3 (Py.str i) +:+ "_gpu_"
    +:+ Py.zfill 2 (Py.str (gpu_number_of cfg i)) +:+ script_extension.
Proof.
  intros Hk Hne. unfold chunk_script. apply join_relative.
  destruct kind as [|c kind]; [done|].
  rewrite app_cons. unfold Py.startswith in *.
  rewrite prefix_cons, prefix_empty in Hk. by rewrite prefix_cons, prefix_empty.
Qed.

Lemma chunk_script_inj cfg kind i j :
  Py.startswith kind "/" = false → kind ≠ "" →
  chunk_script cfg kind i = chunk_script cfg kind j → i = j.
Proof.
  intros Hk Hne. rewrite !chunk_script_unfold by done.
  intros H. apply app_inj_l, app_inj_l in H.
  change ("_chunk_" +:+ ?x) with (String "_" (String "c" (String "h"
    (String "u" (String "n" (String "k" (String "_" x))))))) in H.
  injection H as H.
  change ("_gpu_" +:+ ?x) with (String "_" ("gpu_" +:+ x)) in H.
  apply digits_then_inj in H; try done; try apply digits_only_zfill.
  by apply zfill_inj in H.
Qed.

Lemma run_not_resume cfg i j :
  chunk_script cfg "run" i ≠ chunk_script cfg "resume" j.
Proof.
  rewrite !chunk_script_unfold by done. intros H. apply app_inj_l in H.
  discriminate H.
Qed.

Lemma gpu_script_unfold cfg k :
  gpu_script cfg k
  = Py.join (filename_base cfg) ""
    +:+ "run_all_for_gpu_" +:+ Py.zfill 2 (Py.str k) +:+ script_extension.
Proof. unfold gpu_script. by apply join_relative. Qed.

Lemma gpu_script_inj cfg k1 k2 : gpu_script cfg k1 = gpu_script cfg k2 → k1 = k2.
Proof.
  rewrite !gpu_script_unfold. intros H.
  apply app_inj_l, app_inj_l, app_inj_r in H. by apply zfill_inj in H.
Qed.

Lemma gpu_script_not_chunk_script cfg k kind i :
  kind = "run" ∨ kind = "resume" →
  gpu_script cfg k ≠ chunk_script cfg kind i.
Proof.
  intros [-> | ->]; rewrite gpu_script_unfold, chunk_script_unfold by done;
    intros H; apply app_inj_l in H; discriminate H.
Qed.

Lemma chunk_file_unfold base i :
  Py.join base (chunk_name i)
  = Py.join base "" +:+ "chunk" +:+ Py.zfill 3 (Py.str i) +:+ ".json".
Proof. by apply join_relative. Qed.

Lemma chunk_file_not_script cfg i kind j :
  kind = "run" ∨ kind = "resume" →
  Py.join (filename_base cfg) (chunk_name i) ≠ chunk_script cfg kind j.
Proof.
  intros [-> | ->]; rewrite chunk_file_unfold, chunk_script_unfold by done;
    intros H; apply app_inj_l in H; discriminate H.
Qed.

Lemma chunk_file_not_gpu_script cfg i k :
  Py.join (filename_base cfg) (chunk_name i) ≠ gpu_script cfg k.
Proof.
  rewrite chunk_file_unfold, gpu_script_unfold.
  intros H; apply app_inj_l in H; discriminate H.
Qed.

(** ** The scripts of the tasks, file by file *)

Lemma gpu_to_scripts_after_S cfg n :
  gpu_to_scripts_after cfg (S n)
  = gpu_append (gpu_to_scripts_after cfg n) (gpu_number_of cfg n)
      (chunk_script cfg "run" n).
Proof. unfold gpu_to_scripts_after. by rewrite seq_S, foldl_app. Qed.

Lemma generate_tasks_exact cfg tasks w :
  ∃ w',
    foldM (generate_task cfg) (enumerate tasks) ([], []) w
    = (w', inr (imap (generated_task cfg) tasks,
                gpu_to_scripts_after cfg (length tasks)))
    ∧ stdout w' = stdout w
    ∧ (∀ i t, tasks !! i = Some t →
         files w' !! chunk_script cfg "run" i
         = Some (script_file (task_command cfg i (input_file t)))
         ∧ (is_Some (checkpoint_frequency cfg) →
            files w' !! chunk_script cfg "resume" i
            = Some (script_file (task_command cfg i (input_file t)
                                 +:+ resume_string (input_file t)))))
    ∧ (∀ p, (∀ i, i < length tasks →
               p ≠ chunk_script cfg "run" i ∧ p ≠ chunk_script cfg "resume" i) →
            files w' !! p = files w !! p).
Proof.
  induction tasks as [|t0 tasks IH] using rev_ind.
  - exists w. repeat split; try done; intros; simpl in *; done.
  - destruct IH as (w1 & Hrun & Hout & Hscripts & Hother).
    rewrite enumerate_snoc, foldM_snoc, Hrun, generate_task_spec.
    eexists. split.
    { rewrite imap_app, length_app. simpl.
      rewrite Nat.add_0_r, Nat.add_1_r, gpu_to_scripts_after_S. done. }
    simpl. split; [done|]. split.
    + intros i t Hi.
      destruct (decide (i = length tasks)) as [->|Hne].
      * rewrite list_lookup_middle in Hi by done. injection Hi as <-.
        destruct (checkpoint_frequency cfg) as [f|]; simpl.
        -- rewrite lookup_insert_ne by (apply not_eq_sym, run_not_resume).
           rewrite !lookup_insert_eq. by split.
        -- rewrite lookup_insert_eq. split; [done|]. by intros [? [=]].
      * assert (i < length tasks) as Hlt.
        { apply lookup_lt_Some in Hi. rewrite length_app in Hi. simpl in Hi. lia. }
        rewrite lookup_app_l in Hi by done.
        destruct (Hscripts i t Hi) as [H1 H2].
        assert (chunk_script cfg "run" (length tasks) ≠ chunk_script cfg "run" i)
          as Hrr by (intros H; by apply chunk_script_inj in H).
        assert (chunk_script cfg "resume" (length tasks)
                ≠ chunk_script cfg "resume" i)
          as Hss by (intros H; by apply chunk_script_inj in H).
        destruct (checkpoint_frequency cfg) as [f|]; simpl.
        -- rewrite lookup_insert_ne by (apply not_eq_sym, run_not_resume).
           rewrite lookup_insert_ne by done. split; [done|]. intros _.
           rewrite lookup_insert_ne by done.
           rewrite lookup_insert_ne by apply run_not_resume. by apply H2.
        -- rewrite lookup_insert_ne by done. split; [done|]. by intros [? [=]].
    + intros p Hp.
      assert (files w1 !! p = files w !! p) as <-.
      { apply Hother. intros i Hi. apply Hp. rewrite length_app. simpl. lia. }
      destruct (Hp (length tasks)) as [Hp1 Hp2];
        [rewrite length_app; simpl; lia|].
      destruct (checkpoint_frequency cfg) as [f|]; simpl.
      * rewrite lookup_insert_ne by done. by rewrite lookup_insert_ne.
      * by rewrite lookup_insert_ne.
Qed.

(** ** The scripts of each GPU *)

Lemma scripts_for_append g k x k' :
  scripts_for (gpu_append g k x) k'
  = if decide (k' = k) then scripts_for g k ++ [x] else scripts_for g k'.
Proof.
  induction g as [|[k0 fs] g IH]; simpl.
  - destruct (decide (k = k')), (decide (k' = k)); congruence.
  - destruct (decide (k0 = k)) as [->|Hne]; simpl.
    + destruct (decide (k = k')), (decide (k' = k)); try congruence;
        try by rewrite decide_True.
    + rewrite IH. destruct (decide (k0 = k')) as [->|Hne']; [|done].
      by rewrite decide_False.
Qed.

Lemma gpu_append_keys g k x :
  (gpu_append g k x).*1 = if decide (k ∈ g.*1) then g.*1 else g.*1 ++ [k].
Proof.
  induction g as [|[k0 fs] g IH].
  - rewrite decide_False; [done|]. apply not_elem_of_nil.
  - cbn [gpu_append]. rewrite !fmap_cons. cbn [fst].
    destruct (decide (k0 = k)) as [->|Hne].
    + rewrite decide_True; [done|]. apply list_elem_of_here.
    + rewrite fmap_cons, IH. cbn [fst].
      destruct (decide (k ∈ g.*1)) as [Hin|Hnin].
      * rewrite decide_True; [done|]. by apply list_elem_of_further.
      * rewrite decide_False; [done|].
        intros Hin. apply elem_of_cons in Hin as [?|?]; congruence.
Qed.

Lemma gpu_append_NoDup g k x : NoDup g.*1 → NoDup (gpu_append g k x).*1.
Proof.
  intros H. rewrite gpu_append_keys. case_decide; [done|].
  apply NoDup_app. split; [done|]. split.
  - intros y Hy Hy'. apply list_elem_of_singleton in Hy'. by subst.
  - apply NoDup_singleton.
Qed.

Lemma scripts_for_elem g k fs :
  NoDup g.*1 → (k, fs) ∈ g → scripts_for g k = fs.
Proof.
  induction g as [|[k0 fs0] g IH]; intros Hnd Hin.
  - by apply elem_of_nil in Hin.
  - simpl in *. apply NoDup_cons in Hnd as [Hk0 Hnd].
    apply elem_of_cons in Hin as [[= -> ->]|Hin].
    + by rewrite decide_True.
    + rewrite decide_False; [by apply IH|].
      intros ->. apply Hk0. apply list_elem_of_fmap. by exists (k, fs).
Qed.

Lemma tasks_of_gpu_S cfg n k :
  tasks_of_gpu cfg (S n) k
  = tasks_of_gpu cfg n k ++ (if decide (gpu_number_of cfg n = k) then [n] else []).
Proof.
  unfold tasks_of_gpu. rewrite seq_S, filter_app. by f_equal.
Qed.

Lemma tasks_of_gpu_elem cfg n k i :
  i ∈ tasks_of_gpu cfg n k ↔ i < n ∧ gpu_number_of cfg i = k.
Proof.
  unfold tasks_of_gpu. rewrite list_elem_of_filter, elem_of_seq. intuition lia.
Qed.

Lemma gpu_to_scripts_after_spec cfg n :
  NoDup (gpu_to_scripts_after cfg n).*1
  ∧ (∀ k, k ∈ (gpu_to_scripts_after cfg n).*1
          ↔ ∃ i, i < n ∧ gpu_number_of cfg i = k)
  ∧ (∀ k, scripts_for (gpu_to_scripts_after cfg n) k
          = chunk_script cfg "run" <$> tasks_of_gpu cfg n k).
Proof.
  induction n as [|n (Hnd & Hkeys & Hfor)].
  - split; [constructor|]. split; [|done].
    intros k. split; [by intros ?%elem_of_nil|]. intros (i & Hi & _). lia.
  - rewrite gpu_to_scripts_after_S. split; [by apply gpu_append_NoDup|]. split.
    + intros k. rewrite gpu_append_keys. split.
      * intros Hin.
        assert (k ∈ (gpu_to_scripts_after cfg n).*1 ∨ k = gpu_number_of cfg n)
          as [Hk| ->].
        { case_decide; [by left|].
          apply elem_of_app in Hin as [?|Hin]; [by left|].
          apply list_elem_of_singleton in Hin. by right. }
        -- apply Hkeys in Hk as (i & Hi & Hg). exists i. split; [lia|done].
        -- exists n. split; [lia|done].
      * intros (i & Hi & Hg).
        destruct (decide (i = n)) as [->|Hne].
        -- subst k. case_decide; [done|]. apply elem_of_app. right.
           apply list_elem_of_singleton. done.
        -- assert (k ∈ (gpu_to_scripts_after cfg n).*1) as Hk.
           { apply Hkeys. exists i. split; [lia|done]. }
           case_decide; [done|]. apply elem_of_app. by left.
    + intros k. rewrite scripts_for_append, tasks_of_gpu_S, fmap_app.
      destruct (decide (k = gpu_number_of cfg n)) as [->|Hne].
      * rewrite decide_True by done. by rewrite Hfor.
      * rewrite decide_False by done. simpl. by rewrite app_nil_r, Hfor.
Qed.

Lemma write_gpu_script_spec cfg k fs w :
  write_gpu_script cfg tt (k, fs) w
  = (World (<[gpu_script cfg k := File (Text (gpu_script_text k fs)) true]>
              (files w)) (stdout w),
     inr tt).
Proof.
  unfold write_gpu_script, bind, write_file, chmod_exec. simpl.
  fold (gpu_script cfg k). rewrite lookup_insert_eq. simpl.
  by rewrite insert_insert_eq.
Qed.

Lemma write_gpu_scripts_exact cfg g w :
  NoDup g.*1 →
  ∃ w',
    foldM (write_gpu_script cfg) g tt w = (w', inr tt)
    ∧ stdout w' = stdout w
    ∧ (∀ k fs, (k, fs) ∈ g →
         files w' !! gpu_script cfg k
         = Some (File (Text (gpu_script_text k fs)) true))
    ∧ (∀ p, (∀ k, k ∈ g.*1 → p ≠ gpu_script cfg k) →
            files w' !! p = files w !! p).
Proof.
  revert w. induction g as [|[k fs] g IH]; intros w Hnd.
  - exists w. repeat split; try done. by intros k fs ?%elem_of_nil.
  - simpl in Hnd. apply NoDup_cons in Hnd as [Hk Hnd].
    cbn [foldM]. unfold bind at 1. rewrite write_gpu_script_spec.
    destruct (IH (World (<[gpu_script cfg k :=
                             File (Text (gpu_script_text k fs)) true]> (files w))
                    (stdout w)) Hnd)
      as (w' & Hrun & Hout & Hin & Hother).
    exists w'. split; [done|]. split; [done|]. split.
    + intros k' fs' Hel. apply elem_of_cons in Hel as [[= -> ->]|Hel].
      * rewrite Hother; [cbn [files]; by rewrite lookup_insert_eq|].
        intros k' Hk' Heq. apply gpu_script_inj in Heq. by subst.
      * by apply Hin.
    + intros p Hp. rewrite Hother.
      * cbn [files]. rewrite lookup_insert_ne; [done|].
        apply not_eq_sym, Hp. simpl. apply list_elem_of_here.
      * intros k' Hk'. apply Hp. simpl. by apply list_elem_of_further.
Qed.

Lemma scripts_for_in g k : k ∈ g.*1 → (k, scripts_for g k) ∈ g.
Proof.
  induction g as [|[k0 fs] g IH]; simpl; intros Hin.
  - by apply elem_of_nil in Hin.
  - destruct (decide (k0 = k)) as [->|Hne]; [apply list_elem_of_here|].
    apply list_elem_of_further, IH.
    apply elem_of_cons in Hin as [?|?]; [congruence|done].
Qed.

(** The cell [Generate commands], file by file. *)
Lemma generate_commands_exact cfg tasks w :
  ∃ w',
    generate_commands cfg tasks w = (w', inr (imap (generated_task cfg) tasks))
    ∧ stdout w' = stdout w
    ∧ (∀ i t, tasks !! i = Some t →
         files w' !! chunk_script cfg "run" i
         = Some (script_file (task_command cfg i (input_file t)))
         ∧ (is_Some (checkpoint_frequency cfg) →
            files w' !! chunk_script cfg "resume" i
            = Some (script_file (task_command cfg i (input_file t)
                                 +:+ resume_string (input_file t))))
         ∧ files w' !! gpu_script cfg (gpu_number_of cfg i)
           = Some (File (Text (gpu_script_text (gpu_number_of cfg i)
                                 (chunk_script cfg "run"
                                    <$> tasks_of_gpu cfg (length tasks)
                                          (gpu_number_of cfg i)))) true))
    ∧ (∀ p, (∀ i, i < length tasks →
               p ≠ chunk_script cfg "run" i ∧ p ≠ chunk_script cfg "resume" i
               ∧ p ≠ gpu_script cfg (gpu_number_of cfg i)) →
            files w' !! p = files w !! p).
Proof.
  destruct (generate_tasks_exact cfg tasks w)
    as (w1 & Hrun & Hout & Hscripts & Hother).
  destruct (gpu_to_scripts_after_spec cfg (length tasks)) as (Hnd & Hkeys & Hfor).
  destruct (write_gpu_scripts_exact cfg (gpu_to_scripts_after cfg (length tasks))
              w1 Hnd) as (w' & Hrun' & Hout' & Hin' & Hother').
  exists w'. unfold generate_commands. unfold bind at 1. rewrite Hrun.
  unfold bind at 1. simpl. rewrite Hrun'. unfold ret. simpl.
  split; [done|]. split; [congruence|]. split.
  - intros i t Hi. destruct (Hscripts i t Hi) as [H1 H2].
    pose proof (lookup_lt_Some _ _ _ Hi) as Hlt.
    split; [|split].
    + rewrite Hother'; [done|]. intros k _.
      apply not_eq_sym, gpu_script_not_chunk_script. by left.
    + intros Hc. rewrite Hother'; [by apply H2|]. intros k _.
      apply not_eq_sym, gpu_script_not_chunk_script. by right.
    + rewrite <- Hfor. apply Hin', scripts_for_in, Hkeys. by exists i.
  - intros p Hp. rewrite Hother'.
    + apply Hother. intros i Hi. destruct (Hp i Hi) as (? & ? & ?). by split.
    + intros k Hk. apply Hkeys in Hk as (i & Hi & <-).
      by destruct (Hp i Hi) as (? & ? & ?).
Qed.

Lemma StronglySorted_lt_seq j n : StronglySorted lt (seq j n).
Proof.
  revert j. induction n as [|n IH]; intros j; simpl; constructor; [apply IH|].
  apply Forall_seq. intros i Hi. lia.
Qed.

Lemma tasks_of_gpu_sorted cfg n k : StronglySorted lt (tasks_of_gpu cfg n k).
Proof. apply StronglySorted_filter, StronglySorted_lt_seq. Qed.

(** X5. The script of a task.  After the cell [Generate commands], the task
    at index [i] records its output file, its command and the path of its
    script; the file at that path holds the header, an empty line, exactly
    that command and a newline, and is executable.  With a checkpoint
    frequency the same holds of the resume command and its script.  The
    scripts of two different tasks are different files, and no resume script
    is a run script. *)
Theorem task_script_holds_its_command cfg tasks w i t :
  tasks !! i = Some t →
  ∃ w' tasks' t',
    generate_commands cfg tasks w = (w', inr tasks')
    ∧ length tasks' = length tasks
    ∧ tasks' !! i = Some t'
    ∧ t_id t' = t_id t
    ∧ input_file t' = input_file t
    ∧ output_file t' = Some (output_fn_of (input_file t))
    ∧ command t' = Some (task_command cfg i (input_file t))
    ∧ command_file t' = Some (chunk_script cfg "run" i)
    ∧ files w' !! chunk_script cfg "run" i
      = Some (File (Text (script_header +:+ nl
                          +:+ task_command cfg i (input_file t) +:+ nl)) true)
    ∧ (is_Some (checkpoint_frequency cfg) →
       resume_command t'
       = Some (task_command cfg i (input_file t)
               +:+ resume_string (input_file t))
       ∧ resume_command_file t' = Some (chunk_script cfg "resume" i)
       ∧ files w' !! chunk_script cfg "resume" i
         = Some (File (Text (script_header +:+ nl
                             +:+ (task_command cfg i (input_file t)
                                  +:+ resume_string (input_file t))
                             +:+ nl)) true))
    ∧ (∀ j, j ≠ i →
         chunk_script cfg "run" j ≠ chunk_script cfg "run" i
         ∧ chunk_script cfg "resume" j ≠ chunk_script cfg "resume" i)
    ∧ (∀ j, chunk_script cfg "resume" j ≠ chunk_script cfg "run" i).
Proof.
  intros Hi.
  destruct (generate_commands_exact cfg tasks w) as (w' & Hrun & _ & Hfiles & _).
  destruct (Hfiles i t Hi) as (H1 & H2 & _).
  exists w', (imap (generated_task cfg) tasks), (generated_task cfg i t).
  split; [done|]. split; [by rewrite length_imap|].
  split; [by rewrite list_lookup_imap, Hi|].
  do 5 (split; [done|]). split; [done|]. split.
  - intros Hc. split; [|split].
    + unfold generated_task. simpl. by destruct Hc as [f ->].
    + unfold generated_task. simpl. by destruct Hc as [f ->].
    + by apply H2.
  - split.
    + intros j Hj. split; intros H; by apply chunk_script_inj in H.
    + intros j H. by apply (run_not_resume cfg i j).
Qed.

Lemma task_script_holds_its_command_witness :
  [manifest_task "/out/job" 0; manifest_task "/out/job" 1] !! 1
  = Some (manifest_task "/out/job" 1)
  ∧ ∃ w' tasks' t',
      generate_commands example_config
        [manifest_task "/out/job" 0; manifest_task "/out/job" 1] (World ∅ [])
      = (w', inr tasks')
      ∧ tasks' !! 1 = Some t'
      ∧ command_file t' = Some (chunk_script example_config "run" 1)
      ∧ files w' !! chunk_script example_config "run" 1
        = Some (File (Text (script_header +:+ nl
                            +:+ task_command example_config 1
                                  (input_file (manifest_task "/out/job" 1))
                            +:+ nl)) true).
Proof.
  split; [reflexivity|].
  destruct (task_script_holds_its_command example_config
              [manifest_task "/out/job" 0; manifest_task "/out/job" 1]
              (World ∅ []) 1 (manifest_task "/out/job" 1) eq_refl)
    as (w' & tasks' & t' & H1 & _ & H3 & _ & _ & _ & _ & H8 & H9 & _).
  exists w', tasks', t'. exact (conj H1 (conj H3 (conj H8 H9))).
Defined.

(** X6. The scripts of the GPUs.  After the cell [Generate commands], the
    script [run_all_for_gpu_NN] of the GPU of a task is executable and holds
    the header, then the run scripts of the tasks assigned to that GPU and
    no other, each once, in task order, then the closing [echo].  A GPU
    with no task gets no script: its path is left as it was. *)
Theorem gpu_scripts_list_their_tasks cfg tasks w :
  ∃ w' tasks',
    generate_commands cfg tasks w = (w', inr tasks')
    ∧ (∀ i, i < length tasks →
         files w' !! gpu_script cfg (gpu_number_of cfg i)
         = Some (File (Text (gpu_script_text (gpu_number_of cfg i)
                               (chunk_script cfg "run"
                                  <$> tasks_of_gpu cfg (length tasks)
                                        (gpu_number_of cfg i)))) true))
    ∧ (∀ k i, chunk_script cfg "run" i
              ∈ chunk_script cfg "run" <$> tasks_of_gpu cfg (length tasks) k
              ↔ i < length tasks ∧ gpu_number_of cfg i = k)
    ∧ (∀ k, StronglySorted lt (tasks_of_gpu cfg (length tasks) k)
            ∧ NoDup (chunk_script cfg "run"
                       <$> tasks_of_gpu cfg (length tasks) k))
    ∧ (∀ k, (∀ i, i < length tasks → gpu_number_of cfg i ≠ k) →
            files w' !! gpu_script cfg k = files w !! gpu_script cfg k).
Proof.
  destruct (generate_commands_exact cfg tasks w)
    as (w' & Hrun & _ & Hfiles & Hother).
  exists w', (imap (generated_task cfg) tasks). split; [done|]. split; [|split; [|split]].
  - intros i Hi. destruct (lookup_lt_is_Some_2 tasks i Hi) as [t Ht].
    by destruct (Hfiles i t Ht) as (_ & _ & H3).
  - intros k i. rewrite <- tasks_of_gpu_elem. split.
    + intros Hin. apply list_elem_of_fmap in Hin as (j & Heq & Hj).
      apply chunk_script_inj in Heq; [|done..]. by subst.
    + intros Hin. apply list_elem_of_fmap. by exists i.
  - intros k. split; [apply tasks_of_gpu_sorted|].
    apply NoDup_fmap_2.
    + intros a b H. by apply chunk_script_inj in H.
    + apply NoDup_filter, NoDup_seq.
  - intros k Hk. apply Hother. intros i Hi. split; [|split].
    + apply gpu_script_not_chunk_script. by left.
    + apply gpu_script_not_chunk_script. by right.
    + intros H. apply gpu_script_inj in H. by apply (Hk i).
Qed.

(** ** Round-robin assignment *)

Lemma mod_succ_cases n g :
  0 < g →
  (S n mod g = 0 ∧ n mod g = g - 1 ∧ S n / g = S (n / g))
  ∨ (S n mod g = S (n mod g) ∧ S n / g = n / g).
Proof.
  intros Hg.
  pose proof (Nat.div_mod_eq n g) as Hn.
  pose proof (Nat.mod_upper_bound n g ltac:(lia)) as Hlt.
  destruct (decide (n mod g = g - 1)) as [Heq|Hne].
  - left.
    assert (S n = g * S (n / g) + 0) as H by lia.
    pose proof (Nat.div_mod_unique g (S n / g) (S (n / g)) (S n mod g) 0) as Hu.
    pose proof (Nat.div_mod_eq (S n) g) as Hs.
    pose proof (Nat.mod_upper_bound (S n) g ltac:(lia)) as Hlt'.
    destruct Hu as [Hq Hr]; [lia|lia|lia|]. lia.
  - right.
    pose proof (Nat.div_mod_unique g (S n / g) (n / g) (S n mod g) (S (n mod g)))
      as Hu.
    pose proof (Nat.div_mod_eq (S n) g) as Hs.
    pose proof (Nat.mod_upper_bound (S n) g ltac:(lia)) as Hlt'.
    destruct Hu as [Hq Hr]; [lia|lia|lia|]. lia.
Qed.

Lemma tasks_of_gpu_count cfg n k :
  1 < n_gpus cfg → k < n_gpus cfg →
  length (tasks_of_gpu cfg n k)
  = n / n_gpus cfg + (if decide (k < n mod n_gpus cfg) then 1 else 0).
Proof.
  intros Hg Hk. induction n as [|n IH].
  - rewrite Nat.Div0.div_0_l, Nat.Div0.mod_0_l.
    by rewrite decide_False by lia.
  - rewrite tasks_of_gpu_S, length_app, IH.
    unfold gpu_number_of. apply Nat.ltb_lt in Hg as Hg'. rewrite Hg'.
    destruct (mod_succ_cases n (n_gpus cfg) ltac:(lia)) as [(H1 & H2 & H3)|(H1 & H2)];
      rewrite ?H1, ?H2, ?H3; repeat case_decide; simpl; lia.
Qed.

(** X7. Round-robin assignment.  With more than one GPU, task [i] runs on
    GPU [i mod n_gpus], a number below [n_gpus]; task [i + n_gpus] runs on
    the GPU of task [i]; of [n] tasks, GPU [k] gets [n / n_gpus] of them,
    and one more when [k < n mod n_gpus], so that the loads of two GPUs
    differ by one task at most. *)
Theorem gpus_assigned_round_robin cfg n k1 k2 :
  1 < n_gpus cfg → k1 < n_gpus cfg → k2 < n_gpus cfg →
  (∀ i, gpu_number_of cfg i < n_gpus cfg
        ∧ gpu_number_of cfg (i + n_gpus cfg) = gpu_number_of cfg i)
  ∧ length (tasks_of_gpu cfg n k1)
    = n / n_gpus cfg + (if decide (k1 < n mod n_gpus cfg) then 1 else 0)
  ∧ length (tasks_of_gpu cfg n k1) ≤ S (length (tasks_of_gpu cfg n k2)).
Proof.
  intros Hg Hk1 Hk2. split; [|split].
  - intros i. unfold gpu_number_of. apply Nat.ltb_lt in Hg as Hg'. rewrite Hg'.
    split; [apply Nat.mod_upper_bound; lia|].
    rewrite <- (Nat.mul_1_l (n_gpus cfg)) at 1.
    by rewrite Nat.Div0.mod_add.
  - by apply tasks_of_gpu_count.
  - rewrite !tasks_of_gpu_count by done. repeat case_decide; lia.
Qed.

Lemma gpus_assigned_round_robin_witness :
  (1 < n_gpus example_config ∧ 0 < n_gpus example_config
   ∧ 1 < n_gpus example_config)
  ∧ length (tasks_of_gpu example_config 7 0)
    = 7 / n_gpus example_config
      + (if decide (0 < 7 mod n_gpus example_config) then 1 else 0)
  ∧ length (tasks_of_gpu example_config 7 0)
    ≤ S (length (tasks_of_gpu example_config 7 1)).
Proof.
  assert (1 < n_gpus example_config) as H1 by (simpl; lia).
  assert (0 < n_gpus example_config) as H2 by (simpl; lia).
  destruct (gpus_assigned_round_robin example_config 7 0 1 H1 H2 H1)
    as (_ & R2 & R3).
  exact (conj (conj H1 (conj H2 H1)) (conj R2 R3)).
Defined.

(** ** Running the preparation again *)

Lemma write_file_fixed p d x w :
  files w !! p = Some (File d x) →
  write_file p d w = (w, inr tt).
Proof.
  intros H. unfold write_file. rewrite H. simpl.
  rewrite insert_id by done. by destruct w.
Qed.

Lemma write_script_fixed path body w :
  files w !! path = Some (script_file body) →
  write_script path body w = (w, inr tt).
Proof.
  intros H. rewrite write_script_spec.
  rewrite insert_id by done. by destruct w.
Qed.

Lemma write_file_lists_fixed filename_base chunks w :
  (∀ i chunk, chunks !! i = Some chunk →
     ∃ x, files w !! Py.join filename_base (chunk_name i)
          = Some (File (JsonList chunk) x)) →
  write_file_lists filename_base chunks w
  = (w, inr (manifest_task filename_base <$> seq 0 (length chunks))).
Proof.
  unfold write_file_lists.
  induction chunks as [|chunk chunks IH] using rev_ind; intros Hfiles.
  - done.
  - rewrite enumerate_snoc, foldM_snoc, IH; cycle 1.
    { intros i c Hi. apply Hfiles. by apply lookup_app_l_Some. }
    destruct (Hfiles (length chunks) chunk) as [x Hx].
    { by rewrite list_lookup_middle. }
    unfold bind, write_list_to_file. rewrite (write_file_fixed _ _ x) by done.
    unfold ret. by rewrite length_app, seq_app, fmap_app.
Qed.

Lemma generate_tasks_fixed cfg tasks w :
  (∀ i t, tasks !! i = Some t →
     files w !! chunk_script cfg "run" i
     = Some (script_file (task_command cfg i (input_file t)))
     ∧ (is_Some (checkpoint_frequency cfg) →
        files w !! chunk_script cfg "resume" i
        = Some (script_file (task_command cfg i (input_file t)
                             +:+ resume_string (input_file t))))) →
  foldM (generate_task cfg) (enumerate tasks) ([], []) w
  = (w, inr (imap (generated_task cfg) tasks,
             gpu_to_scripts_after cfg (length tasks))).
Proof.
  induction tasks as [|t0 tasks IH] using rev_ind; intros Hfiles.
  - done.
  - rewrite enumerate_snoc, foldM_snoc, IH; cycle 1.
    { intros i t Hi. apply Hfiles. by apply lookup_app_l_Some. }
    destruct (Hfiles (length tasks) t0) as [H1 H2].
    { by rewrite list_lookup_middle. }
    rewrite generate_task_spec.
    rewrite imap_app, length_app. simpl.
    rewrite Nat.add_0_r, Nat.add_1_r, gpu_to_scripts_after_S.
    f_equal. destruct w as [fs out]. simpl in *. f_equal.
    rewrite (insert_id fs (chunk_script cfg "run" (length tasks))) by done.
    destruct (checkpoint_frequency cfg) as [f|]; simpl; [|done].
    rewrite insert_id; [done|]. apply H2. by eexists.
Qed.

Lemma write_gpu_scripts_fixed cfg g w :
  (∀ k fs, (k, fs) ∈ g →
     files w !! gpu_script cfg k = Some (File (Text (gpu_script_text k fs)) true)) →
  foldM (write_gpu_script cfg) g tt w = (w, inr tt).
Proof.
  induction g as [|[k fs] g IH]; intros Hfiles; [done|].
  cbn [foldM]. unfold bind at 1. rewrite write_gpu_script_spec.
  rewrite insert_id by (apply Hfiles, list_elem_of_here).
  assert (World (files w) (stdout w) = w) as -> by (by destruct w).
  apply IH. intros k' fs' Hin. by apply Hfiles, list_elem_of_further.
Qed.

Lemma generate_commands_again cfg tasks w0 :
  ∃ w,
    generate_commands cfg tasks w0 = (w, inr (imap (generated_task cfg) tasks))
    ∧ ∀ w', files w' = files w →
        generate_commands cfg tasks w'
        = (w', inr (imap (generated_task cfg) tasks)).
Proof.
  destruct (generate_commands_exact cfg tasks w0) as (w & Hrun & _ & Hfiles & _).
  exists w. split; [done|]. intros w' Hw'.
  unfold generate_commands. unfold bind at 1.
  rewrite generate_tasks_fixed; cycle 1.
  { intros i t Hi. rewrite Hw'. destruct (Hfiles i t Hi) as (H1 & H2 & _).
    by split. }
  unfold bind at 1. cbn [snd fst].
  rewrite write_gpu_scripts_fixed; [done|].
  intros k fs Hin.
  destruct (gpu_to_scripts_after_spec cfg (length tasks)) as (Hnd & Hkeys & Hfor).
  assert (k ∈ (gpu_to_scripts_after cfg (length tasks)).*1) as Hk.
  { apply list_elem_of_fmap. by exists (k, fs). }
  apply Hkeys in Hk as (i & Hi & <-).
  destruct (lookup_lt_is_Some_2 tasks i Hi) as [t Ht].
  destruct (Hfiles i t Ht) as (_ & _ & H3).
  rewrite Hw', H3. rewrite <- Hfor.
  by rewrite (scripts_for_elem _ _ fs Hnd Hin).
Qed.

Lemma recovery_of_chunks listing found filename_base input_path chunks others
    all_images w :
  chunks ≠ [] →
  Sorted String.le all_images →
  concat chunks ≡ₚ all_images →
  (∀ i chunk, chunks !! i = Some chunk →
     ∃ x, files w !! Py.join filename_base (chunk_name i)
          = Some (File (JsonList chunk) x)) →
  listing ≡ₚ (chunk_name <$> seq 0 (length chunks)) ++ others →
  Forall (λ fn, pattern_match fn = false) others →
  ∃ w', enumerate_files listing found false filename_base input_path w
        = (w', inr all_images)
        ∧ files w' = files w.
Proof.
  intros Hne Hsorted Hperm Hfiles Hlisting Hothers.
  set (names := chunk_name <$> seq 0 (length chunks)) in *.
  assert (Forall (λ fn, pattern_match fn = true) names) as Hnames.
  { apply Forall_fmap, Forall_forall. intros i _. apply pattern_match_chunk_name. }
  pose proof (chunk_files_Permutation _ _ _ Hlisting Hnames Hothers) as Hcf.
  assert (filter (λ fn, pattern_match fn) listing ≠ []) as Hcf_ne.
  { intros E. rewrite E in Hcf. symmetry in Hcf.
    apply Permutation_nil_r in Hcf. unfold names in Hcf.
    apply fmap_nil_inv in Hcf. destruct chunks; [done|discriminate]. }
  destruct (enumerate_files_recovery listing found filename_base input_path w Hcf_ne)
    as (msg & ->).
  set (w0 := World (files w) (stdout w ++ [msg])).
  assert (files w0 = files w) as Hw0 by done.
  rewrite load_chunks_ok; cycle 1.
  { apply Forall_forall. intros fn Hfn. rewrite Hcf in Hfn.
    apply list_elem_of_fmap in Hfn as (i & -> & Hi).
    apply elem_of_seq in Hi as [_ Hi].
    destruct (lookup_lt_is_Some_2 chunks i ltac:(lia)) as [chunk Hc].
    destruct (Hfiles i chunk Hc) as [x Hx]. rewrite Hw0. eauto. }
  assert (Py.sorted ([] ++ concat (manifest_at filename_base w0
            <$> filter (λ fn, pattern_match fn) listing)) = all_images) as ->.
  { rewrite <- (sorted_of_Sorted all_images) by done.
    apply sorted_of_Permutation. rewrite <- Hperm. simpl.
    apply concat_Permutation.
    assert (manifest_at filename_base w0 = manifest_at filename_base w) as ->
      by done.
    rewrite Hcf. unfold names. by rewrite manifests_of_names. }
  by eexists.
Qed.

Lemma prepare_job_unfold cfg listing found w :
  validate_constants cfg w = (w, inr tt) →
  prepare_job cfg listing found w
  = match enumerate_files listing found (force_enumeration cfg)
            (filename_base cfg) (strip_input_path (input_path cfg))
            (World (files w)
               (stdout w ++ ["Output folder:" +:+ nl +:+ filename_base cfg])) with
    | (w1, inl e) => (w1, inl e)
    | (w1, inr all_images) =>
        match write_file_lists (filename_base cfg)
                (split_list_into_n_chunks all_images (n_jobs cfg)) w1 with
        | (w2, inl e) => (w2, inl e)
        | (w2, inr task_info) =>
            match generate_commands cfg task_info w2 with
            | (w3, inl e) => (w3, inl e)
            | (w3, inr task_info) => (w3, inr (all_images, task_info))
            end
        end
    end.
Proof.
  intros Hv. unfold prepare_job. unfold bind at 1. rewrite Hv.
  unfold bind at 1. unfold print at 1. cbn [fst snd].
  unfold bind at 1.
  destruct (enumerate_files _ _ _ _ _ _) as [w1 [e|all_images]]; [done|].
  unfold bind at 1.
  destruct (write_file_lists _ _ _) as [w2 [e|task_info]]; [done|].
  unfold bind at 1.
  by destruct (generate_commands _ _ _) as [w3 [e|task_info']].
Qed.

(** X8. Running the preparation again changes nothing.  A first run on a
    job folder without chunk files, over at least one image and for at
    least one job, writes the manifests and the scripts; a second run on
    the folder as the first one left it takes the recovery branch, whatever
    the input folder now holds, returns the same images and the same tasks,
    and leaves every file on disk as it was. *)
Theorem second_run_changes_nothing cfg listing found listing' found' others w :
  validate_constants cfg w = (w, inr tt) →
  force_enumeration cfg = false →
  0 < n_jobs cfg →
  enumerate_images found ≠ [] →
  Forall (λ fn, pattern_match fn = false) listing →
  listing'
  ≡ₚ (chunk_name
        <$> seq 0 (Nat.min (n_jobs cfg) (length (enumerate_images found))))
     ++ others →
  Forall (λ fn, pattern_match fn = false) others →
  ∃ w1 w2 tasks,
    prepare_job cfg listing found w
    = (w1, inr (enumerate_images found, tasks))
    ∧ prepare_job cfg listing' found' w1
      = (w2, inr (enumerate_images found, tasks))
    ∧ files w2 = files w1
    ∧ length tasks = Nat.min (n_jobs cfg) (length (enumerate_images found)).
Proof.
  intros Hv Hforce Hjobs Hne Hlisting Hlisting' Hothers.
  set (all_images := enumerate_images found) in *.
  set (chunks := split_list_into_n_chunks all_images (n_jobs cfg)).
  assert (length chunks = Nat.min (n_jobs cfg) (length all_images)) as Hlen
    by apply split_length.
  (* the first run *)
  rewrite (prepare_job_unfold cfg listing found w Hv).
  destruct (enumerate_files_fresh listing found (force_enumeration cfg)
              (filename_base cfg) (strip_input_path (input_path cfg))
              (World (files w)
                 (stdout w ++ ["Output folder:" +:+ nl +:+ filename_base cfg])))
    as (wa & -> & Hwa); [by right|].
  fold all_images. fold chunks.
  destruct (write_file_lists_spec (filename_base cfg) chunks wa)
    as (wb & -> & _ & Hchunks & _).
  destruct (generate_commands_again cfg
              (manifest_task (filename_base cfg) <$> seq 0 (length chunks)) wb)
    as (w1 & Hgen & Hagain).
  rewrite Hgen.
  destruct (generate_commands_exact cfg
              (manifest_task (filename_base cfg) <$> seq 0 (length chunks)) wb)
    as (w1' & Hgen' & _ & _ & Hother).
  rewrite Hgen in Hgen'. injection Hgen' as <-.
  assert (∀ i chunk, chunks !! i = Some chunk →
            ∃ x, files w1 !! Py.join (filename_base cfg) (chunk_name i)
                 = Some (File (JsonList chunk) x)) as Hchunks1.
  { intros i chunk Hi. destruct (Hchunks i chunk Hi) as [x Hx]. exists x.
    rewrite Hother; [done|]. intros j _. split; [|split].
    - apply chunk_file_not_script. by left.
    - apply chunk_file_not_script. by right.
    - apply chunk_file_not_gpu_script. }
  (* the second run *)
  assert (validate_constants cfg w1 = (w1, inr tt)) as Hv1.
  { apply validate_constants_accepts.
    by apply (validate_constants_accepts cfg w). }
  assert (∃ w2, prepare_job cfg listing' found' w1
                = (w2, inr (all_images,
                            imap (generated_task cfg)
                              (manifest_task (filename_base cfg)
                                 <$> seq 0 (length chunks))))
                ∧ files w2 = files w1) as (w2 & Hsecond & Hfiles2).
  { rewrite (prepare_job_unfold cfg listing' found' w1 Hv1). rewrite Hforce.
    destruct (recovery_of_chunks listing' found' (filename_base cfg)
                (strip_input_path (input_path cfg)) chunks others all_images
                (World (files w1)
                   (stdout w1 ++ ["Output folder:" +:+ nl +:+ filename_base cfg])))
      as (wc & -> & Hwc).
    { intros E. rewrite E in Hlen. simpl in Hlen.
      destruct all_images; [done|]. simpl in Hlen. lia. }
    { apply enumerate_images_Sorted. }
    { unfold chunks. by rewrite split_concat. }
    { done. }
    { by rewrite Hlen. }
    { done. }
    fold chunks.
    rewrite write_file_lists_fixed; cycle 1.
    { intros i chunk Hi. rewrite Hwc. simpl. by apply Hchunks1. }
    rewrite Hagain by (by rewrite Hwc).
    exists wc. split; [done|]. by rewrite Hwc. }
  exists w1, w2, (imap (generated_task cfg)
                    (manifest_task (filename_base cfg) <$> seq 0 (length chunks))).
  split; [done|]. split; [done|]. split; [done|].
  by rewrite length_imap, length_fmap, length_seq.
Qed.

Lemma second_run_changes_nothing_witness :
  (validate_constants example_config (World ∅ []) = (World ∅ [], inr tt)
   ∧ force_enumeration example_config = false
   ∧ 0 < n_jobs example_config
   ∧ enumerate_images seven_images ≠ []
   ∧ Forall (λ fn, pattern_match fn = false) ["notes.txt"]
   ∧ ["run_chunk_001_gpu_01.sh"; "chunk001.json"; "chunk000_results.json";
      "chunk000.json"]
     ≡ₚ (chunk_name
           <$> seq 0 (Nat.min (n_jobs example_config)
                        (length (enumerate_images seven_images))))
        ++ ["run_chunk_001_gpu_01.sh"; "chunk000_results.json"]
   ∧ Forall (λ fn, pattern_match fn = false)
       ["run_chunk_001_gpu_01.sh"; "chunk000_results.json"])
  ∧ ∃ w1 w2 tasks,
      prepare_job example_config ["notes.txt"] seven_images (World ∅ [])
      = (w1, inr (enumerate_images seven_images, tasks))
      ∧ prepare_job example_config
          ["run_chunk_001_gpu_01.sh"; "chunk001.json"; "chunk000_results.json";
           "chunk000.json"] [] w1
        = (w2, inr (enumerate_images seven_images, tasks))
      ∧ files w2 = files w1
      ∧ length tasks
        = Nat.min (n_jobs example_config) (length (enumerate_images seven_images)).
Proof.
  assert (validate_constants example_config (World ∅ []) = (World ∅ [], inr tt))
    as H1 by reflexivity.
  assert (force_enumeration example_config = false) as H2 by reflexivity.
  assert (0 < n_jobs example_config) as H3 by (simpl; lia).
  assert (enumerate_images seven_images ≠ []) as H4 by (vm_compute; discriminate).
  assert (Forall (λ fn, pattern_match fn = false) ["notes.txt"]) as H5
    by (repeat constructor).
  assert (["run_chunk_001_gpu_01.sh"; "chunk001.json"; "chunk000_results.json";
           "chunk000.json"]
          ≡ₚ (chunk_name
                <$> seq 0 (Nat.min (n_jobs example_config)
                             (length (enumerate_images seven_images))))
             ++ ["run_chunk_001_gpu_01.sh"; "chunk000_results.json"]) as H6
    by (apply (bool_decide_unpack _); vm_compute; exact I).
  assert (Forall (λ fn, pattern_match fn = false)
            ["run_chunk_001_gpu_01.sh"; "chunk000_results.json"]) as H7
    by (repeat constructor).
  exact (conj (conj H1 (conj H2 (conj H3 (conj H4 (conj H5 (conj H6 H7))))))
           (second_run_changes_nothing example_config ["notes.txt"] seven_images
              _ [] _ (World ∅ []) H1 H2 H3 H4 H5 H6 H7)).
Defined.

(** ** Replacement in a string *)

Lemma replace_from_0_cons old new c s :
  Py.replace_from 0 old new (String c s)
  = if String.prefix old (String c s)
    then new +:+ Py.replace_from (String.length old - 1) old new s
    else String c (Py.replace_from 0 old new s).
Proof. done. Qed.

Lemma prefix_before_char c old u b :
  has_char c old = false →
  String.prefix old (u +:+ String c b) = true → String.prefix old u = true.
Proof.
  revert u. induction old as [|o old IH]; intros u Hc H.
  - apply prefix_empty.
  - simpl in Hc. apply orb_false_elim in Hc as [Hoc Hc].
    destruct u as [|x u].
    + rewrite app_empty_l, prefix_cons in H.
      apply andb_prop in H as [H _]. by rewrite H in Hoc.
    + rewrite app_cons, prefix_cons in H. apply andb_prop in H as [H1 H2].
      rewrite prefix_cons, H1. simpl. by apply IH.
Qed.

Lemma contains_false_prefix s sub :
  Py.contains s sub = false → String.prefix sub s = false.
Proof.
  destruct s; simpl; intros H; by apply orb_false_elim in H as [H _].
Qed.

Lemma replace_from_skip_prefix old new a c b :
  Py.contains a old = false → has_char c old = false →
  Py.replace_from 0 old new (a +:+ String c b)
  = a +:+ Py.replace_from 0 old new (String c b).
Proof.
  intros Ha Hc. induction a as [|x a IH].
  - by rewrite !app_empty_l.
  - rewrite !app_cons, replace_from_0_cons.
    apply contains_cons_false in Ha as [Hp Ha].
    destruct (String.prefix old (String x (a +:+ String c b))) eqn:E.
    + rewrite <- app_cons in E. apply prefix_before_char in E; [|done].
      congruence.
    + by rewrite IH.
Qed.

Lemma replace_from_skip_chars o old new a b :
  has_char o a = false →
  Py.replace_from 0 (String o old) new (a +:+ b)
  = a +:+ Py.replace_from 0 (String o old) new b.
Proof.
  intros Ha. induction a as [|x a IH].
  - by rewrite !app_empty_l.
  - simpl in Ha. apply orb_false_elim in Ha as [Hx Ha].
    rewrite !app_cons, replace_from_0_cons, prefix_cons.
    assert (bool_decide (o = x) = false) as ->.
    { apply bool_decide_eq_false. apply bool_decide_eq_false in Hx. congruence. }
    simpl. by rewrite IH.
Qed.

Lemma contains_cons c s sub :
  Py.contains (String c s) sub
  = String.prefix sub (String c s) || Py.contains s sub.
Proof. done. Qed.

Lemma contains_snoc_char a old c :
  old ≠ "" → Py.contains a old = false → has_char c old = false →
  Py.contains (a +:+ String c "") old = false.
Proof.
  intros Hne Ha Hc. induction a as [|x a IH].
  - rewrite app_empty_l. destruct old as [|o old]; [done|].
    simpl in Hc. apply orb_false_elim in Hc as [Hoc _].
    rewrite contains_cons, prefix_cons, Hoc. done.
  - apply contains_cons_false in Ha as [Hp Ha].
    rewrite app_cons, contains_cons. apply orb_false_intro; [|by apply IH].
    destruct (String.prefix old (String x (a +:+ String c ""))) eqn:E; [|done].
    rewrite <- app_cons in E. apply prefix_before_char in E; [|done]. congruence.
Qed.

Lemma contains_join_folder base old :
  old ≠ "" → Py.contains base old = false → has_char "/" old = false →
  Py.contains (Py.join base "") old = false.
Proof.
  intros Hne Hb Hc. unfold Py.join.
  change (Py.startswith "" "/") with false. cbn match.
  destruct (decide (base = "")) as [->|_].
  - by destruct old.
  - destruct (Py.endswith base "/").
    + by rewrite app_empty_r.
    + change ("/" +:+ "") with (String "/" ""). by apply contains_snoc_char.
Qed.

Lemma has_char_app c s t :
  has_char c (s +:+ t) = has_char c s || has_char c t.
Proof.
  induction s as [|x s IH]; [by rewrite app_empty_l|].
  rewrite app_cons. simpl. by rewrite IH, orb_assoc.
Qed.

Lemma digits_no_char c ds :
  is_digit c = false → digits_only ds = true → has_char c ds = false.
Proof.
  intros Hc. induction ds as [|d ds IH]; [done|]. simpl.
  intros H. apply andb_prop in H as [Hd H]. rewrite IH by done.
  rewrite orb_false_r. apply bool_decide_eq_false. intros ->. congruence.
Qed.

Lemma replace_json_of_chunk_file base new i :
  Py.contains base ".json" = false →
  Py.replace ".json" new (Py.join base (chunk_name i))
  = Py.join base ""
    +:+ "chunk" +:+ Py.zfill 3 (Py.str i)
    +:+ Py.replace_from 0 ".json" new ".json".
Proof.
  intros Hb. rewrite chunk_file_unfold. unfold Py.replace.
  change ("chunk" +:+ ?x) with (String "c" ("hunk" +:+ x)).
  rewrite replace_from_skip_prefix;
    [|by apply contains_join_folder|done].
  f_equal.
  change (String "c" ("hunk" +:+ ?x)) with ("chunk" +:+ x).
  rewrite <- app_assoc_s.
  rewrite replace_from_skip_chars; [by rewrite app_assoc_s|].
  rewrite has_char_app. apply orb_false_intro; [done|].
  apply digits_no_char; [done|]. apply digits_only_zfill.
Qed.

Lemma after_digit_other ds c r :
  digits_only ds = true → is_digit c = false → c ≠ "j"%char →
  String.prefix "json" r = false →
  after_digit (ds +:+ String c r) = false.
Proof.
  intros Hds Hc Hj Hr. induction ds as [|d ds IH].
  - rewrite app_empty_l. simpl. rewrite Hr, Hc.
    by rewrite andb_false_r.
  - simpl in Hds. apply andb_prop in Hds as [Hd Hds].
    rewrite app_cons. cbn [after_digit]. rewrite IH by done.
    rewrite andb_false_r, orb_false_r.
    apply andb_false_intro2.
    destruct ds as [|d' ds].
    + rewrite app_empty_l, prefix_cons.
      apply andb_false_intro1, bool_decide_eq_false. congruence.
    + simpl in Hds. apply andb_prop in Hds as [Hd' _].
      rewrite app_cons, prefix_cons.
      apply andb_false_intro1, bool_decide_eq_false. intros <-. done.
Qed.

Lemma pattern_match_not_manifest i c r :
  is_digit c = false → c ≠ "j"%char → String.prefix "json" r = false →
  pattern_match ("chunk" +:+ Py.zfill 3 (Py.str i) +:+ String c r) = false.
Proof.
  intros Hc Hj Hr. unfold pattern_match.
  change (Py.drop 5 ("chunk" +:+ ?x)) with x.
  pose proof (digits_only_zfill 3 i) as Hz.
  destruct (Py.zfill 3 (Py.str i)) as [|d ds].
  - rewrite app_empty_l. lazy match beta. rewrite Hc. by rewrite andb_false_r.
  - simpl in Hz. apply andb_prop in Hz as [_ Hz].
    rewrite (app_cons d ds). lazy match beta. rewrite after_digit_other by done.
    by rewrite !andb_false_r.
Qed.

(** X9. The results and the checkpoints beside the manifests.  When the
    path of the job folder does not contain [.json], the output file of
    chunk [i] is [chunkNNN_results.json] and its checkpoint file
    [chunkNNN_checkpoint.json], both in the job folder.  Neither name
    matches the pattern of the chunk files, so the recovery branch of the
    enumeration never reads them as manifests; neither is the manifest of
    any chunk; and two chunks never share an output file. *)
Theorem results_beside_manifests base i :
  Py.contains base ".json" = false →
  output_fn_of (Py.join base (chunk_name i)) = Py.join base (results_name i)
  ∧ checkpoint_filename_of (Py.join base (chunk_name i))
    = Py.join base (checkpoint_name i)
  ∧ pattern_match (results_name i) = false
  ∧ pattern_match (checkpoint_name i) = false
  ∧ (∀ j, output_fn_of (Py.join base (chunk_name i))
          ≠ Py.join base (chunk_name j)
          ∧ checkpoint_filename_of (Py.join base (chunk_name i))
            ≠ Py.join base (chunk_name j)
          ∧ output_fn_of (Py.join base (chunk_name i))
            ≠ checkpoint_filename_of (Py.join base (chunk_name j)))
  ∧ (∀ j, output_fn_of (Py.join base (chunk_name i))
          = output_fn_of (Py.join base (chunk_name j)) → i = j).
Proof.
  intros Hb.
  assert (∀ k, output_fn_of (Py.join base (chunk_name k))
               = Py.join base ""
                 +:+ "chunk" +:+ Py.zfill 3 (Py.str k) +:+ "_results.json")
    as Hout.
  { intros k. unfold output_fn_of. by rewrite replace_json_of_chunk_file. }
  assert (∀ k, checkpoint_filename_of (Py.join base (chunk_name k))
               = Py.join base ""
                 +:+ "chunk" +:+ Py.zfill 3 (Py.str k) +:+ "_checkpoint.json")
    as Hcp.
  { intros k. unfold checkpoint_filename_of. by rewrite replace_json_of_chunk_file. }
  split; [|split; [|split; [|split; [|split]]]].
  - rewrite Hout. unfold results_name. symmetry. by apply join_relative.
  - rewrite Hcp. unfold checkpoint_name. symmetry. by apply join_relative.
  - by apply pattern_match_not_manifest.
  - by apply pattern_match_not_manifest.
  - intros j. rewrite Hout, !Hcp, chunk_file_unfold.
    split; [|split]; intros H; apply app_inj_l, app_inj_l in H;
      (apply digits_then_inj in H as Hz;
       [|apply digits_only_zfill|apply digits_only_zfill|done|done]);
      rewrite Hz in H; apply app_inj_l in H; discriminate H.
  - intros j. rewrite !Hout. intros H.
    apply app_inj_l, app_inj_l, app_inj_r in H. by apply zfill_inj in H.
Qed.

Lemma results_beside_manifests_witness :
  Py.contains "/out/job" ".json" = false
  ∧ output_fn_of (Py.join "/out/job" (chunk_name 7))
    = Py.join "/out/job" (results_name 7)
  ∧ checkpoint_filename_of (Py.join "/out/job" (chunk_name 7))
    = Py.join "/out/job" (checkpoint_name 7)
  ∧ pattern_match (results_name 7) = false
  ∧ pattern_match (checkpoint_name 7) = false.
Proof.
  assert (Py.contains "/out/job" ".json" = false) as H by reflexivity.
  destruct (results_beside_manifests "/out/job" 7 H) as (R1 & R2 & R3 & R4 & _).
  exact (conj H (conj R1 (conj R2 (conj R3 R4)))).
Defined.

(** ** Paths with backslashes *)

Lemma contains_char s c : Py.contains s (String c "") = has_char c s.
Proof.
  induction s as [|x s IH]; [done|].
  rewrite contains_cons, prefix_cons, prefix_empty, andb_true_r, IH. simpl.
  f_equal. apply bool_decide_ext. split; congruence.
Qed.

Lemma replace_char_unfold c d s :
  Py.replace (String c "") (String d "") s
  = match s with
    | "" => ""
    | String x s' =>
        String (if bool_decide (c = x) then d else x)
          (Py.replace (String c "") (String d "") s')
    end.
Proof.
  destruct s as [|x s]; [done|]. unfold Py.replace.
  rewrite replace_from_0_cons, prefix_cons, prefix_empty, andb_true_r.
  by destruct (bool_decide (c = x)).
Qed.

Lemma replace_char_removes c d s :
  c ≠ d → has_char c (Py.replace (String c "") (String d "") s) = false.
Proof.
  intros Hcd. induction s as [|x s IH]; [done|].
  rewrite replace_char_unfold. cbn [has_char]. rewrite IH, orb_false_r.
  apply bool_decide_eq_false. case_bool_decide; congruence.
Qed.

Lemma replace_char_absent c d s :
  has_char c s = false → Py.replace (String c "") (String d "") s = s.
Proof.
  induction s as [|x s IH]; [done|]. cbn [has_char]. intros H.
  apply orb_false_elim in H as [Hx H].
  rewrite replace_char_unfold, IH by done.
  apply bool_decide_eq_false in Hx.
  rewrite bool_decide_false; [done|congruence].
Qed.

Lemma replace_char_app c d s t :
  Py.replace (String c "") (String d "") (s +:+ t)
  = Py.replace (String c "") (String d "") s
    +:+ Py.replace (String c "") (String d "") t.
Proof.
  induction s as [|x s IH]; [by rewrite !app_empty_l|].
  rewrite app_cons, replace_char_unfold, IH.
  by rewrite (replace_char_unfold c d (String x s)), app_cons.
Qed.

Lemma replace_char_length c d s :
  String.length (Py.replace (String c "") (String d "") s) = String.length s.
Proof.
  induction s as [|x s IH]; [done|]. rewrite replace_char_unfold.
  cbn [String.length]. by rewrite IH.
Qed.

(** X10. A relative path goes through reconciliation unchanged.  A record
    whose path is relative (as tiled inference writes them) is joined to the
    input root by the validation pass, with backslashes turned into
    slashes; the loop that makes the paths relative then accepts it, for an
    ordinary root, and gives the record back with the relative path it came
    with, backslashes turned into slashes. *)
Theorem relative_record_round_trip ip im done w :
  ip ≠ "" → Py.endswith ip "/" = false → Py.endswith ip ":" = false →
  Py.contains ip "\" = false →
  Py.isabs (im_file im) = false →
  im_file (absolute_file ip im)
  = ip +:+ "/" +:+ Py.replace "\" "/" (im_file im)
  ∧ relative_image ip done (absolute_file ip im) w
    = (w, inr (done ++ [set_file im (Py.replace "\" "/" (im_file im))]))
  ∧ (Py.contains (im_file im) "\" = false →
     relative_image ip done (absolute_file ip im) w = (w, inr (done ++ [im]))).
Proof.
  intros Hne Hslash Hcolon Hbs Habs.
  assert (absolute_file ip im
          = set_file im (ip +:+ "/" +:+ Py.replace "\" "/" (im_file im))) as Hfile.
  { unfold absolute_file. rewrite Habs. cbn [negb].
    rewrite join_plain by done.
    rewrite !replace_char_app.
    rewrite (replace_char_absent _ _ ip) by (by rewrite <- contains_char).
    done. }
  assert (relative_image ip done (absolute_file ip im) w
          = (w, inr (done ++ [set_file im (Py.replace "\" "/" (im_file im))])))
    as Hrel.
  { rewrite Hfile. unfold relative_image. cbn [im_file set_file].
    assert (Py.contains (ip +:+ "/" +:+ Py.replace "\" "/" (im_file im)) "\"
            = false) as ->.
    { rewrite contains_char, !has_char_app, replace_char_removes by done.
      rewrite <- contains_char, Hbs. done. }
    assert (Py.startswith (ip +:+ "/" +:+ Py.replace "\" "/" (im_file im)) ip
            = true) as -> by apply prefix_app.
    rewrite Hcolon. unfold bind, assert, ret. cbn [negb].
    rewrite <- app_assoc_s, replace_first_prefix by apply prefix_app.
    by rewrite drop_app, app_empty_l. }
  split; [by rewrite Hfile|]. split; [done|].
  intros Hno. rewrite Hrel.
  rewrite replace_char_absent by (by rewrite <- contains_char).
  by destruct im.
Qed.

Lemma relative_record_round_trip_witness :
  ("/d" ≠ "" ∧ Py.endswith "/d" "/" = false ∧ Py.endswith "/d" ":" = false
   ∧ Py.contains "/d" "\" = false
   ∧ Py.isabs (im_file (record "a\1.jpg")) = false)
  ∧ im_file (absolute_file "/d" (record "a\1.jpg"))
    = "/d" +:+ "/" +:+ Py.replace "\" "/" (im_file (record "a\1.jpg"))
  ∧ relative_image "/d" [] (absolute_file "/d" (record "a\1.jpg")) (World ∅ [])
    = (World ∅ [],
       inr ([] ++ [set_file (record "a\1.jpg")
                     (Py.replace "\" "/" (im_file (record "a\1.jpg")))])).
Proof.
  assert ("/d" ≠ "") as H1 by discriminate.
  assert (Py.endswith "/d" "/" = false) as H2 by reflexivity.
  assert (Py.endswith "/d" ":" = false) as H3 by reflexivity.
  assert (Py.contains "/d" "\" = false) as H4 by reflexivity.
  assert (Py.isabs (im_file (record "a\1.jpg")) = false) as H5 by reflexivity.
  destruct (relative_record_round_trip "/d" (record "a\1.jpg") [] (World ∅ [])
              H1 H2 H3 H4 H5) as (R1 & R2 & _).
  exact (conj (conj H1 (conj H2 (conj H3 (conj H4 H5)))) (conj R1 R2)).
Defined.

(** ** The input root *)

Lemma last_char_is_Some y s : is_Some (last_char (String y s)).
Proof.
  revert y. induction s as [|z s IH]; intros y; [by eexists|].
  change (last_char (String y (String z s))) with (last_char (String z s)).
  apply IH.
Qed.

Lemma rev_app_last_char s acc :
  String.rev_app s acc
  = match last_char s with
    | Some c => String c (String.rev_app (drop_last s) acc)
    | None => acc
    end.
Proof.
  revert acc. induction s as [|x s IH]; intros acc; [done|].
  destruct s as [|y s]; [done|].
  change (String.rev_app (String x (String y s)) acc)
    with (String.rev_app (String y s) (String x acc)).
  rewrite IH.
  change (last_char (String x (String y s))) with (last_char (String y s)).
  by destruct (last_char_is_Some y s) as [c ->].
Qed.

Lemma endswith_char s c :
  Py.endswith s (String c "") = bool_decide (last_char s = Some c).
Proof.
  unfold Py.endswith, String.rev.
  change (String.rev_app (String c "") "") with (String c "").
  rewrite rev_app_last_char.
  destruct (last_char s) as [x|].
  - rewrite prefix_cons, prefix_empty, andb_true_r.
    apply bool_decide_ext. split; congruence.
  - done.
Qed.

Lemma last_char_replace c d s :
  last_char (Py.replace (String c "") (String d "") s)
  = (λ x, if bool_decide (c = x) then d else x) <$> last_char s.
Proof.
  induction s as [|x s IH]; [done|].
  rewrite replace_char_unfold.
  destruct s as [|y s]; [done|].
  change (last_char (String x (String y s))) with (last_char (String y s)).
  rewrite <- IH. by rewrite (replace_char_unfold c d (String y s)).
Qed.

Lemma strip_input_path_last p :
  last_char p ≠ Some "/"%char → strip_input_path p = p.
Proof.
  intros H. unfold strip_input_path. rewrite endswith_char.
  by rewrite bool_decide_false.
Qed.

(** X11. The input root after the cell of the constants.  The root the
    cell accepts ends neither with a slash nor with a backslash; once its
    backslashes are replaced it has the same length, holds no backslash and
    still does not end with a slash, so that the later removal of a trailing
    slash never changes it. *)
Theorem input_root_normalised p :
  Py.endswith p "/" || Py.endswith p "\" = false →
  Py.contains (normalise_input_path p) "\" = false
  ∧ Py.endswith (normalise_input_path p) "/" = false
  ∧ String.length (normalise_input_path p) = String.length p
  ∧ strip_input_path (normalise_input_path p) = normalise_input_path p
  ∧ (Py.contains p "\" = false → normalise_input_path p = p).
Proof.
  intros H. apply orb_false_elim in H as [Hs Hb].
  rewrite endswith_char in Hs, Hb.
  apply bool_decide_eq_false in Hs, Hb.
  unfold normalise_input_path.
  assert (last_char (Py.replace "\" "/" p) ≠ Some "/"%char) as Hlast.
  { rewrite last_char_replace. destruct (last_char p) as [x|]; [|done].
    simpl. case_bool_decide; congruence. }
  split; [|split; [|split; [|split]]].
  - rewrite contains_char. by apply replace_char_removes.
  - rewrite endswith_char. by apply bool_decide_eq_false.
  - apply replace_char_length.
  - by apply strip_input_path_last.
  - intros Hno. apply replace_char_absent. by rewrite <- contains_char.
Qed.

Lemma input_root_normalised_witness :
  Py.endswith "c:\data\2025" "/" || Py.endswith "c:\data\2025" "\" = false
  ∧ Py.contains (normalise_input_path "c:\data\2025") "\" = false
  ∧ Py.endswith (normalise_input_path "c:\data\2025") "/" = false
  ∧ String.length (normalise_input_path "c:\data\2025")
    = String.length "c:\data\2025"
  ∧ strip_input_path (normalise_input_path "c:\data\2025")
    = normalise_input_path "c:\data\2025".
Proof.
  assert (Py.endswith "c:\data\2025" "/" || Py.endswith "c:\data\2025" "\"
          = false) as H by reflexivity.
  destruct (input_root_normalised "c:\data\2025" H) as (R1 & R2 & R3 & R4 & _).
  exact (conj H (conj R1 (conj R2 (conj R3 R4)))).
Defined.

(** ** Splitting at a character *)

Lemma str_split_no_sep sep a : has_char sep a = false → str_split sep a = [a].
Proof.
  induction a as [|x a IH]; [done|]. cbn [has_char str_split]. intros H.
  apply orb_false_elim in H as [Hx H]. by rewrite Hx, IH.
Qed.

Lemma str_split_app_sep sep a b :
  has_char sep a = false →
  str_split sep (a +:+ String sep b) = a :: str_split sep b.
Proof.
  induction a as [|x a IH].
  - intros _. rewrite app_empty_l. cbn [str_split].
    by rewrite bool_decide_true.
  - cbn [has_char]. intros H. apply orb_false_elim in H as [Hx H].
    rewrite app_cons. cbn [str_split]. by rewrite Hx, IH.
Qed.

Lemma str_split_slash a b :
  has_char "/" a = false →
  str_split "/" (a +:+ "/" +:+ b) = a :: str_split "/" b.
Proof. apply str_split_app_sep. Qed.

Lemma first_piece sep s :
  has_char sep s = false
  ∨ ∃ a b, s = a +:+ String sep b ∧ has_char sep a = false.
Proof.
  induction s as [|x s IH]; [by left|].
  destruct (decide (x = sep)) as [->|Hne].
  - right. exists "", s. by rewrite app_empty_l.
  - destruct IH as [H|(a & b & -> & Ha)].
    + left. cbn [has_char]. rewrite H. by rewrite bool_decide_false.
    + right. exists (String x a), b. rewrite app_cons. split; [done|].
      cbn [has_char]. rewrite Ha. by rewrite bool_decide_false.
Qed.

Lemma count_char_app c s t :
  count_char c (s +:+ t) = count_char c s + count_char c t.
Proof.
  induction s as [|x s IH]; [by rewrite app_empty_l|].
  rewrite app_cons. cbn [count_char]. rewrite IH. lia.
Qed.

Lemma count_char_zero c s : has_char c s = false ↔ count_char c s = 0.
Proof.
  induction s as [|x s IH]; [done|]. cbn [has_char count_char].
  rewrite orb_false_iff, IH.
  case_bool_decide; simpl; (split; [intros [? ?]|intros ?]);
    try done; try lia.
Qed.

Lemma startswith_refl s : Py.startswith s s = true.
Proof.
  pose proof (prefix_app s "") as H. by rewrite app_empty_r in H.
Qed.

Lemma location_cases q :
  has_char "\" q = false →
  (has_char "/" q = false
   ∧ str_join "/" (take 2 (str_split "/" q)) = q)
  ∨ (∃ a r, q = a +:+ "/" +:+ r ∧ has_char "/" a = false
            ∧ has_char "/" r = false
            ∧ str_join "/" (take 2 (str_split "/" q)) = q)
  ∨ (∃ a b rest, q = a +:+ "/" +:+ b +:+ "/" +:+ rest
                 ∧ has_char "/" a = false ∧ has_char "/" b = false
                 ∧ str_join "/" (take 2 (str_split "/" q)) = a +:+ "/" +:+ b).
Proof.
  intros _. destruct (first_piece "/" q) as [H|(a & r & -> & Ha)].
  - left. split; [done|]. by rewrite str_split_no_sep.
  - right. rewrite str_split_app_sep by done.
    destruct (first_piece "/" r) as [H|(b & rest & -> & Hb)].
    + left. exists a, r. rewrite str_split_no_sep by done. by repeat split.
    + right. exists a, b, rest. rewrite str_split_app_sep by done.
      by repeat split.
Qed.

(** X12. The sample location function.  The location of a path is its
    first two folders: with backslashes read as slashes, a path [a/b/rest]
    has the location [a/b].  A path with less than two slashes is its own
    location, file name included.  In every case the location is a prefix
    of the path, holds one slash at most and no backslash, and is its own
    location. *)
Theorem location_is_first_two_folders p :
  (∀ a b rest,
     has_char "/" a = false → has_char "/" b = false →
     Py.replace "\" "/" p = a +:+ "/" +:+ b +:+ "/" +:+ rest →
     custom_relative_path_to_location p = a +:+ "/" +:+ b)
  ∧ (count_char "/" (Py.replace "\" "/" p) ≤ 1 →
     custom_relative_path_to_location p = Py.replace "\" "/" p)
  ∧ Py.startswith (Py.replace "\" "/" p) (custom_relative_path_to_location p)
    = true
  ∧ count_char "/" (custom_relative_path_to_location p) ≤ 1
  ∧ has_char "\" (custom_relative_path_to_location p) = false
  ∧ custom_relative_path_to_location (custom_relative_path_to_location p)
    = custom_relative_path_to_location p.
Proof.
  unfold custom_relative_path_to_location.
  assert (has_char "\" (Py.replace "\" "/" p) = false) as Hq
    by (by apply replace_char_removes).
  set (q := Py.replace "\" "/" p) in *. clearbody q.
  assert (∀ a b rest,
            has_char "/" a = false → has_char "/" b = false →
            q = a +:+ "/" +:+ b +:+ "/" +:+ rest →
            str_join "/" (take 2 (str_split "/" q)) = a +:+ "/" +:+ b) as Hab.
  { intros a b rest Ha Hb ->.
    rewrite str_split_slash by done. by rewrite str_split_slash. }
  split; [done|].
  destruct (location_cases q Hq)
    as [[H1 ->]|[(a & r & -> & Ha & Hr & ->)|(a & b & rest & -> & Ha & Hb & ->)]].
  - split; [done|]. split; [apply startswith_refl|].
    split; [apply count_char_zero in H1; lia|]. split; [done|].
    rewrite replace_char_absent by done. by rewrite str_split_no_sep.
  - split; [done|]. split; [apply startswith_refl|].
    split.
    { rewrite !count_char_app. apply count_char_zero in Ha, Hr.
      rewrite Ha, Hr. simpl. lia. }
    split; [done|]. rewrite replace_char_absent by done.
    rewrite str_split_slash by done. by rewrite str_split_no_sep.
  - split.
    { intros Hc. rewrite !count_char_app in Hc. simpl in Hc. lia. }
    split.
    { unfold Py.startswith.
      replace (a +:+ "/" +:+ b +:+ "/" +:+ rest)
        with ((a +:+ "/" +:+ b) +:+ "/" +:+ rest)
        by (by rewrite !app_assoc_s).
      apply prefix_app. }
    rewrite !has_char_app in Hq.
    apply orb_false_elim in Hq as [Hqa Hq].
    apply orb_false_elim in Hq as [_ Hq].
    apply orb_false_elim in Hq as [Hqb _].
    split.
    { rewrite !count_char_app. apply count_char_zero in Ha, Hb.
      rewrite Ha, Hb. simpl. lia. }
    split.
    { rewrite !has_char_app, Hqa, Hqb. done. }
    rewrite replace_char_absent by (by rewrite !has_char_app, Hqa, Hqb).
    rewrite str_split_slash by done. by rewrite str_split_no_sep.
Qed.

Lemma location_is_first_two_folders_witness :
  (has_char "/" "north_fork" = false ∧ has_char "/" "site001" = false
   ∧ Py.replace "\" "/" "north_fork\site001\recnyx001\image001.jpg"
     = "north_fork" +:+ "/" +:+ "site001" +:+ "/" +:+ "recnyx001/image001.jpg")
  ∧ custom_relative_path_to_location "north_fork\site001\recnyx001\image001.jpg"
    = "north_fork" +:+ "/" +:+ "site001".
Proof.
  assert (has_char "/" "north_fork" = false) as H1 by reflexivity.
  assert (has_char "/" "site001" = false) as H2 by reflexivity.
  assert (Py.replace "\" "/" "north_fork\site001\recnyx001\image001.jpg"
          = "north_fork" +:+ "/" +:+ "site001" +:+ "/" +:+ "recnyx001/image001.jpg")
    as H3 by reflexivity.
  exact (conj (conj H1 (conj H2 H3))
           (proj1 (location_is_first_two_folders
                     "north_fork\site001\recnyx001\image001.jpg")
              _ _ _ H1 H2 H3)).
Defined.

(** ** The list of the locations *)

Lemma location_set_fold (f : string → string) (l : list string) (acc : gset string) :
  foldl (λ location_names relative_path, {[f relative_path]} ∪ location_names)
    acc l
  = list_to_set (f <$> l) ∪ acc.
Proof.
  revert acc. induction l as [|x l IH]; intros acc; simpl.
  - by rewrite (left_id_L ∅ (∪)).
  - rewrite IH, (assoc_L (∪)). f_equal. apply (comm_L (∪)).
Qed.

(** X13. The cell that lists the locations.  Run on a combined results
    file, it prints the locations of its images in increasing order, each
    one once, a location being printed when and only when an image maps to
    it; it returns them and changes no file. *)
Theorem locations_listed_once_in_order relative_path_to_location out d x w :
  files w !! out = Some (File (JsonResults d) x) →
  ∃ names,
    location_names_cell relative_path_to_location out w
    = (World (files w) (stdout w ++ names), inr names)
    ∧ Sorted String.le names
    ∧ NoDup names
    ∧ (∀ s, s ∈ names ↔
            ∃ im, im ∈ tr_images d ∧ relative_path_to_location (im_file im) = s)
    ∧ length names ≤ length (tr_images d).
Proof.
  intros Hfile.
  set (names := Py.sorted (elements (list_to_set (relative_path_to_location
                  <$> (im_file <$> tr_images d)) : gset string))).
  assert (names ≡ₚ elements (list_to_set (relative_path_to_location
                     <$> (im_file <$> tr_images d)) : gset string)) as Hperm
    by apply sorted_Permutation.
  assert (∀ s, s ∈ names ↔
               ∃ im, im ∈ tr_images d ∧ relative_path_to_location (im_file im) = s)
    as Hel.
  { intros s. rewrite Hperm, elem_of_elements, elem_of_list_to_set.
    rewrite list_elem_of_fmap. split.
    - intros (fn & -> & Hfn). apply list_elem_of_fmap in Hfn as (im & -> & Him).
      by exists im.
    - intros (im & Him & <-). eexists. split; [done|].
      apply list_elem_of_fmap. by exists im. }
  assert (NoDup names) as Hnd.
  { rewrite Hperm. apply NoDup_elements. }
  exists names. split; [|split; [|split; [|split]]].
  - unfold location_names_cell, load_results, json_load. unfold bind at 1.
    unfold bind at 1. rewrite Hfile. cbn [f_data]. cbn match.
    cbn [results_object]. unfold ret at 1. cbn match.
    rewrite location_set_fold, (right_id_L ∅ (∪)).
    fold names. unfold bind. rewrite print_all. reflexivity.
  - apply sorted_Sorted.
  - done.
  - done.
  - trans (length (relative_path_to_location <$> (im_file <$> tr_images d)));
      [|by rewrite !length_fmap].
    apply submseteq_length, NoDup_submseteq; [done|].
    intros s Hs. apply Hel in Hs as (im & Him & <-).
    apply list_elem_of_fmap. eexists. split; [done|].
    apply list_elem_of_fmap. by exists im.
Qed.

Lemma locations_listed_once_in_order_witness :
  files (World {["/out/all.json" :=
                   File (JsonResults
                           (example_results
                              [record "a/x/1.jpg"; record "b/y/1.jpg";
                               record "a/x/2.jpg"])) false]} [])
    !! "/out/all.json"
  = Some (File (JsonResults
                  (example_results
                     [record "a/x/1.jpg"; record "b/y/1.jpg";
                      record "a/x/2.jpg"])) false)
  ∧ ∃ names,
      location_names_cell custom_relative_path_to_location "/out/all.json"
        (World {["/out/all.json" :=
                   File (JsonResults
                           (example_results
                              [record "a/x/1.jpg"; record "b/y/1.jpg";
                               record "a/x/2.jpg"])) false]} [])
      = (World {["/out/all.json" :=
                   File (JsonResults
                           (example_results
                              [record "a/x/1.jpg"; record "b/y/1.jpg";
                               record "a/x/2.jpg"])) false]} ([] ++ names),
         inr names)
      ∧ Sorted String.le names
      ∧ NoDup names.
Proof.
  assert (files (World {["/out/all.json" :=
                   File (JsonResults
                           (example_results
                              [record "a/x/1.jpg"; record "b/y/1.jpg";
                               record "a/x/2.jpg"])) false]} [])
            !! "/out/all.json"
          = Some (File (JsonResults
                  (example_results
                     [record "a/x/1.jpg"; record "b/y/1.jpg";
                      record "a/x/2.jpg"])) false)) as H by reflexivity.
  destruct (locations_listed_once_in_order custom_relative_path_to_location
              _ _ _ _ H) as (names & R1 & R2 & R3 & _).
  split; [exact H|]. exists names. exact (conj R1 (conj R2 R3)).
Defined.

(** ** The loop of [write_code_cell] *)

Lemma try_bind_inr {A B} (a : A) (k : A → exn + B) : try_bind (inr a) k = k a.
Proof. done. Qed.

Lemma blank_test s : (0 <? String.length (strip s))%nat = false ↔ blank s.
Proof. unfold blank. rewrite Nat.ltb_ge. lia. Qed.

Lemma not_blank_test s : (0 <? String.length (strip s))%nat = true ↔ ¬ blank s.
Proof. unfold blank. rewrite Nat.ltb_lt. lia. Qed.

Lemma scan_lines_app {S} (step : S → nat * string → S) st i (l1 l2 : list string) :
  foldl step st (zip (seq i (length (l1 ++ l2))) (l1 ++ l2))
  = foldl step (foldl step st (zip (seq i (length l1)) l1))
      (zip (seq (i + length l1) (length l2)) l2).
Proof.
  rewrite length_app, seq_app.
  rewrite zip_with_app by (by rewrite length_seq).
  by rewrite foldl_app.
Qed.

Lemma scan_blank_lines first last i (l : list string) :
  Forall blank l →
  foldl (λ '(first_non_empty_line, last_non_empty_line) '(i_code_line, code_line),
           if (0 <? String.length (strip code_line))%nat then
             (match first_non_empty_line with
              | None => Some i_code_line
              | Some _ => first_non_empty_line
              end,
              Some i_code_line)
           else (first_non_empty_line, last_non_empty_line))
        (first, last) (zip (seq i (length l)) l)
  = (first, last).
Proof.
  intros H. revert i. induction H as [|x l Hx _ IH]; intros i; [done|].
  simpl. apply blank_test in Hx. rewrite Hx. apply IH.
Qed.

Lemma scan_keeps_first f last i (l : list string) :
  ∃ last',
    foldl (λ '(first_non_empty_line, last_non_empty_line) '(i_code_line, code_line),
             if (0 <? String.length (strip code_line))%nat then
               (match first_non_empty_line with
                | None => Some i_code_line
                | Some _ => first_non_empty_line
                end,
                Some i_code_line)
             else (first_non_empty_line, last_non_empty_line))
          (Some f, last) (zip (seq i (length l)) l)
    = (Some f, last').
Proof.
  revert last i. induction l as [|x l IH]; intros last i; [by eexists|].
  simpl. destruct (0 <? String.length (strip x))%nat; apply IH.
Qed.

Lemma non_empty_lines_blank c : Forall blank c → non_empty_lines c = (None, None).
Proof. intros H. unfold non_empty_lines, enumerate. by apply scan_blank_lines. Qed.

Lemma last_snoc_inv {A} (l : list A) y :
  last l = Some y → ∃ front, l = front ++ [y].
Proof.
  intros H. destruct l as [|a l' _] using rev_ind; [done|].
  rewrite last_snoc in H. injection H as ->. by eexists.
Qed.

Lemma non_empty_lines_trimmed pre body post x y :
  Forall blank pre → Forall blank post →
  head body = Some x → last body = Some y → ¬ blank x → ¬ blank y →
  non_empty_lines (pre ++ body ++ post)
  = (Some (length pre), Some (length pre + length body - 1)).
Proof.
  intros Hpre Hpost Hhead Hlast Hx Hy.
  unfold non_empty_lines, enumerate.
  rewrite scan_lines_app, scan_blank_lines by done.
  rewrite scan_lines_app, Nat.add_0_l.
  apply not_blank_test in Hx, Hy.
  destruct body as [|x' mid]; [done|]. injection Hhead as ->.
  cbn [length seq zip zip_with foldl]. rewrite Hx.
  destruct (last_snoc_inv _ _ Hlast) as [front Hfront].
  destruct front as [|x'' front].
  - injection Hfront as -> ->. simpl.
    rewrite scan_blank_lines by done. f_equal. f_equal. lia.
  - injection Hfront as <- ->.
    rewrite scan_lines_app.
    destruct (scan_keeps_first (length pre) (Some (length pre)) (S (length pre))
                front) as [last' ->].
    cbn [length seq zip zip_with foldl]. rewrite Hy.
    rewrite scan_blank_lines by done. f_equal. f_equal.
    rewrite length_app. simpl. lia.
Qed.

Lemma trim_decomposition (c : list string) :
  Forall blank c
  ∨ ∃ pre body post x y,
      c = pre ++ body ++ post ∧ Forall blank pre ∧ Forall blank post
      ∧ head body = Some x ∧ last body = Some y ∧ ¬ blank x ∧ ¬ blank y.
Proof.
  induction c as [|z c IH] using rev_ind; [left; constructor|].
  destruct IH as [Hall|(pre & body & post & x & y & -> & Hpre & Hpost & Hh & Hl & Hx & Hy)].
  - destruct (decide (blank z)) as [Hz|Hz].
    + left. apply Forall_app. split; [done|]. by constructor.
    + right. exists c, [z], [], z, z. rewrite app_nil_r.
      by repeat split.
  - right. destruct (decide (blank z)) as [Hz|Hz].
    + exists pre, body, (post ++ [z]), x, y. rewrite <- !app_assoc.
      repeat split; try done. apply Forall_app. split; [done|]. by constructor.
    + exists pre, (body ++ post ++ [z]), [], x, z.
      rewrite app_nil_r, <- !app_assoc. repeat split; try done.
      * destruct body; [done|]. done.
      * by rewrite !app_assoc, last_snoc.
Qed.

Lemma write_code_cell_blank c nb :
  Forall blank c → write_code_cell c nb = inl TypeError.
Proof. intros H. unfold write_code_cell. by rewrite non_empty_lines_blank. Qed.

Lemma write_code_cell_trimmed pre body post x y nb :
  Forall blank pre → Forall blank post →
  head body = Some x → last body = Some y → ¬ blank x → ¬ blank y →
  write_code_cell (pre ++ body ++ post) nb
  = inr (nb ++ [new_code_cell (str_join nl body)]).
Proof.
  intros Hpre Hpost Hh Hl Hx Hy. unfold write_code_cell.
  rewrite (non_empty_lines_trimmed pre body post x y) by done.
  rewrite drop_app_length.
  assert (length pre + length body - 1 - length pre + 1 = length body) as ->.
  { destruct body; [done|]. simpl. lia. }
  by rewrite take_app_length.
Qed.

(** X14. What [write_code_cell] writes.  A cell whose lines are all blank,
    and so the empty cell, raises [TypeError]: the two indices are still
    [None] when they are subtracted.  Any other cell is blank lines, then a
    body that starts and ends with a line that is not blank, then blank
    lines; one code cell is added to the notebook, whose source is the
    lines of the body, blank lines inside it included, joined by
    newlines. *)
Theorem code_cell_is_trimmed c nb :
  (Forall blank c → write_code_cell c nb = inl TypeError)
  ∧ (∀ pre body post x y,
       c = pre ++ body ++ post → Forall blank pre → Forall blank post →
       head body = Some x → last body = Some y → ¬ blank x → ¬ blank y →
       write_code_cell c nb = inr (nb ++ [new_code_cell (str_join nl body)]))
  ∧ (Forall blank c
     ∨ ∃ pre body post x y,
         c = pre ++ body ++ post ∧ Forall blank pre ∧ Forall blank post
         ∧ head body = Some x ∧ last body = Some y ∧ ¬ blank x ∧ ¬ blank y).
Proof.
  split; [|split].
  - apply write_code_cell_blank.
  - intros pre body post x y -> Hpre Hpost Hh Hl Hx Hy.
    by apply (write_code_cell_trimmed pre body post x y).
  - apply trim_decomposition.
Qed.

Lemma code_cell_is_trimmed_witness :
  (["   "; ""; "x = 1"; ""; "print(x)"; " "]
   = ["   "; ""] ++ ["x = 1"; ""; "print(x)"] ++ [" "]
   ∧ Forall blank ["   "; ""] ∧ Forall blank [" "]
   ∧ head ["x = 1"; ""; "print(x)"] = Some "x = 1"
   ∧ last ["x = 1"; ""; "print(x)"] = Some "print(x)"
   ∧ ¬ blank "x = 1" ∧ ¬ blank "print(x)")
  ∧ write_code_cell ["   "; ""; "x = 1"; ""; "print(x)"; " "] []
    = inr ([] ++ [new_code_cell (str_join nl ["x = 1"; ""; "print(x)"])]).
Proof.
  assert (["   "; ""; "x = 1"; ""; "print(x)"; " "]
          = ["   "; ""] ++ ["x = 1"; ""; "print(x)"] ++ [" "]) as H1
    by reflexivity.
  assert (Forall blank ["   "; ""]) as H2 by (repeat constructor).
  assert (Forall blank [" "]) as H3 by (repeat constructor).
  assert (head ["x = 1"; ""; "print(x)"] = Some "x = 1") as H4 by reflexivity.
  assert (last ["x = 1"; ""; "print(x)"] = Some "print(x)") as H5 by reflexivity.
  assert (¬ blank "x = 1") as H6 by (vm_compute; discriminate).
  assert (¬ blank "print(x)") as H7 by (vm_compute; discriminate).
  exact (conj (conj H1 (conj H2 (conj H3 (conj H4 (conj H5 (conj H6 H7))))))
           (proj1 (proj2 (code_cell_is_trimmed
                            ["   "; ""; "x = 1"; ""; "print(x)"; " "] []))
              _ _ _ _ _ H1 H2 H3 H4 H5 H6 H7)).
Defined.

(** ** The loop over the cells *)

Lemma read_cells_plain lines tail current_cell nb :
  Forall (λ l, end_marker l = false ∧ Py.startswith l "#%% " = false) lines →
  read_cells (lines ++ tail) current_cell nb
  = read_cells tail (current_cell ++ (rstrip <$> lines)) nb.
Proof.
  intros H. revert current_cell.
  induction H as [|l lines [Hm Hh] _ IH]; intros current_cell.
  - by rewrite app_nil_r.
  - cbn [app read_cells]. unfold end_marker in Hm. rewrite Hm, Hh.
    rewrite IH. by rewrite <- app_assoc.
Qed.

Lemma read_cells_stops pre stop post current_cell nb :
  end_marker stop = true →
  read_cells (pre ++ stop :: post) current_cell nb
  = read_cells (pre ++ [stop]) current_cell nb.
Proof.
  intros Hstop. revert current_cell nb.
  induction pre as [|l pre IH]; intros current_cell nb.
  - cbn [app read_cells]. unfold end_marker in Hstop. by rewrite Hstop.
  - cbn [app read_cells].
    destruct (Py.contains (lower (rstrip l)) "end notebook"); [done|].
    destruct (Py.startswith l "#%% "); [|apply IH].
    destruct (0 <? length current_cell)%nat.
    + destruct (write_code_cell current_cell nb) as [e|nb']; [done|].
      cbn [try_bind]. apply IH.
    + cbn [try_bind]. apply IH.
Qed.

Lemma read_cells_no_marker lines current_cell nb :
  Forall (λ l, end_marker l = false) lines →
  ∃ e, read_cells lines current_cell nb = inl e.
Proof.
  intros H. revert current_cell nb.
  induction H as [|l lines Hm _ IH]; intros current_cell nb; [by eexists|].
  cbn [read_cells]. unfold end_marker in Hm. rewrite Hm.
  destruct (Py.startswith l "#%% "); [|apply IH].
  destruct (0 <? length current_cell)%nat.
  - destruct (write_code_cell current_cell nb) as [e|nb']; [by eexists|].
    cbn [try_bind]. apply IH.
  - cbn [try_bind]. apply IH.
Qed.

Lemma read_header_suffix lines header_comment hc rest :
  read_header lines header_comment = inr (hc, rest) →
  ∃ before, lines = before ++ rest.
Proof.
  revert header_comment. induction lines as [|l lines IH]; intros header_comment;
    [done|].
  cbn [read_header]. destruct (Py.startswith l "#%%").
  - intros [= <- <-]. by exists [].
  - intros H.
    assert (∃ h, read_header lines h = inr (hc, rest)) as [h Hh].
    { repeat case_match; eauto. }
    destruct (IH h Hh) as [before ->]. by exists (l :: before).
Qed.

(** X15. The end of the notebook.  The loop over the cells stops at the
    first line that holds [end notebook], in any case of letters, and never
    reads a line after it: what follows that line does not change the
    outcome.  Without such a line the loop does not return: it raises, and
    so does the conversion of the script. *)
Theorem cells_end_at_the_marker :
  (∀ pre stop post post' current_cell nb,
     end_marker stop = true →
     read_cells (pre ++ stop :: post) current_cell nb
     = read_cells (pre ++ stop :: post') current_cell nb)
  ∧ (∀ lines current_cell nb,
       Forall (λ l, end_marker l = false) lines →
       ∃ e, read_cells lines current_cell nb = inl e)
  ∧ (∀ lines,
       Forall (λ l, end_marker l = false) lines →
       ∃ e, script_to_notebook lines = inl e).
Proof.
  split; [|split].
  - intros pre stop post post' current_cell nb Hstop.
    rewrite (read_cells_stops pre stop post) by done.
    by rewrite (read_cells_stops pre stop post').
  - intros. by apply read_cells_no_marker.
  - intros lines H. unfold script_to_notebook.
    destruct (assert_line lines 0 _) as [e|?]; [by eexists|]. cbn [try_bind].
    destruct (assert_line lines 1 _) as [e|?]; [by eexists|]. cbn [try_bind].
    destruct (assert_line lines 2 _) as [e|?]; [by eexists|]. cbn [try_bind].
    destruct (assert_line lines 3 _) as [e|?]; [by eexists|]. cbn [try_bind].
    destruct (read_header (drop 4 lines) "") as [e|[hc rest]] eqn:Hh;
      [by eexists|]. cbn [try_bind].
    apply read_header_suffix in Hh as [before Hb].
    assert (Forall (λ l, end_marker l = false) rest) as Hrest.
    { apply (Forall_drop _ 4) in H. rewrite Hb in H.
      by apply Forall_app in H as [_ H]. }
    destruct (read_cells_no_marker rest []
                [new_markdown_cell (nb_header +:+ hc)] Hrest) as [e ->].
    by eexists.
Qed.

Lemma cells_end_at_the_marker_witness :
  end_marker "#%% End notebook: turn this script into a notebook" = true
  ∧ read_cells (["x = 1"]
                ++ "#%% End notebook: turn this script into a notebook"
                   :: ["import os"]) [] []
    = read_cells (["x = 1"]
                  ++ "#%% End notebook: turn this script into a notebook"
                     :: []) [] [].
Proof.
  assert (end_marker "#%% End notebook: turn this script into a notebook" = true)
    as H by reflexivity.
  exact (conj H (proj1 cells_end_at_the_marker ["x = 1"] _ ["import os"] []
                   [] [] H)).
Defined.

(** X16. The sections of the script.  Lines that are neither a heading
    nor the end marker go to the current cell, their trailing white space
    removed.  A heading after lines of code closes the code cell, trimmed of
    its blank lines at both ends, and opens a markdown cell in which [#%%]
    is replaced by [##].  A heading that comes right after a heading adds
    its markdown cell only.  A heading, or the end marker, that comes after
    blank lines only, and the end marker that comes right after a heading,
    raise [TypeError]: a section without code stops the conversion. *)
Theorem sections_become_cells code next rest nb :
  Forall (λ l, end_marker l = false ∧ Py.startswith l "#%% " = false) code →
  Py.startswith next "#%% " = true → end_marker next = false →
  (∀ pre body post x y,
     rstrip <$> code = pre ++ body ++ post →
     Forall blank pre → Forall blank post →
     head body = Some x → last body = Some y → ¬ blank x → ¬ blank y →
     read_cells (code ++ next :: rest) [] nb
     = read_cells rest []
         (nb ++ [new_code_cell (str_join nl body)]
             ++ [new_markdown_cell (Py.replace "#%%" "##" (rstrip next))]))
  ∧ (code = [] →
     read_cells (code ++ next :: rest) [] nb
     = read_cells rest []
         (nb ++ [new_markdown_cell (Py.replace "#%%" "##" (rstrip next))]))
  ∧ (code ≠ [] → Forall blank (rstrip <$> code) →
     read_cells (code ++ next :: rest) [] nb = inl TypeError)
  ∧ (∀ stop, end_marker stop = true → Forall blank (rstrip <$> code) →
       try_bind (read_cells (code ++ stop :: rest) [] nb)
         (λ '(current_cell, nb), write_code_cell current_cell nb)
       = inl TypeError).
Proof.
  intros Hcode Hnext Hnm. unfold end_marker in Hnm.
  split; [|split; [|split]].
  - intros pre body post x y Hdec Hpre Hpost Hh Hl Hx Hy.
    rewrite read_cells_plain by done. cbn [app read_cells].
    rewrite Hnm, Hnext.
    assert ((0 <? length (rstrip <$> code))%nat = true) as ->.
    { apply Nat.ltb_lt. rewrite Hdec, !length_app.
      destruct body; [done|]. simpl. lia. }
    rewrite Hdec, (write_code_cell_trimmed pre body post x y) by done.
    cbn [try_bind].
    by rewrite <- app_assoc.
  - intros ->. cbn [app read_cells]. by rewrite Hnm, Hnext.
  - intros Hne Hblank.
    rewrite read_cells_plain by done. cbn [app read_cells].
    rewrite Hnm, Hnext.
    assert ((0 <? length (rstrip <$> code))%nat = true) as ->.
    { apply Nat.ltb_lt. rewrite length_fmap. destruct code; [done|]. simpl. lia. }
    by rewrite write_code_cell_blank.
  - intros stop Hstop Hblank. unfold end_marker in Hstop.
    rewrite read_cells_plain by done. cbn [app read_cells].
    rewrite Hstop. cbn [try_bind].
    by apply write_code_cell_blank.
Qed.

Lemma sections_become_cells_witness :
  (Forall (λ l, end_marker l = false ∧ Py.startswith l "#%% " = false)
     [""; "x = 1  "; ""]
   ∧ Py.startswith "#%% Next" "#%% " = true
   ∧ end_marker "#%% Next" = false
   ∧ rstrip <$> [""; "x = 1  "; ""] = [""] ++ ["x = 1"] ++ [""]
   ∧ Forall blank [""] ∧ head ["x = 1"] = Some "x = 1"
   ∧ last ["x = 1"] = Some "x = 1" ∧ ¬ blank "x = 1")
  ∧ read_cells ([""; "x = 1  "; ""] ++ "#%% Next" :: []) [] []
    = read_cells [] []
        ([] ++ [new_code_cell (str_join nl ["x = 1"])]
            ++ [new_markdown_cell (Py.replace "#%%" "##" (rstrip "#%% Next"))]).
Proof.
  assert (Forall (λ l, end_marker l = false ∧ Py.startswith l "#%% " = false)
            [""; "x = 1  "; ""]) as H1 by (repeat constructor).
  assert (Py.startswith "#%% Next" "#%% " = true) as H2 by reflexivity.
  assert (end_marker "#%% Next" = false) as H3 by reflexivity.
  assert (rstrip <$> [""; "x = 1  "; ""] = [""] ++ ["x = 1"] ++ [""]) as H4
    by reflexivity.
  assert (Forall blank [""]) as H5 by (repeat constructor).
  assert (head ["x = 1"] = Some "x = 1") as H6 by reflexivity.
  assert (last ["x = 1"] = Some "x = 1") as H7 by reflexivity.
  assert (¬ blank "x = 1") as H8 by (vm_compute; discriminate).
  exact (conj (conj H1 (conj H2 (conj H3 (conj H4 (conj H5 (conj H6 (conj H7 H8)))))))
           (proj1 (sections_become_cells [""; "x = 1  "; ""] "#%% Next" [] []
                     H1 H2 H3)
              _ _ _ _ _ H4 H5 H5 H6 H7 H8 H8)).
Defined.

(** ** The combined results file and the files of the job folder *)

Lemma last_char_app s t : t ≠ "" → last_char (s +:+ t) = last_char t.
Proof.
  intros Ht. induction s as [|x s IH]; [by rewrite app_empty_l|].
  rewrite app_cons.
  destruct (s +:+ t) as [|y u] eqn:E.
  - destruct s; [rewrite app_empty_l in E; done|by rewrite app_cons in E].
  - by rewrite <- IH.
Qed.

Lemma combined_file_unfold n :
  Py.startswith (base_task_name n) "/" = false →
  combined_api_output_file_of n
  = Py.join (filename_base_of n) ""
    +:+ "combined_api_outputs/" +:+ base_task_name n +:+ "_detections.json".
Proof.
  intros Hn. unfold combined_api_output_file_of, combined_api_output_folder_of.
  rewrite (join_relative (filename_base_of n) "combined_api_outputs") by done.
  set (J := Py.join (filename_base_of n) "").
  rewrite join_relative; cycle 1.
  { destruct (base_task_name n) as [|c s]; [done|].
    rewrite app_cons. unfold Py.startswith in *.
    rewrite prefix_cons, prefix_empty in Hn.
    by rewrite prefix_cons, prefix_empty. }
  assert (Py.join (J +:+ "combined_api_outputs") ""
          = J +:+ "combined_api_outputs/") as ->.
  { unfold Py.join. change (Py.startswith "" "/") with false. cbn match.
    rewrite decide_False; cycle 1.
    { destruct J; [done|]. by rewrite app_cons. }
    rewrite endswith_char, last_char_app by done.
    rewrite bool_decide_false by (simpl; congruence).
    by rewrite !app_assoc_s. }
  by rewrite !app_assoc_s.
Qed.

Lemma results_file_unfold base i :
  Py.join base (results_name i)
  = Py.join base "" +:+ "chunk" +:+ Py.zfill 3 (Py.str i) +:+ "_results.json".
Proof. by apply join_relative. Qed.

Lemma checkpoint_file_unfold base i :
  Py.join base (checkpoint_name i)
  = Py.join base "" +:+ "chunk" +:+ Py.zfill 3 (Py.str i) +:+ "_checkpoint.json".
Proof. by apply join_relative. Qed.

(** The combined results file is no file of the job folder itself. *)
Lemma combined_file_apart cfg n :
  Py.startswith (base_task_name n) "/" = false →
  filename_base cfg = filename_base_of n →
  combined_api_output_file cfg = combined_api_output_file_of n →
  ∀ i,
    combined_api_output_file cfg ≠ Py.join (filename_base cfg) (chunk_name i)
    ∧ combined_api_output_file cfg ≠ Py.join (filename_base cfg) (results_name i)
    ∧ combined_api_output_file cfg
      ≠ Py.join (filename_base cfg) (checkpoint_name i)
    ∧ combined_api_output_file cfg ≠ chunk_script cfg "run" i
    ∧ combined_api_output_file cfg ≠ chunk_script cfg "resume" i
    ∧ combined_api_output_file cfg ≠ gpu_script cfg i.
Proof.
  intros Hn Hfb Hout i. rewrite Hout, combined_file_unfold by done.
  rewrite chunk_file_unfold, results_file_unfold, checkpoint_file_unfold,
    !chunk_script_unfold, gpu_script_unfold by done.
  rewrite Hfb.
  repeat split; intros H; apply app_inj_l in H; discriminate H.
Qed.

(** X17. Reconciliation never overwrites what it reads.  With the folders
    and the file names derived as the notebook derives them, from a task
    name that does not start with a slash, the combined results file lies
    in the folder [combined_api_outputs] of the job folder: it is none of
    the chunk manifests, results files, checkpoint files and scripts, and
    all of these are after reconciliation as they were before it, whether
    it returns or raises. *)
Theorem reconcile_keeps_the_job_files cfg n all_images tasks w i :
  Py.startswith (base_task_name n) "/" = false →
  filename_base cfg = filename_base_of n →
  combined_api_output_file cfg = combined_api_output_file_of n →
  Py.startswith (combined_api_output_file cfg)
    (Py.join (filename_base cfg) "combined_api_outputs") = true
  ∧ (∀ p, p = Py.join (filename_base cfg) (chunk_name i)
          ∨ p = Py.join (filename_base cfg) (results_name i)
          ∨ p = Py.join (filename_base cfg) (checkpoint_name i)
          ∨ p = chunk_script cfg "run" i
          ∨ p = chunk_script cfg "resume" i
          ∨ p = gpu_script cfg i →
          p ≠ combined_api_output_file cfg
          ∧ files (reconcile cfg all_images tasks w).1 !! p = files w !! p).
Proof.
  intros Hn Hfb Hout. split.
  - rewrite Hout, combined_file_unfold, Hfb by done.
    rewrite (join_relative (filename_base_of n) "combined_api_outputs") by done.
    unfold Py.startswith.
    change "combined_api_outputs/" with ("combined_api_outputs" +:+ "/").
    rewrite (app_assoc_s "combined_api_outputs"), <- app_assoc_s.
    apply prefix_app.
  - intros p Hp.
    destruct (combined_file_apart cfg n Hn Hfb Hout i)
      as (H1 & H2 & H3 & H4 & H5 & H6).
    assert (p ≠ combined_api_output_file cfg) as Hne
      by (destruct Hp as [->|[->|[->|[->|[->| ->]]]]]; by apply not_eq_sym).
    split; [done|].
    pose proof (reconcile_files cfg all_images tasks w) as Hrec.
    destruct (reconcile cfg all_images tasks w) as [w' [e|combined]];
      cbn [fst]; rewrite Hrec; [done|].
    by rewrite lookup_insert_ne by (by apply not_eq_sym).
Qed.

Lemma reconcile_keeps_the_job_files_witness :
  (Py.startswith (base_task_name (JobNames "/d" "job" "/out")) "/" = false
   ∧ filename_base example_config = filename_base_of (JobNames "/d" "job" "/out")
   ∧ combined_api_output_file example_config
     = combined_api_output_file_of (JobNames "/d" "job" "/out"))
  ∧ Py.startswith (combined_api_output_file example_config)
      (Py.join (filename_base example_config) "combined_api_outputs") = true
  ∧ (∀ p, p = Py.join (filename_base example_config) (chunk_name 1)
          ∨ p = Py.join (filename_base example_config) (results_name 1)
          ∨ p = Py.join (filename_base example_config) (checkpoint_name 1)
          ∨ p = chunk_script example_config "run" 1
          ∨ p = chunk_script example_config "resume" 1
          ∨ p = gpu_script example_config 1 →
          p ≠ combined_api_output_file example_config
          ∧ files (reconcile example_config seven_images example_tasks
                     after_inference).1 !! p
            = files after_inference !! p).
Proof.
  assert (Py.startswith (base_task_name (JobNames "/d" "job" "/out")) "/" = false)
    as H1 by reflexivity.
  assert (filename_base example_config
          = filename_base_of (JobNames "/d" "job" "/out")) as H2 by reflexivity.
  assert (combined_api_output_file example_config
          = combined_api_output_file_of (JobNames "/d" "job" "/out")) as H3
    by reflexivity.
  exact (conj (conj H1 (conj H2 H3))
           (reconcile_keeps_the_job_files example_config
              (JobNames "/d" "job" "/out") seven_images example_tasks
              after_inference 1 H1 H2 H3)).
Defined.

(** X18. The constants must be set.  As long as [job_date] is [None], or
    the short name of the organization is still [organization], the cell of
    the constants stops on its assertion, for any input folder that exists
    and does not end with a separator; with both set it returns the task
    name [organization-date-version], with the tag in between when there is
    one, the output folder of the organization, and the input folder with
    its backslashes replaced. *)
Theorem constants_must_be_set isdir k :
  Py.endswith (jc_input_path k) "/" || Py.endswith (jc_input_path k) "\" = false →
  isdir (jc_input_path k) = true →
  (job_date k = None ∨ organization_name_short k = "organization" →
   constants_cell isdir k = inl (AssertionError None))
  ∧ (∀ d, job_date k = Some d → organization_name_short k ≠ "organization" →
       constants_cell isdir k
       = inr (JobNames (normalise_input_path (jc_input_path k))
                (organization_name_short k +:+ "-" +:+ d
                 +:+ match job_tag k with
                     | None => ""
                     | Some t => "-" +:+ t
                     end
                 +:+ "-" +:+ detector_version k)
                (Py.join (postprocessing_base k) (organization_name_short k)))).
Proof.
  intros Hend Hdir. unfold constants_cell. rewrite Hend, Hdir. cbn [negb].
  split.
  - intros [-> | Horg]; [done|].
    destruct (job_date k); [|done].
    rewrite bool_decide_false; [done|]. by intros H.
  - intros d -> Horg. by rewrite bool_decide_true.
Qed.

Lemma constants_must_be_set_witness :
  (Py.endswith (jc_input_path
                  (JobConstants "/drive/organization" "organization" None None
                     "/home/user/postprocessing" "v5a.0.0")) "/"
   || Py.endswith (jc_input_path
                     (JobConstants "/drive/organization" "organization" None None
                        "/home/user/postprocessing" "v5a.0.0")) "\" = false
   ∧ (λ _, true) (jc_input_path
                    (JobConstants "/drive/organization" "organization" None None
                       "/home/user/postprocessing" "v5a.0.0")) = true)
  ∧ constants_cell (λ _, true)
      (JobConstants "/drive/organization" "organization" None None
         "/home/user/postprocessing" "v5a.0.0")
    = inl (AssertionError None).
Proof.
  assert (Py.endswith (jc_input_path
                  (JobConstants "/drive/organization" "organization" None None
                     "/home/user/postprocessing" "v5a.0.0")) "/"
   || Py.endswith (jc_input_path
                     (JobConstants "/drive/organization" "organization" None None
                        "/home/user/postprocessing" "v5a.0.0")) "\" = false)
    as H1 by reflexivity.
  assert ((λ _ : string, true) (jc_input_path
                    (JobConstants "/drive/organization" "organization" None None
                       "/home/user/postprocessing" "v5a.0.0")) = true)
    as H2 by reflexivity.
  exact (conj (conj H1 H2)
           (proj1 (constants_must_be_set (λ _, true) _ H1 H2)
              (or_introl eq_refl))).
Defined.

(** ** When the validation pass returns *)

Lemma validation_pass_inv cfg ip all_images tasks w w' r :
  validation_pass cfg ip all_images tasks w = (w', inr r) →
  Forall (task_valid ip w) tasks
  ∧ (Z.of_nat (sum_list (failures_of w <$> tasks))
     < max_tolerable_failed_images cfg)%Z
  ∧ r = (validated_task ip w <$> tasks, sum_list (failures_of w <$> tasks))
  ∧ files w' = files w.
Proof.
  intros H.
  pose proof (keeps_files_validation_pass cfg ip all_images tasks w) as Hf.
  rewrite H in Hf. simpl in Hf.
  unfold validation_pass in H. unfold bind at 1 in H.
  destruct (check_output_files tasks w) as [w0 [e|[]]] eqn:Hc; [done|].
  apply check_output_files_world in Hc as ->.
  unfold bind at 1 in H.
  destruct (validate_tasks ip tasks w) as [w1 [e|[tasks' n]]] eqn:Hv; [done|].
  destruct (validate_tasks_spec ip tasks w) as (Hok & Hinv & _).
  pose proof (Hinv _ _ Hv) as Hvalid.
  rewrite (Hok Hvalid) in Hv. injection Hv as <- <- <-.
  unfold bind, assert, print, ret, raise in H.
  destruct (Z.of_nat _ <? _)%Z eqn:Htol; [|done].
  injection H as <- <-. apply Z.ltb_lt in Htol. done.
Qed.

(** X19. The validation pass returns exactly when every task is valid
    (its chunk file loads and can be iterated, be it an array, an object
    read by its keys or a string read by its characters, its results file
    holds an object with the key ['images'], every record is under the
    root, in the manifest and without null failure, every entry of the
    manifest has a record) and the failures of all the tasks are fewer than
    the tolerance.  It then returns the tasks with their results and the
    count of the failures, and has changed no file. *)
Theorem validation_returns_exactly_when cfg ip all_images tasks w :
  ((∃ w' r, validation_pass cfg ip all_images tasks w = (w', inr r))
   ↔ Forall (task_valid ip w) tasks
     ∧ (Z.of_nat (sum_list (failures_of w <$> tasks))
        < max_tolerable_failed_images cfg)%Z)
  ∧ (∀ w' r, validation_pass cfg ip all_images tasks w = (w', inr r) →
       r = (validated_task ip w <$> tasks, sum_list (failures_of w <$> tasks))
       ∧ files w' = files w).
Proof.
  split; [split|].
  - intros (w' & r & H).
    destruct (validation_pass_inv _ _ _ _ _ _ _ H) as (? & ? & _). done.
  - intros [Hvalid Htol].
    rewrite (validation_pass_valid cfg ip all_images tasks w Hvalid).
    apply Z.ltb_lt in Htol. rewrite Htol. by eexists _, _.
  - intros w' r H.
    destruct (validation_pass_inv _ _ _ _ _ _ _ H) as (_ & _ & ? & ?). done.
Qed.

Lemma validation_returns_exactly_when_witness :
  (Forall (task_valid "/d" after_inference) example_tasks
   ∧ (Z.of_nat (sum_list (failures_of after_inference <$> example_tasks))
      < max_tolerable_failed_images example_config)%Z)
  ∧ ∃ w' r,
      validation_pass example_config "/d" seven_images example_tasks
        after_inference = (w', inr r).
Proof.
  assert (validate_tasks "/d" example_tasks after_inference
          = (after_inference,
             inr (validated_task "/d" after_inference <$> example_tasks, 1)))
    as H by (vm_compute; reflexivity).
  destruct (validate_tasks_spec "/d" example_tasks after_inference)
    as (_ & Hinv & _).
  pose proof (Hinv _ _ H) as H1.
  assert (Z.of_nat (sum_list (failures_of after_inference <$> example_tasks))
          < max_tolerable_failed_images example_config)%Z as H2
    by (vm_compute; reflexivity).
  exact (conj (conj H1 H2)
           (proj2 (proj1 (validation_returns_exactly_when example_config "/d"
                            seven_images example_tasks after_inference))
              (conj H1 H2))).
Defined.

(** ** When reconciliation returns *)

Lemma valid_tasks_results ip w tasks :
  Forall (task_valid ip w) tasks →
  ∃ rs, Forall2 (λ t r, results_of w t = Some r) tasks rs.
Proof.
  induction 1 as [|t tasks (m & r & _ & Hr & _) _ [rs IH]].
  - exists []. constructor.
  - exists (r :: rs). by constructor.
Qed.

Lemma results_functional (tasks : list task) rs1 rs2 :
  Forall2 (λ t r, results t = Some r) tasks rs1 →
  Forall2 (λ t r, results t = Some r) tasks rs2 → rs1 = rs2.
Proof.
  intros H. revert rs2. induction H as [|t r tasks rs Hr _ IH]; intros rs2 H2.
  - by apply Forall2_nil_inv_l in H2.
  - apply Forall2_cons_inv_l in H2 as (r' & rs'' & Hr' & H2 & ->).
    rewrite Hr in Hr'. injection Hr' as <-. f_equal. by apply IH.
Qed.

Lemma validated_results_metadata_inv ip rs :
  metadata_consistent (validated_results ip <$> rs) → metadata_consistent rs.
Proof.
  destruct rs as [|r0 rest]; [done|]. simpl.
  intros (i0 & c0 & Hi & Hc & Hrest). exists i0, c0.
  split; [done|]. split; [done|].
  apply Forall_forall. intros r Hr. rewrite Forall_forall in Hrest.
  apply (Hrest (validated_results ip r)). apply list_elem_of_fmap. by exists r.
Qed.

Lemma validated_records_length ip rs :
  length (all_records (validated_results ip <$> rs)) = length (all_records rs).
Proof.
  induction rs as [|r rs IH]; [done|].
  change (all_records (validated_results ip <$> r :: rs))
    with ((absolute_file ip <$> tr_images r)
          ++ all_records (validated_results ip <$> rs)).
  change (all_records (r :: rs)) with (tr_images r ++ all_records rs).
  by rewrite !length_app, length_fmap, IH.
Qed.

Lemma valid_records_start_with_root ip w tasks rs :
  Forall (task_valid ip w) tasks →
  Forall2 (λ t r, results_of w t = Some r) tasks rs →
  Forall (λ im, Py.startswith (im_file im) ip = true)
    (all_records (validated_results ip <$> rs)).
Proof.
  intros Hvalid Hres. unfold all_records.
  induction Hres as [|t r tasks rs Hr _ IH]; [constructor|].
  apply Forall_cons in Hvalid as [(m & r' & _ & Hr' & Hok & _) Hvalid].
  rewrite Hr in Hr'. injection Hr' as <-.
  simpl. apply Forall_app. split; [|by apply IH].
  apply Forall_fmap. eapply Forall_impl; [exact Hok|].
  by intros im (? & _).
Qed.

(** X20. Reconciliation returns exactly when: every task is valid (as the
    validation pass reads its chunk file and its results file), the
    failures are fewer than the tolerance, the results of the tasks agree
    on the format version and on the detection categories, no path occurs
    twice among the records of all the tasks, the records are as many as
    the images enumerated, and no path holds a backslash once made
    absolute.  It then returns the metadata of the first task with the
    records of all the tasks in task order, as the loop that makes the
    paths relative leaves them. *)
Theorem reconcile_returns_exactly_when cfg all_images tasks w :
  ((∃ w' c, reconcile cfg all_images tasks w = (w', inr c))
   ↔ ∃ rs,
       Forall2 (λ t r, results_of w t = Some r) tasks rs
       ∧ Forall (task_valid (strip_input_path (input_path cfg)) w) tasks
       ∧ (Z.of_nat (sum_list (failures_of w <$> tasks))
          < max_tolerable_failed_images cfg)%Z
       ∧ metadata_consistent rs
       ∧ NoDup (im_file <$> all_records
                  (validated_results (strip_input_path (input_path cfg)) <$> rs))
       ∧ length (all_records rs) = length all_images
       ∧ Forall (λ im, Py.contains (im_file im) "\" = false)
           (all_records
              (validated_results (strip_input_path (input_path cfg)) <$> rs)))
  ∧ (∀ w' c rs,
       reconcile cfg all_images tasks w = (w', inr c) →
       Forall2 (λ t r, results_of w t = Some r) tasks rs →
       c = TaskResults (head rs ≫= tr_info) (head rs ≫= tr_detection_categories)
             (relativized (strip_input_path (input_path cfg))
                <$> all_records
                      (validated_results (strip_input_path (input_path cfg))
                         <$> rs))).
Proof.
  set (ip := strip_input_path (input_path cfg)).
  assert (∀ w' c, reconcile cfg all_images tasks w = (w', inr c) →
            ∃ rs,
              Forall2 (λ t r, results_of w t = Some r) tasks rs
              ∧ Forall (task_valid ip w) tasks
              ∧ (Z.of_nat (sum_list (failures_of w <$> tasks))
                 < max_tolerable_failed_images cfg)%Z
              ∧ metadata_consistent rs
              ∧ NoDup (im_file <$> all_records (validated_results ip <$> rs))
              ∧ length (all_records rs) = length all_images
              ∧ Forall (λ im, Py.contains (im_file im) "\" = false)
                  (all_records (validated_results ip <$> rs))
              ∧ c = TaskResults (head rs ≫= tr_info)
                      (head rs ≫= tr_detection_categories)
                      (relativized ip
                         <$> all_records (validated_results ip <$> rs)))
    as Hinv.
  { intros w' c H. unfold reconcile in H. fold ip in H. unfold bind at 1 in H.
    destruct (validation_pass cfg ip all_images tasks w) as [w1 [e|r]] eqn:Hv;
      [done|].
    destruct (validation_pass_inv _ _ _ _ _ _ _ Hv) as (Hvalid & Htol & -> & _).
    cbn [fst] in H.
    destruct (valid_tasks_results ip w tasks Hvalid) as [rs Hrs].
    unfold merge_pass in H. unfold bind at 1 in H.
    destruct (merge_results all_images _ w1) as [w2 [e|c1]] eqn:Hm; [done|].
    destruct (merge_results_inv_full _ _ _ _ _ Hm)
      as (rs' & Hres' & Hmeta & Hnd & Hlen & ->).
    pose proof (results_functional _ _ _ Hres'
                  (validated_tasks_results ip w tasks rs Hrs)) as ->.
    unfold bind at 1 in H.
    destruct (convert_to_relative ip _ w2) as [w3 [e|c2]] eqn:Hc; [done|].
    pose proof (convert_to_relative_inv _ _ _ _ _ Hc) as Hrel.
    rewrite convert_to_relative_passes in Hc by done.
    injection Hc as <- <-.
    unfold bind, write_file, print, ret in H. injection H as <- <-.
    exists rs. split; [done|]. split; [done|]. split; [done|].
    split; [by apply (validated_results_metadata_inv ip)|].
    split; [done|].
    split; [by rewrite <- (validated_records_length ip)|].
    split.
    - eapply Forall_impl; [exact Hrel|]. by intros im [? _].
    - cbn [merged tr_info tr_detection_categories tr_images].
      by destruct (head_validated_results ip rs) as [-> ->]. }
  split; [split|].
  - intros (w' & c & H). destruct (Hinv w' c H) as (rs & H1 & H2 & H3 & H4 & H5 & H6 & H7 & _).
    exists rs. by repeat split.
  - intros (rs & Hrs & Hvalid & Htol & Hmeta & Hnd & Hlen & Hbs).
    unfold reconcile. fold ip. unfold bind at 1.
    rewrite (validation_pass_valid cfg ip all_images tasks w Hvalid).
    apply Z.ltb_lt in Htol. rewrite Htol. cbn [fst].
    unfold merge_pass. unfold bind at 1.
    rewrite (merge_results_ok all_images _ (validated_results ip <$> rs)).
    + unfold bind at 1. rewrite convert_to_relative_passes.
      * unfold bind, write_file, print, ret. by eexists _, _.
      * cbn [merged tr_images].
        pose proof (valid_records_start_with_root ip w tasks rs Hvalid Hrs) as Hst.
        rewrite Forall_forall in Hst, Hbs. apply Forall_forall.
        intros im Him. split; [by apply Hbs|by apply Hst].
    + by apply validated_tasks_results.
    + by apply validated_results_metadata.
    + done.
    + by rewrite validated_records_length.
  - intros w' c rs H Hrs.
    destruct (Hinv w' c H) as (rs' & Hrs' & _ & _ & _ & _ & _ & _ & ->).
    assert (rs' = rs) as ->; [|done].
    clear -Hrs Hrs'. revert rs' Hrs'.
    induction Hrs as [|t r tasks rs Hr _ IH]; intros rs' Hrs'.
    + by apply Forall2_nil_inv_l in Hrs'.
    + apply Forall2_cons_inv_l in Hrs' as (r' & rs'' & Hr' & Hrs' & ->).
      rewrite Hr in Hr'. injection Hr' as <-. f_equal. by apply IH.
Qed.

Lemma reconcile_returns_exactly_when_witness :
  (∃ rs,
     Forall2 (λ t r, results_of after_inference t = Some r) example_tasks rs
     ∧ Forall (task_valid (strip_input_path (input_path example_config))
                 after_inference) example_tasks
     ∧ (Z.of_nat (sum_list (failures_of after_inference <$> example_tasks))
        < max_tolerable_failed_images example_config)%Z
     ∧ metadata_consistent rs
     ∧ NoDup (im_file <$> all_records
                (validated_results (strip_input_path (input_path example_config))
                   <$> rs))
     ∧ length (all_records rs) = length seven_images
     ∧ Forall (λ im, Py.contains (im_file im) "\" = false)
         (all_records
            (validated_results (strip_input_path (input_path example_config))
               <$> rs)))
  ∧ ∃ w' c,
      reconcile example_config seven_images example_tasks after_inference
      = (w', inr c).
Proof.
  assert (metadata_consistent
            (example_results <$> [chunk0_records; chunk1_records])) as Hmeta.
  { eexists _, _. split; [done|]. split; [done|].
    repeat constructor. by eexists. }
  assert (Forall (task_valid "/d" after_inference) example_tasks) as Hvalid.
  { assert (validate_tasks "/d" example_tasks after_inference
            = (after_inference,
               inr (validated_task "/d" after_inference <$> example_tasks, 1)))
      as H by (vm_compute; reflexivity).
    destruct (validate_tasks_spec "/d" example_tasks after_inference)
      as (_ & Hinv & _).
    exact (Hinv _ _ H). }
  assert (∃ rs,
     Forall2 (λ t r, results_of after_inference t = Some r) example_tasks rs
     ∧ Forall (task_valid (strip_input_path (input_path example_config))
                 after_inference) example_tasks
     ∧ (Z.of_nat (sum_list (failures_of after_inference <$> example_tasks))
        < max_tolerable_failed_images example_config)%Z
     ∧ metadata_consistent rs
     ∧ NoDup (im_file <$> all_records
                (validated_results (strip_input_path (input_path example_config))
                   <$> rs))
     ∧ length (all_records rs) = length seven_images
     ∧ Forall (λ im, Py.contains (im_file im) "\" = false)
         (all_records
            (validated_results (strip_input_path (input_path example_config))
               <$> rs))) as Hcond.
  { exists (example_results <$> [chunk0_records; chunk1_records]).
    change (strip_input_path (input_path example_config)) with "/d".
    split; [repeat constructor|]. split; [exact Hvalid|].
    split; [vm_compute; reflexivity|]. split; [exact Hmeta|].
    split; [apply (bool_decide_unpack _); vm_compute; exact I|].
    split; [reflexivity|]. repeat constructor. }
  exact (conj Hcond
           (proj2 (proj1 (reconcile_returns_exactly_when example_config
                            seven_images example_tasks after_inference))
              Hcond)).
Defined.

(** ** What a command holds *)

Lemma contains_here s rest : Py.contains (s +:+ rest) s = true.
Proof.
  destruct (s +:+ rest) as [|c u] eqn:E.
  - destruct s; [done|by rewrite app_cons in E].
  - rewrite contains_cons, <- E, prefix_app. done.
Qed.

Lemma contains_app_r a b s : Py.contains b s = true → Py.contains (a +:+ b) s = true.
Proof.
  intros H. induction a as [|c a IH]; [by rewrite app_empty_l|].
  rewrite app_cons, contains_cons, IH. apply orb_true_r.
Qed.

Lemma contains_app_l a b s : Py.contains a s = true → Py.contains (a +:+ b) s = true.
Proof.
  induction a as [|c a IH].
  - destruct s; [|done]. intros _. rewrite app_empty_l.
    destruct b; done.
  - rewrite app_cons, !contains_cons. intros H.
    apply orb_true_iff in H as [H|H].
    + apply prefix_iff in H as [r Hr]. rewrite <- app_cons, Hr, app_assoc_s.
      by rewrite prefix_app.
    + rewrite IH by done. apply orb_true_r.
Qed.

Lemma contains_refl s : Py.contains s s = true.
Proof. pose proof (contains_here s "") as H. by rewrite app_empty_r in H. Qed.

Ltac find_in_command :=
  repeat first
    [ apply contains_here
    | apply contains_refl
    | apply contains_app_r ].

Ltac starts_command :=
  unfold Py.startswith; apply prefix_iff; eexists;
  rewrite ?app_assoc_s; reflexivity.

(** X21. What the command of a task holds.  Whatever the inference code
    in use and the options set, the command of a task holds, between double
    quotes, the model file, the chunk file of the task and its output file;
    without the YOLO scripts it starts by setting [CUDA_VISIBLE_DEVICES] to
    the GPU of the task, with them it passes [--device] and that GPU; and
    the command of [run_detector_batch] holds the checkpoint file of the
    task when checkpointing is on. *)
Theorem command_holds_the_files_of_its_task cfg i chunk_file :
  Py.contains (task_command cfg i chunk_file) (quoted (model_file cfg)) = true
  ∧ Py.contains (task_command cfg i chunk_file) (quoted chunk_file) = true
  ∧ Py.contains (task_command cfg i chunk_file)
      (quoted (output_fn_of chunk_file)) = true
  ∧ (use_yolo_inference_scripts cfg = false →
     Py.startswith (task_command cfg i chunk_file)
       ("CUDA_VISIBLE_DEVICES=" +:+ Py.str (gpu_number_of cfg i) +:+ " ") = true)
  ∧ (use_yolo_inference_scripts cfg = true →
     Py.contains (task_command cfg i chunk_file)
       ("--device " +:+ Py.str (gpu_number_of cfg i)) = true)
  ∧ (use_yolo_inference_scripts cfg = false → use_tiled_inference cfg = false →
     checkpointing_on cfg = true →
     Py.contains (task_command cfg i chunk_file)
       (quoted (checkpoint_filename_of chunk_file)) = true).
Proof.
  unfold task_command.
  destruct (use_yolo_inference_scripts cfg) eqn:Hyolo;
    [|destruct (use_tiled_inference cfg) eqn:Htiled].
  - unfold yolo_command.
    set (device := "--device " +:+ Py.str (gpu_number_of cfg i)).
    destruct (yolo_working_dir cfg), (yolo_dataset_file cfg),
      (yolo_model_type cfg), (use_symlinks_for_yolo_inference cfg);
      cbn [negb]; rewrite ?app_assoc_s;
      (split; [find_in_command|]); (split; [find_in_command|]);
      (split; [find_in_command|]); (split; [done|]);
      (split; [intros _; find_in_command|done]).
  - unfold tiled_command.
    destruct (remove_tiles cfg), (tile_size cfg) as [[x y]|], (tile_overlap cfg);
      cbn [negb]; try destruct ((0 <? x)%Z || (0 <? y)%Z);
      rewrite ?app_assoc_s;
      (split; [find_in_command|]); (split; [find_in_command|]);
      (split; [find_in_command|]);
      (split; [intros _; starts_command|]);
      (split; done).
  - unfold detector_command.
    destruct (include_image_size cfg), (include_image_timestamp cfg),
      (include_exif_data cfg), (detector_options cfg);
      rewrite ?app_assoc_s;
      (split; [find_in_command|]); (split; [find_in_command|]);
      (split; [find_in_command|]);
      (split; [intros _; starts_command|]);
      (split; [done|]);
      intros _ _ Hcp; rewrite Hcp; rewrite ?app_assoc_s; find_in_command.
Qed.

Lemma command_holds_the_files_of_its_task_witness :
  (use_yolo_inference_scripts example_config = false
   ∧ use_tiled_inference example_config = false
   ∧ checkpointing_on example_config = true)
  ∧ Py.startswith (task_command example_config 1 "/out/job/chunk001.json")
      ("CUDA_VISIBLE_DEVICES=" +:+ Py.str (gpu_number_of example_config 1) +:+ " ")
    = true
  ∧ Py.contains (task_command example_config 1 "/out/job/chunk001.json")
      (quoted (checkpoint_filename_of "/out/job/chunk001.json")) = true.
Proof.
  assert (use_yolo_inference_scripts example_config = false) as H1 by reflexivity.
  assert (use_tiled_inference example_config = false) as H2 by reflexivity.
  assert (checkpointing_on example_config = true) as H3 by reflexivity.
  destruct (command_holds_the_files_of_its_task example_config 1
              "/out/job/chunk001.json") as (_ & _ & _ & R4 & _ & R6).
  exact (conj (conj H1 (conj H2 H3)) (conj (R4 H1) (R6 H1 H2 H3))).
Defined.
